(** * lecture_transcriber: the two-pass streaming / refining pipeline

    A shallow embedding of the pipeline code of the repository
    (engine.py, transcription_engine.py, engine_lightweight.py, main.py)
    and the properties of it that the specification states.

    Layout: the Python helpers the code relies on (strings, queue.Queue,
    text files), then one module per source file with the functions as
    they are written there, then the lemmas and theorems. *)

From Stdlib Require Import Ascii String DecimalString DecimalNat.
From Stdlib Require Import ZArith Arith Bool List Lia.
Import ListNotations.

Set Implicit Arguments.

(* ===================================================================== *)
(** * Python strings *)
(* ===================================================================== *)

(** A Python [str] is a sequence of code points; the development keeps
    the Latin-1 range, one [ascii] per code point.  Slices, [find],
    [in] and [strip] are the built-in operations the code calls. *)
Module PyStr.

Definition str := list ascii.

(** String literals of the source. *)
Definition lit (s : string) : str := list_ascii_of_string s.

Definition len (s : str) : Z := Z.of_nat (length s).

(** [str.isspace] on one code point: TAB..CR, FS..US, SPACE, NEL, NBSP. *)
Definition isspace (c : ascii) : bool :=
  let n := nat_of_ascii c in
  ((9 <=? n) && (n <=? 13)) || ((28 <=? n) && (n <=? 32))
  || (n =? 133) || (n =? 160).

Fixpoint lstrip (s : str) : str :=
  match s with
  | [] => []
  | c :: r => if isspace c then lstrip r else s
  end.

Definition rstrip (s : str) : str := rev (lstrip (rev s)).

(** [s.strip()] *)
Definition strip (s : str) : str := rstrip (lstrip s).

(** [sub in s] for a one-character [sub]. *)
Definition contains (sub : ascii) (s : str) : bool :=
  existsb (Ascii.eqb sub) s.

(** [s.find(sub)] for a one-character [sub]: the lowest index, or -1. *)
Fixpoint find (s : str) (sub : ascii) : Z :=
  match s with
  | [] => -1
  | c :: r =>
      if Ascii.eqb sub c then 0
      else let k := find r sub in if k =? -1 then -1 else k + 1
  end%Z.

(** A slice bound as Python normalises it: negative bounds count from
    the end, and every bound is clamped to [0 .. len s]. *)
Definition bound (s : str) (i : Z) : nat :=
  Z.to_nat (if i <? 0 then Z.max 0 (len s + i) else Z.min i (len s))%Z.

(** [s[:j]] *)
Definition slice_to (s : str) (j : Z) : str := firstn (bound s j) s.

(** [s[i:]] *)
Definition slice_from (s : str) (i : Z) : str := skipn (bound s i) s.

(** [c * n] for a one-character [c]. *)
Definition times (c : ascii) (n : nat) : str := repeat c n.

(** Truthiness of a string: non-empty. *)
Definition truthy (s : str) : bool :=
  match s with [] => false | _ :: _ => true end.

(** [s == t] *)
Fixpoint eqb (s t : str) : bool :=
  match s, t with
  | [], [] => true
  | c :: s', d :: t' => Ascii.eqb c d && eqb s' t'
  | _, _ => false
  end.

(** [str(n)] for a natural number. *)
Definition of_nat (n : nat) : str :=
  lit (NilZero.string_of_uint (Nat.to_uint n)).

End PyStr.

Import PyStr.


(* ===================================================================== *)
(** * Text files *)
(* ===================================================================== *)

(** One file on disk, written through [with open(path, 'w') as f] and a
    sequence of [f.write] calls, read back by iterating over the lines.
    The writes are buffered: what an [f.write] is given reaches the
    file when the buffer is flushed, at the latest when the [with]
    block is left and the file closed.  An error can strike when the
    file is opened, or at a flush, inside an [f.write] or on closing;
    when, and after how much of the text, is the environment's
    choice. *)
Module PyFile.

(** The file's contents, [None] while it does not exist. *)
Definition disk := option str.

Inductive fault :=
| NoFault
| OpenFails (e : str)                (* [open] raises *)
| WriteFails (k : nat) (e : str).    (* a flush raises with [k] characters
                                        in the file *)

(** [with open(path, 'w') as f: f.write(p1); ...; f.write(pn)].
    Opening for writing truncates the file.  A flush that raises
    leaves in the file the characters that reached it before: a prefix
    of the text, which may end anywhere, also inside the argument of
    one [f.write]; the exception escapes the block, and the file is
    closed.  The file is kept as the text it holds, so [k] counts
    characters.  The result is the file afterwards and the exception
    that escaped the block, if any. *)
Definition write_file (pieces : list str) (flt : fault) (d : disk)
  : disk * option str :=
  match flt with
  | NoFault => (Some (concat pieces), None)
  | OpenFails e => (d, Some e)
  | WriteFails k e => (Some (firstn k (concat pieces)), Some e)
  end.

Definition is_newline (c : ascii) : bool :=
  Ascii.eqb c "010"%char.

(** Universal newlines on reading: CR LF and a lone CR become LF. *)
Fixpoint translate_newlines (s : str) : str :=
  match s with
  | [] => []
  | c :: r =>
      if Ascii.eqb c "013"%char then
        match r with
        | d :: r' =>
            if Ascii.eqb d "010"%char
            then "010"%char :: translate_newlines r'
            else "010"%char :: translate_newlines r
        | [] => ["010"%char]
        end
      else c :: translate_newlines r
  end.

(** The lines of a text, each with its line end when it has one:
    [cur] is the line being read, in reverse. *)
Fixpoint split_lines (cur : str) (s : str) : list str :=
  match s with
  | [] => match cur with [] => [] | _ => [rev cur] end
  | c :: r =>
      if is_newline c then rev (c :: cur) :: split_lines [] r
      else split_lines (c :: cur) r
  end.

(** [for line in f] over a file opened with [open(path, 'r')]. *)
Definition lines (content : str) : list str :=
  split_lines [] (translate_newlines content).

End PyFile.

(* ===================================================================== *)
(** * queue.Queue *)
(* ===================================================================== *)

Module PyQueue.
Section Queue.
Variable A : Type.

(** [queue.Queue(maxsize)]: FIFO; [maxsize <= 0] means no bound. *)
Record Queue := { maxsize : Z; items : list A }.

Definition new (maxsize : Z) : Queue := {| maxsize := maxsize; items := [] |}.

Definition qsize (q : Queue) : Z := Z.of_nat (List.length (items q)).

Definition full (q : Queue) : bool :=
  ((0 <? maxsize q) && (maxsize q <=? qsize q))%Z.

Definition empty (q : Queue) : bool :=
  match items q with [] => true | _ => false end.

(** [q.put_nowait(x)]: returns at once; [None] is the exception
    [queue.Full], raised without touching the queue. *)
Definition put_nowait (q : Queue) (x : A) : option Queue :=
  if full q then None
  else Some {| maxsize := maxsize q; items := items q ++ [x] |}.

(** [q.get_nowait()], and [q.get(timeout=t)] once the timeout has run
    out on an empty queue: [None] is [queue.Empty]. *)
Definition get (q : Queue) : option (A * Queue) :=
  match items q with
  | [] => None
  | x :: r => Some (x, {| maxsize := maxsize q; items := r |})
  end.

(** [queue.Queue()] has no bound, so [put] never waits: such a queue is
    kept as the plain list of its items, oldest first. *)
Definition put (q : list A) (x : A) : list A := q ++ [x].

Definition get_unbounded (q : list A) : option (A * list A) :=
  match q with
  | [] => None
  | x :: r => Some (x, r)
  end.

End Queue.
End PyQueue.

(* ===================================================================== *)
(** * engine.py *)
(* ===================================================================== *)

Module Engine.

(** [datetime.now()], read off the wall clock by the caller. *)
Record datetime := {
  year : nat; month : nat; day : nat;
  hour : nat; minute : nat; second : nat
}.

Definition digit (n : nat) : ascii := ascii_of_nat (48 + n mod 10).

(** A two-digit, zero-padded field ([%m], [%d], [%H], [%M], [%S]). *)
Definition two_digits (n : nat) : str := [digit (n / 10); digit n].

(** [now.strftime('%Y-%m-%d %H:%M:%S')] *)
Definition strftime (now : datetime) : str :=
  of_nat (year now) ++ lit "-" ++ two_digits (month now) ++ lit "-"
  ++ two_digits (day now) ++ lit " " ++ two_digits (hour now) ++ lit ":"
  ++ two_digits (minute now) ++ lit ":" ++ two_digits (second now).

(** What a call of an ASR pipeline does: hand back [result["text"]], or
    raise. *)
Inductive result :=
| Returns (text : str)
| Raises (e : str).

(** The dict handed to the update callback and kept in
    [session_transcripts]; only the refining thread sets ["timestamp"],
    to the reading of [time.time()] it is given. *)
Record transcript := {
  id : nat;
  text : str;
  status : str;
  timestamp : option Z
}.

Definition Streaming : str := lit "Streaming".
Definition Refined : str := lit "Refined".

Section WithAudio.

(** An audio chunk (a numpy array of samples); the pipeline logic never
    looks inside one. *)
Variable audio : Type.

(** [{"id": chunk_id, "audio": audio_chunk}] *)
Record job := { job_id : nat; job_audio : audio }.

(** [update_callback(event_type, data)] *)
Inductive event :=
| status_event (data : str)
| transcript_event (data : transcript).

(** The engine object, with the streaming thread's local [chunk_id],
    the calls made to [update_callback] and the lines printed, oldest
    first.  Both queues are [queue.Queue()], without bound. *)
Record engine := {
  is_running : bool;
  audio_queue : list audio;
  refine_queue : list job;
  session_file : str;
  session_transcripts : list transcript;
  sentence_buffer : str;
  chunk_id : nat;
  callbacks : list event;
  printed : list str
}.

Definition set_is_running (self : engine) (b : bool) : engine :=
  {| is_running := b; audio_queue := audio_queue self;
     refine_queue := refine_queue self; session_file := session_file self;
     session_transcripts := session_transcripts self;
     sentence_buffer := sentence_buffer self; chunk_id := chunk_id self;
     callbacks := callbacks self; printed := printed self |}.

Definition set_audio_queue (self : engine) (q : list audio) : engine :=
  {| is_running := is_running self; audio_queue := q;
     refine_queue := refine_queue self; session_file := session_file self;
     session_transcripts := session_transcripts self;
     sentence_buffer := sentence_buffer self; chunk_id := chunk_id self;
     callbacks := callbacks self; printed := printed self |}.

Definition set_refine_queue (self : engine) (q : list job) : engine :=
  {| is_running := is_running self; audio_queue := audio_queue self;
     refine_queue := q; session_file := session_file self;
     session_transcripts := session_transcripts self;
     sentence_buffer := sentence_buffer self; chunk_id := chunk_id self;
     callbacks := callbacks self; printed := printed self |}.

Definition set_session_transcripts (self : engine) (l : list transcript)
  : engine :=
  {| is_running := is_running self; audio_queue := audio_queue self;
     refine_queue := refine_queue self; session_file := session_file self;
     session_transcripts := l;
     sentence_buffer := sentence_buffer self; chunk_id := chunk_id self;
     callbacks := callbacks self; printed := printed self |}.

Definition set_sentence_buffer (self : engine) (b : str) : engine :=
  {| is_running := is_running self; audio_queue := audio_queue self;
     refine_queue := refine_queue self; session_file := session_file self;
     session_transcripts := session_transcripts self;
     sentence_buffer := b; chunk_id := chunk_id self;
     callbacks := callbacks self; printed := printed self |}.

Definition set_chunk_id (self : engine) (n : nat) : engine :=
  {| is_running := is_running self; audio_queue := audio_queue self;
     refine_queue := refine_queue self; session_file := session_file self;
     session_transcripts := session_transcripts self;
     sentence_buffer := sentence_buffer self; chunk_id := n;
     callbacks := callbacks self; printed := printed self |}.

(** [self.update_callback(...)] *)
Definition update_callback (self : engine) (ev : event) : engine :=
  {| is_running := is_running self; audio_queue := audio_queue self;
     refine_queue := refine_queue self; session_file := session_file self;
     session_transcripts := session_transcripts self;
     sentence_buffer := sentence_buffer self; chunk_id := chunk_id self;
     callbacks := callbacks self ++ [ev]; printed := printed self |}.

(** [print(...)] *)
Definition print (self : engine) (line : str) : engine :=
  {| is_running := is_running self; audio_queue := audio_queue self;
     refine_queue := refine_queue self; session_file := session_file self;
     session_transcripts := session_transcripts self;
     sentence_buffer := sentence_buffer self; chunk_id := chunk_id self;
     callbacks := callbacks self; printed := printed self ++ [line] |}.

(** The engine as [__init__] leaves it. *)
Definition init (session_file : str) : engine :=
  {| is_running := false; audio_queue := []; refine_queue := [];
     session_file := session_file; session_transcripts := [];
     sentence_buffer := []; chunk_id := 0; callbacks := []; printed := [] |}.

(** ** [_extract_complete_sentences] *)

Definition sentence_endings : list ascii := ["."; "!"; "?"]%char.

(** The loop [while ending in self.sentence_buffer] for one [ending],
    on the local [sentences] and the buffer.  [fuel] bounds the number
    of times the loop condition is evaluated; [None] is a loop that
    has not ended within it. *)
Fixpoint while_ending (fuel : nat) (ending : ascii)
    (sentences : list str) (buffer : str) : option (list str * str) :=
  match fuel with
  | O => None
  | S fuel' =>
      if contains ending buffer then
        let end_pos := find buffer ending in
        if negb (end_pos =? -1)%Z then
          let sentence := strip (slice_to buffer (end_pos + 1)) in
          let sentences :=
            if (10 <? len sentence)%Z then sentences ++ [sentence]
            else sentences in
          while_ending fuel' ending sentences
            (strip (slice_from buffer (end_pos + 1)))
        else while_ending fuel' ending sentences buffer
      else Some (sentences, buffer)
  end.

(** The loop [for ending in sentence_endings]. *)
Fixpoint for_ending (fuel : nat) (endings : list ascii)
    (sentences : list str) (buffer : str) : option (list str * str) :=
  match endings with
  | [] => Some (sentences, buffer)
  | ending :: endings' =>
      match while_ending fuel ending sentences buffer with
      | None => None
      | Some (sentences, buffer) => for_ending fuel endings' sentences buffer
      end
  end.

(** The function on the buffer alone: the sentences returned and the
    buffer left behind. *)
Definition extract (buffer : str) : option (list str * str) :=
  for_ending (S (List.length buffer)) sentence_endings [] buffer.

Definition _extract_complete_sentences (self : engine)
  : option (list str * engine) :=
  match extract (sentence_buffer self) with
  | None => None
  | Some (sentences, buffer) =>
      Some (sentences, set_sentence_buffer self buffer)
  end.

(** ** [_streaming_thread] *)

(** Lines 190-194: join the transcript to the buffer and cut. *)
Definition feed (self : engine) (transcript : str)
  : option (list str * engine) :=
  let self := set_sentence_buffer self
                (sentence_buffer self ++ lit " " ++ transcript) in
  let self := set_sentence_buffer self (strip (sentence_buffer self)) in
  _extract_complete_sentences self.

(** The body of [for sentence in sentences]. *)
Definition emit (self : engine) (sentence : str) : engine :=
  if truthy (strip sentence) then
    let self := update_callback self
      (transcript_event {| id := chunk_id self; text := sentence;
                           status := Streaming; timestamp := None |}) in
    set_chunk_id self (chunk_id self + 1)
  else self.

(** One turn of the loop [while self.is_running].  [ready] tells whether
    [self.streaming_pipeline] is loaded and [r] what the pipeline does
    if it is called in this turn. *)
Definition streaming_turn (ready : bool) (r : result) (self : engine)
  : option engine :=
  if negb ready then Some self            (* sleep, continue *)
  else
    match PyQueue.get_unbounded (audio_queue self) with
    | None => Some self                   (* queue.Empty: continue *)
    | Some (audio_chunk, q) =>
        let self := set_audio_queue self q in
        match r with
        | Raises e => Some (print self (lit "Streaming error: " ++ e))
        | Returns text =>
            let transcript := strip text in
            if truthy transcript && (2 <? len transcript)%Z then
              match feed self transcript with
              | None => None
              | Some (sentences, self) =>
                  let self := fold_left emit sentences self in
                  Some (set_refine_queue self
                          (PyQueue.put (refine_queue self)
                             {| job_id := chunk_id self;
                                job_audio := audio_chunk |}))
              end
            else Some self
        end
    end.

(** ** [_refining_thread] *)

(** One turn of its loop; [now] is [time.time()]. *)
Definition refining_turn (ready : bool) (r : result) (now : Z)
    (self : engine) : option engine :=
  if negb ready then Some self
  else
    match PyQueue.get_unbounded (refine_queue self) with
    | None => Some self
    | Some (job, q) =>
        let self := set_refine_queue self q in
        match r with
        | Raises e => Some (print self (lit "Refining error: " ++ e))
        | Returns text =>
            let transcript := strip text in
            if truthy transcript && (2 <? len transcript)%Z then
              let transcript_data :=
                {| id := job_id job; text := transcript;
                   status := Refined; timestamp := Some now |} in
              let self := set_session_transcripts self
                            (session_transcripts self ++ [transcript_data]) in
              Some (update_callback self (transcript_event transcript_data))
            else Some self
        end
    end.

(** ** [_save_session] *)

(** The arguments of the successive [f.write] calls. *)
Definition session_writes (now : datetime) (transcripts : list transcript)
  : list str :=
  (lit "Transcription Session - " ++ strftime now ++ lit (String "010" ""))
  :: (times "=" 50 ++ lit (String "010" (String "010" "")))
  :: map (fun transcript =>
            lit "[" ++ status transcript ++ lit "] " ++ text transcript
            ++ lit (String "010" (String "010" "")))
       transcripts.

(** [_save_session] on the engine and the session file; [flt] is the
    write error that strikes, if one does. *)
Definition _save_session (now : datetime) (flt : PyFile.fault)
    (self : engine) (d : PyFile.disk) : engine * PyFile.disk :=
  match PyFile.write_file (session_writes now (session_transcripts self))
          flt d with
  | (d', None) =>
      (print self (lit "Session saved to " ++ session_file self), d')
  | (d', Some e) =>
      (print self (lit "Error saving session: " ++ e), d')
  end.

(** [stop] *)
Definition stop (now : datetime) (flt : PyFile.fault)
    (self : engine) (d : PyFile.disk) : engine * PyFile.disk :=
  _save_session now flt (set_is_running self false) d.

(** ** The threads together *)

(** What can happen next: the capture thread queues a chunk it cut, a
    worker thread makes one turn of its loop, or the engine is stopped
    and its session saved.  A turn is taken as one step: the two queues
    are the only objects that two worker threads share, and a turn
    takes from one and adds to the other once. *)
Inductive action :=
| Capture (chunk : audio)
| StreamingTurn (ready : bool) (r : result)
| RefiningTurn (ready : bool) (r : result) (now : Z)
| Stop (now : datetime) (flt : PyFile.fault).

(** A worker makes a turn only while [is_running] holds. *)
Definition step (a : action) (s : engine * PyFile.disk)
  : option (engine * PyFile.disk) :=
  let (self, d) := s in
  match a with
  | Capture chunk =>
      if is_running self
      then Some (set_audio_queue self (PyQueue.put (audio_queue self) chunk), d)
      else Some s
  | StreamingTurn ready r =>
      if is_running self
      then match streaming_turn ready r self with
           | Some self' => Some (self', d)
           | None => None
           end
      else Some s
  | RefiningTurn ready r now =>
      if is_running self
      then match refining_turn ready r now self with
           | Some self' => Some (self', d)
           | None => None
           end
      else Some s
  | Stop now flt => Some (stop now flt self d)
  end.

Fixpoint run (acts : list action) (s : engine * PyFile.disk)
  : option (engine * PyFile.disk) :=
  match acts with
  | [] => Some s
  | a :: acts' =>
      match step a s with
      | None => None
      | Some s' => run acts' s'
      end
  end.

(** [start]: the flag is raised and the threads begin, the streaming
    thread with [chunk_id = 0]. *)
Definition start (self : engine) : engine :=
  set_chunk_id (set_is_running self true) 0.

End WithAudio.

Arguments init {audio}.
Arguments Capture {audio}.
Arguments StreamingTurn {audio}.
Arguments RefiningTurn {audio}.
Arguments Stop {audio}.

End Engine.

(* ===================================================================== *)
(** * transcription_engine.py *)
(* ===================================================================== *)

Module TranscriptionEngine.

(** [{"id": ..., "text": ..., "status": ...}] *)
Record transcript := { id : nat; text : str; status : str }.

Section WithAudio.
Variable audio : Type.

(** [{"id": chunk_id, "audio": audio_chunk, "text": transcript}] *)
Record job := { job_id : nat; job_audio : audio; job_text : str }.

Record engine := {
  is_running : bool;
  audio_queue : list audio;
  refine_queue : list job;
  chunk_id : nat;
  callbacks : list transcript
}.

Definition init : engine :=
  {| is_running := false; audio_queue := []; refine_queue := [];
     chunk_id := 0; callbacks := [] |}.

(** One turn of the loop of [_streaming_thread].  [__init__] does not
    set [self.streaming_pipeline]: until the models are loaded reading
    it raises AttributeError.  Only [queue.Empty] is caught here, so
    any other exception ends the thread: the right-hand result. *)
Definition streaming_turn (loaded : bool) (r : Engine.result)
    (self : engine) : engine + str :=
  match PyQueue.get_unbounded (audio_queue self) with
  | None => inl self
  | Some (audio_chunk, q) =>
      if loaded then
        match r with
        | Engine.Raises e => inr e
        | Engine.Returns transcript =>
            inl {| is_running := is_running self;
                   audio_queue := q;
                   refine_queue :=
                     PyQueue.put (refine_queue self)
                       {| job_id := chunk_id self;
                          job_audio := audio_chunk;
                          job_text := transcript |};
                   chunk_id := chunk_id self + 1;
                   callbacks :=
                     callbacks self ++
                       [{| id := chunk_id self; text := transcript;
                           status := Engine.Streaming |}] |}
        end
      else inr (lit "AttributeError")
  end.

(** The loop, fed with what the pipeline does at each turn. *)
Fixpoint _streaming_thread (turns : list (bool * Engine.result))
    (self : engine) : engine + str :=
  match turns with
  | [] => inl self
  | (loaded, r) :: turns' =>
      if is_running self then
        match streaming_turn loaded r self with
        | inl self' => _streaming_thread turns' self'
        | inr e => inr e
        end
      else inl self
  end.

End WithAudio.
End TranscriptionEngine.

(* ===================================================================== *)
(** * engine_lightweight.py *)
(* ===================================================================== *)

Module EngineLightweight.
Section WithSample.
Variable sample : Type.

Definition chunk := list sample.

Record engine := {
  is_running : bool;
  chunk_samples : nat;
  max_buffer_size : nat;
  audio_buffer : list sample;
  audio_queue : PyQueue.Queue chunk;
  printed : list str
}.

(** [__init__] with the queue bound and the chunk length it fixes:
    [queue.Queue(maxsize=3)], five seconds at 16 kHz. *)
Definition init : engine :=
  {| is_running := false; chunk_samples := 16 * 1000 * 5;
     max_buffer_size := 16 * 1000 * 5; audio_buffer := [];
     audio_queue := PyQueue.new chunk 3; printed := [] |}.

Definition set_audio (self : engine) (buf : list sample)
    (q : PyQueue.Queue chunk) (out : list str) : engine :=
  {| is_running := is_running self; chunk_samples := chunk_samples self;
     max_buffer_size := max_buffer_size self; audio_buffer := buf;
     audio_queue := q; printed := out |}.

(** Lines 206-211: hand a chunk to the queue, or skip it.  The lines
    printed are kept without the pictographs that open them in the
    source. *)
Definition offer (self : engine) (c : chunk) : engine :=
  match PyQueue.put_nowait (audio_queue self) c with
  | Some q => set_audio self (audio_buffer self) q (printed self)
  | None =>
      set_audio self (audio_buffer self) (audio_queue self)
        (printed self ++ [lit "Audio queue full, skipping chunk"])
  end.

(** [_cleanup_memory]: the buffer and the queue are emptied. *)
Definition _cleanup_memory (self : engine) : engine :=
  set_audio self []
    {| PyQueue.maxsize := PyQueue.maxsize (audio_queue self);
       PyQueue.items := [] |}
    (printed self ++ [lit "Memory cleanup completed"]).

(** One turn of the capture loop up to the hand-over of the chunk,
    lines 190-211 with the [except] of lines 224-227.  [read] is what
    [stream.read] hands back, [inr e] when it raises.  The timers that
    follow in the loop (lines 213-222) call [_cleanup_memory] above. *)
Definition capture_turn (read : list sample + str) (self : engine) : engine :=
  match read with
  | inr e =>
      set_audio self (audio_buffer self) (audio_queue self)
        (printed self ++ [lit "Audio read error: " ++ e])
  | inl new_data =>
      let buf := audio_buffer self in
      let buf :=
        if max_buffer_size self <? List.length buf
        then skipn (List.length buf - max_buffer_size self) buf
        else buf in
      let buf := buf ++ new_data in
      if chunk_samples self <=? List.length buf then
        offer (set_audio self (skipn (chunk_samples self) buf)
                 (audio_queue self) (printed self))
              (firstn (chunk_samples self) buf)
      else set_audio self buf (audio_queue self) (printed self)
  end.

(** The capture thread hands over the chunks [cs] one after the other
    while nothing is taken from the queue. *)
Definition offer_all (cs : list chunk) (self : engine) : engine :=
  fold_left offer cs self.

End WithSample.
End EngineLightweight.

(* ===================================================================== *)
(** * main.py *)
(* ===================================================================== *)

Module Main.

(** [TranscriptionUI.history]: the lines of the history, each
    ["[timestamp] [status] text"]; a line's index is what the workers
    use as its id.  Drawing on the curses pad is left out. *)
Definition history := list str.

Definition newline : str := lit (String "010" "").

(** [add_to_history]; [timestamp] is [time.strftime("%H:%M:%S")]. *)
Definition add_to_history (timestamp : str) (text status : str)
    (h : history) : history :=
  h ++ [lit "[" ++ timestamp ++ lit "] [" ++ status ++ lit "] " ++ text].

(** [s.split(']')[0]] *)
Fixpoint before_bracket (s : str) : str :=
  match s with
  | [] => []
  | c :: r => if Ascii.eqb c "]"%char then [] else c :: before_bracket r
  end.

Fixpoint set_nth (h : history) (index : nat) (line : str) : history :=
  match h, index with
  | [], _ => []
  | _ :: r, O => line :: r
  | l :: r, S i => l :: set_nth r i line
  end.

(** [update_history_line] *)
Definition update_history_line (index : Z) (new_text new_status : str)
    (h : history) : history :=
  if ((0 <=? index) && (index <? Z.of_nat (List.length h)))%Z then
    let timestamp :=
      slice_from (before_bracket (nth (Z.to_nat index) h [])) 1 in
    set_nth h (Z.to_nat index)
      (lit "[" ++ timestamp ++ lit "] [" ++ new_status ++ lit "] "
       ++ new_text)
  else h.

(** [save_session]: the [f.write] calls, one per history line. *)
Definition session_writes (h : history) : list str :=
  map (fun line => line ++ newline) h.

(** [save_session] with no write error: the session file afterwards. *)
Definition save_session (h : history) (d : PyFile.disk) : PyFile.disk :=
  fst (PyFile.write_file (session_writes h) PyFile.NoFault d).

(** [load_session]: nothing when the file does not exist. *)
Definition load_session (d : PyFile.disk) (h : history) : history :=
  match d with
  | None => h
  | Some content => h ++ map strip (PyFile.lines content)
  end.

Section WithAudio.
Variable audio : Type.

(** What [_transcribe_chunk] ends in: the text whisper wrote, stripped,
    or a failed run with its stderr. *)
Inductive whisper :=
| Transcript (text : str)
| Failed (stderr : str).

(** The transcriber with its UI; the queues carry [None] as the end
    mark; [history_index] is the streaming thread's local, and the two
    flags record that a worker has left its loop through [break]. *)
Record transcriber := {
  is_running : bool;
  ui_history : history;
  audio_queue : list (option audio);
  refine_queue : list (option (Z * audio * str));
  history_index : Z;
  streaming_done : bool;
  refining_done : bool
}.

(** [_run_whisper] seen from [_transcribe_chunk]: the text, and the
    history with the error line a failed run adds. *)
Definition _run_whisper (timestamp : str) (w : whisper) (h : history)
  : str * history :=
  match w with
  | Transcript text => (strip text, h)
  | Failed stderr =>
      ([], add_to_history timestamp (lit "Whisper failed: " ++ stderr)
             (lit "ERROR") h)
  end.

(** One turn of the loop of [streaming_processor]. *)
Definition streaming_turn (timestamp : str) (w : whisper)
    (self : transcriber) : transcriber :=
  if negb (is_running self) || streaming_done self then self else
  match PyQueue.get_unbounded (audio_queue self) with
  | None => self
  | Some (None, q) =>
      {| is_running := is_running self; ui_history := ui_history self;
         audio_queue := q;
         refine_queue := PyQueue.put (refine_queue self) None;
         history_index := history_index self;
         streaming_done := true; refining_done := refining_done self |}
  | Some (Some chunk, q) =>
      let (transcript, h) := _run_whisper timestamp w (ui_history self) in
      if truthy transcript then
        {| is_running := is_running self;
           ui_history := add_to_history timestamp transcript
                           (lit "Streaming") h;
           audio_queue := q;
           refine_queue :=
             PyQueue.put (refine_queue self)
               (Some (history_index self, chunk, transcript));
           history_index := (history_index self + 1)%Z;
           streaming_done := false; refining_done := refining_done self |}
      else
        {| is_running := is_running self; ui_history := h;
           audio_queue := q; refine_queue := refine_queue self;
           history_index := history_index self;
           streaming_done := false; refining_done := refining_done self |}
  end.

(** One turn of the loop of [refining_processor]. *)
Definition refining_turn (timestamp : str) (w : whisper)
    (self : transcriber) : transcriber :=
  if negb (is_running self) || refining_done self then self else
  match PyQueue.get_unbounded (refine_queue self) with
  | None => self
  | Some (None, q) =>
      {| is_running := is_running self; ui_history := ui_history self;
         audio_queue := audio_queue self; refine_queue := q;
         history_index := history_index self;
         streaming_done := streaming_done self; refining_done := true |}
  | Some (Some (index, chunk, stream_transcript), q) =>
      let (refined_transcript, h) :=
        _run_whisper timestamp w (ui_history self) in
      {| is_running := is_running self;
         ui_history :=
           if truthy refined_transcript
           then update_history_line (index + 1) refined_transcript
                  (lit "Refined") h
           else h;
         audio_queue := audio_queue self; refine_queue := q;
         history_index := history_index self;
         streaming_done := streaming_done self;
         refining_done := refining_done self |}
  end.

(** [main_ui] up to the start of the threads: the UI logs
    ["System Initialized."], then [start] loads the session when
    [--resume] is given, and [streaming_processor] begins with
    [history_index = 0]. *)
Definition start (timestamp : str) (resume : bool) (d : PyFile.disk)
  : transcriber :=
  let h := add_to_history timestamp (lit "System Initialized.")
             (lit "Streaming") [] in
  {| is_running := true;
     ui_history := if resume then load_session d h else h;
     audio_queue := []; refine_queue := [];
     history_index := 0;
     streaming_done := false; refining_done := false |}.

End WithAudio.
End Main.

(* ===================================================================== *)
(** * The segmenter as the specification words it *)
(* ===================================================================== *)

Module Spec.

(** Sentence-terminal punctuation. *)
Definition terminal (c : ascii) : bool :=
  Ascii.eqb "."%char c || Ascii.eqb "!"%char c || Ascii.eqb "?"%char c.

(** The index of the first character that [p] accepts. *)
Fixpoint first (p : ascii -> bool) (s : str) : option nat :=
  match s with
  | [] => None
  | c :: r =>
      if p c then Some 0
      else match first p r with
           | Some k => Some (S k)
           | None => None
           end
  end.

(** Cut at every character that [p] accepts, left to right: the text up
    to and including it is a candidate, kept when longer than ten
    characters, and the consumed prefix leaves the buffer.  Candidates
    and the remaining buffer are trimmed as the code trims them. *)
Fixpoint cut_loop (p : ascii -> bool) (fuel : nat)
    (sentences : list str) (buffer : str) : option (list str * str) :=
  match fuel with
  | O => None
  | S fuel' =>
      match first p buffer with
      | Some k =>
          let candidate := strip (firstn (S k) buffer) in
          let sentences :=
            if (10 <? len candidate)%Z then sentences ++ [candidate]
            else sentences in
          cut_loop p fuel' sentences (strip (skipn (S k) buffer))
      | None => Some (sentences, buffer)
      end
  end.

(** The scan as section 4.3 words it: "for each terminal punctuation
    occurrence found", in left-to-right order, whichever of the three
    marks it is. *)
Definition scan (buffer : str) : option (list str * str) :=
  cut_loop terminal (S (List.length buffer)) [] buffer.

(** No character that [p] accepts stands after one that [q] accepts
    and [p] does not. *)
Fixpoint none_after (p q : ascii -> bool) (s : str) : bool :=
  match s with
  | [] => true
  | c :: r =>
      (if q c && negb (p c) then negb (existsb p r) else true)
      && none_after p q r
  end.

(** The marks of the buffer stand in the order the code looks for
    them: no ['.'] after a ['!'] or ['?'], no ['!'] after a ['?']. *)
Definition kind_ordered (s : str) : bool :=
  none_after (Ascii.eqb "."%char) terminal s
  && none_after (Ascii.eqb "!"%char)
       (fun c => Ascii.eqb "!"%char c || Ascii.eqb "?"%char c) s.

(** [t] is a run of consecutive characters of [s]. *)
Definition infix (t s : str) : Prop :=
  exists l1 l2, s = l1 ++ t ++ l2.

(** What follows the last character that [p] accepts; all of [s] when
    there is none. *)
Fixpoint after_last (p : ascii -> bool) (s : str) : str :=
  match s with
  | [] => []
  | c :: r =>
      if existsb p r then after_last p r
      else if p c then r else c :: r
  end.

(** The buffer once every candidate that ends in a [p] character has
    been consumed. *)
Definition rest (p : ascii -> bool) (s : str) : str :=
  if existsb p s then strip (after_last p s) else s.

(** The ids of the entries handed to the update callback with status
    Streaming, in the order of the calls. *)
Definition streaming_ids (evs : list Engine.event) : list nat :=
  flat_map
    (fun ev =>
       match ev with
       | Engine.transcript_event t =>
           if PyStr.eqb (Engine.status t) Engine.Streaming
           then [Engine.id t] else []
       | Engine.status_event _ => []
       end)
    evs.

(** The Streaming entries that a list of sentences becomes, numbered
    from [n]. *)
Fixpoint entries (n : nat) (sentences : list str) : list Engine.event :=
  match sentences with
  | [] => []
  | s :: r =>
      Engine.transcript_event
        {| Engine.id := n; Engine.text := s;
           Engine.status := Engine.Streaming; Engine.timestamp := None |}
      :: entries (S n) r
  end.

(** A sentence worth keeping: trimmed, and longer than ten characters. *)
Definition substantial (s : str) : Prop :=
  (10 < len s)%Z /\ strip s = s.

(** What holds of the engine at every moment: the Streaming ids
    handed out so far are 0, 1, ... up to the streaming thread's
    counter, and the session list holds Refined entries only. *)
Definition inv {audio : Type} (self : Engine.engine audio) : Prop :=
  streaming_ids (Engine.callbacks self) = seq 0 (Engine.chunk_id self)
  /\ Forall (fun t => Engine.status t = Engine.Refined)
       (Engine.session_transcripts self).

(** A draft that the workers pass on: more than two characters once
    stripped. *)
Definition passes (text : str) : bool := (2 <? len (strip text))%Z.

(** What the update callback has received once the actions [acts]
    have run, and the sentence buffer at that point. *)
Definition delivered {audio : Type} (acts : list (Engine.action audio))
    (s : Engine.engine audio * PyFile.disk) : option (list Engine.event) :=
  option_map (fun sd => Engine.callbacks (fst sd)) (Engine.run acts s).

Definition buffered {audio : Type} (acts : list (Engine.action audio))
    (s : Engine.engine audio * PyFile.disk) : option str :=
  option_map (fun sd => Engine.sentence_buffer (fst sd)) (Engine.run acts s).

(** A chunk, with what the streaming pipeline did on it, that
    engine.py hands on to the refining thread. *)
Definition accepted {audio : Type} (cr : audio * Engine.result) : bool :=
  match snd cr with
  | Engine.Returns text => passes text
  | Engine.Raises _ => false
  end.

(** The turns of a streaming thread that finds its pipeline loaded and
    gets the results [fed], one per chunk. *)
Definition streaming_turns {audio : Type}
    (fed : list (audio * Engine.result)) : list (Engine.action audio) :=
  map (fun cr => Engine.StreamingTurn true (snd cr)) fed.

(** The jobs transcription_engine.py queues for the chunks [fed], each
    with its draft, numbered from [n]. *)
Fixpoint drafted_jobs {audio : Type} (n : nat) (fed : list (audio * str))
  : list (TranscriptionEngine.job audio) :=
  match fed with
  | [] => []
  | (chunk, text) :: r =>
      {| TranscriptionEngine.job_id := n;
         TranscriptionEngine.job_audio := chunk;
         TranscriptionEngine.job_text := text |} :: drafted_jobs (S n) r
  end.

(** The entries it hands to the callback for them. *)
Fixpoint drafted_entries {audio : Type} (n : nat) (fed : list (audio * str))
  : list TranscriptionEngine.transcript :=
  match fed with
  | [] => []
  | (_, text) :: r =>
      {| TranscriptionEngine.id := n;
         TranscriptionEngine.text := text;
         TranscriptionEngine.status := Engine.Streaming |}
      :: drafted_entries (S n) r
  end.

(** A reading of the clock as [datetime.now()] gives it, with a year
    of four digits or more: the model prints the year as [str(year)],
    which is what [%Y] does from the year 1000 on. *)
Definition valid (now : Engine.datetime) : bool :=
  (1000 <=? Engine.year now)
  && (1 <=? Engine.month now) && (Engine.month now <=? 12)
  && (1 <=? Engine.day now) && (Engine.day now <=? 31)
  && (Engine.hour now <=? 23) && (Engine.minute now <=? 59)
  && (Engine.second now <=? 59).

(** The first line of a saved session of engine.py. *)
Definition header (now : Engine.datetime) : str :=
  lit "Transcription Session - " ++ Engine.strftime now ++ Main.newline.

(** What follows it: the rule and one record per entry. *)
Definition body (transcripts : list Engine.transcript) : str :=
  times "=" 50 ++ Main.newline ++ Main.newline
  ++ concat (map (fun t => lit "[" ++ Engine.status t ++ lit "] "
                           ++ Engine.text t ++ Main.newline ++ Main.newline)
               transcripts).

(** Two snapshots in a row, at the clock readings [now1] and [now2],
    with nothing else happening in between: the session file after
    the first and after the second. *)
Definition snapshot_twice {audio : Type} (now1 now2 : Engine.datetime)
    (self : Engine.engine audio) (d : PyFile.disk)
  : PyFile.disk * PyFile.disk :=
  let (self1, d1) := Engine._save_session now1 PyFile.NoFault self d in
  let (self2, d2) := Engine._save_session now2 PyFile.NoFault self1 d1 in
  (d1, d2).

(** A history line that a session file gives back as it was: no line
    break inside, no white space at either end. *)
Definition storable (line : str) : bool :=
  negb (existsb (fun c => Ascii.eqb c "010"%char || Ascii.eqb c "013"%char)
          line)
  && PyStr.eqb (strip line) line.

(** The round trip through the session file of main.py, into an empty
    history. *)
Definition reloaded (h : Main.history) : Main.history :=
  Main.load_session (Main.save_session h None) [].

(** The resume property as the specification states it, for the
    history [h] saved and the transcriber resumed from it: the entries
    come back as they were, and the first id given out afterwards lies
    above the ids of the entries loaded. *)
Definition resumes (h : Main.history) : Prop :=
  reloaded h = h
  /\ forall (audio : Type) (timestamp : str),
       (Z.of_nat (List.length h) - 1
        < Main.history_index
            (@Main.start audio timestamp true (Main.save_session h None)))%Z.

(** The warning of engine_lightweight.py for a chunk that is skipped. *)
Definition skipped : str := lit "Audio queue full, skipping chunk".

(** How many more items a queue takes; [None] when it has no bound. *)
Definition room {A : Type} (q : PyQueue.Queue A) : option nat :=
  if (0 <? PyQueue.maxsize q)%Z
  then Some (Z.to_nat (PyQueue.maxsize q - PyQueue.qsize q))
  else None.

(** The lightweight engine with an empty queue of the given bound. *)
Definition lightweight (sample : Type) (maxsize : Z)
  : EngineLightweight.engine sample :=
  EngineLightweight.set_audio (EngineLightweight.init sample) []
    (PyQueue.new _ maxsize) [].

End Spec.

Import Spec.

(* ===================================================================== *)
(** * engine.py: the candidates of [_extract_complete_sentences] *)
(* ===================================================================== *)

Module Candidates.


(** The loop [while ending in self.sentence_buffer], lines 217-223,
    watched: [seen] collects every value that line 220 gives to
    [sentence], in order, whether line 221 keeps it or not; the buffer
    is cut as in the loop.  [fuel] bounds the number of times the loop
    condition is evaluated; [None] is a loop that has not ended within
    it. *)
Fixpoint while_ending (fuel : nat) (ending : ascii)
    (seen : list str) (buffer : str) : option (list str * str) :=
  match fuel with
  | O => None
  | S fuel' =>
      if contains ending buffer then
        let end_pos := find buffer ending in
        if negb (end_pos =? -1)%Z then
          let sentence := strip (slice_to buffer (end_pos + 1)) in
          while_ending fuel' ending (seen ++ [sentence])
            (strip (slice_from buffer (end_pos + 1)))
        else while_ending fuel' ending seen buffer
      else Some (seen, buffer)
  end.

(** The loop [for ending in sentence_endings], watched the same way. *)
Fixpoint for_ending (fuel : nat) (endings : list ascii)
    (seen : list str) (buffer : str) : option (list str * str) :=
  match endings with
  | [] => Some (seen, buffer)
  | ending :: endings' =>
      match while_ending fuel ending seen buffer with
      | None => None
      | Some (seen, buffer) => for_ending fuel endings' seen buffer
      end
  end.


End Candidates.

(* ===================================================================== *)
(** * engine.py: the worker threads, with [stop] falling inside a turn *)
(* ===================================================================== *)

(** In [Engine.step] a turn of a worker is one step.  Here a turn is
    taken apart where another thread can come in between and be seen:
    a worker reads [is_running] at the head of its loop and takes an
    item; then it is inside its pipeline call, which takes seconds,
    and [stop] can lower the flag and save the session meanwhile; when
    the call ends the worker goes through the rest of the loop body,
    whatever the flag has become.  The refining thread appends its
    entry to the session list and then calls the callback, two steps
    here. *)
Module EngineTurns.
Section WithAudio.
Variable audio : Type.

(** Where the refining thread stands. *)
Inductive refining_at :=
| AtLoopHead
| InPipeline (job : Engine.job audio)            (* inside line 235 *)
| ToCallBack (transcript_data : Engine.transcript).
                                 (* between lines 248 and 249 *)

(** The engine, the chunk the streaming thread holds while it is
    inside its pipeline call (line 183), and the refining thread. *)
Record threads := {
  engine : Engine.engine audio;
  streaming_holds : option audio;
  refining : refining_at
}.

(** [start] with both workers at the head of their loops. *)
Definition started (self : Engine.engine audio) : threads :=
  {| engine := Engine.start self; streaming_holds := None;
     refining := AtLoopHead |}.

(** [_streaming_thread], lines 186-201: the rest of the loop body once
    the pipeline call on [audio_chunk] has ended with [r]; with the
    [except] of lines 205-207. *)
Definition streaming_returns (audio_chunk : audio) (r : Engine.result)
    (self : Engine.engine audio) : option (Engine.engine audio) :=
  match r with
  | Engine.Raises e =>
      Some (Engine.print self (lit "Streaming error: " ++ e))
  | Engine.Returns text =>
      let transcript := strip text in
      if truthy transcript && (2 <? len transcript)%Z then
        match Engine.feed self transcript with
        | None => None
        | Some (sentences, self) =>
            let self := fold_left (@Engine.emit audio) sentences self in
            Some (Engine.set_refine_queue self
                    (PyQueue.put (Engine.refine_queue self)
                       {| Engine.job_id := Engine.chunk_id self;
                          Engine.job_audio := audio_chunk |}))
        end
      else Some self
  end.

(** [_refining_thread], lines 238-248: from the end of the pipeline
    call on the job up to the append to the session list; the entry
    handed back is the one still to be given to the callback.  With
    the [except] of lines 252-254. *)
Definition refining_returns (job : Engine.job audio) (r : Engine.result)
    (now : Z) (self : Engine.engine audio)
  : Engine.engine audio * option Engine.transcript :=
  match r with
  | Engine.Raises e =>
      (Engine.print self (lit "Refining error: " ++ e), None)
  | Engine.Returns text =>
      let transcript := strip text in
      if truthy transcript && (2 <? len transcript)%Z then
        let transcript_data :=
          {| Engine.id := Engine.job_id job; Engine.text := transcript;
             Engine.status := Engine.Refined;
             Engine.timestamp := Some now |} in
        (Engine.set_session_transcripts self
           (Engine.session_transcripts self ++ [transcript_data]),
         Some transcript_data)
      else (self, None)
  end.

(** What can happen next.  [StreamingTakes] and [RefiningTakes] are the
    head of a worker's loop: the test of [is_running], the test of the
    pipeline ([ready]) and the [get]; they do nothing while the worker
    is elsewhere in its loop.  [StreamingReturns], [RefiningReturns]
    and [RefiningCallsBack] are the rest of the body; they do not look
    at [is_running].  [Capture] and [Stop] are as in [Engine.step]. *)
Inductive action :=
| Capture (chunk : audio)
| StreamingTakes (ready : bool)
| StreamingReturns (r : Engine.result)
| RefiningTakes (ready : bool)
| RefiningReturns (r : Engine.result) (now : Z)
| RefiningCallsBack
| Stop (now : Engine.datetime) (flt : PyFile.fault).

Definition step (a : action) (sd : threads * PyFile.disk)
  : option (threads * PyFile.disk) :=
  let (s, d) := sd in
  let self := engine s in
  match a with
  | Capture chunk =>
      if Engine.is_running self
      then Some ({| engine :=
                      Engine.set_audio_queue self
                        (PyQueue.put (Engine.audio_queue self) chunk);
                    streaming_holds := streaming_holds s;
                    refining := refining s |}, d)
      else Some sd
  | StreamingTakes ready =>
      match streaming_holds s with
      | Some _ => Some sd
      | None =>
          if Engine.is_running self && ready then
            match PyQueue.get_unbounded (Engine.audio_queue self) with
            | None => Some sd
            | Some (audio_chunk, q) =>
                Some ({| engine := Engine.set_audio_queue self q;
                         streaming_holds := Some audio_chunk;
                         refining := refining s |}, d)
            end
          else Some sd
      end
  | StreamingReturns r =>
      match streaming_holds s with
      | None => Some sd
      | Some audio_chunk =>
          match streaming_returns audio_chunk r self with
          | None => None
          | Some self' =>
              Some ({| engine := self'; streaming_holds := None;
                       refining := refining s |}, d)
          end
      end
  | RefiningTakes ready =>
      match refining s with
      | AtLoopHead =>
          if Engine.is_running self && ready then
            match PyQueue.get_unbounded (Engine.refine_queue self) with
            | None => Some sd
            | Some (job, q) =>
                Some ({| engine := Engine.set_refine_queue self q;
                         streaming_holds := streaming_holds s;
                         refining := InPipeline job |}, d)
            end
          else Some sd
      | _ => Some sd
      end
  | RefiningReturns r now =>
      match refining s with
      | InPipeline job =>
          let (self', entry) := refining_returns job r now self in
          Some ({| engine := self'; streaming_holds := streaming_holds s;
                   refining := match entry with
                               | Some transcript_data =>
                                   ToCallBack transcript_data
                               | None => AtLoopHead
                               end |}, d)
      | _ => Some sd
      end
  | RefiningCallsBack =>
      match refining s with
      | ToCallBack transcript_data =>
          Some ({| engine :=
                     Engine.update_callback self
                       (Engine.transcript_event transcript_data);
                   streaming_holds := streaming_holds s;
                   refining := AtLoopHead |}, d)
      | _ => Some sd
      end
  | Stop now flt =>
      let (self', d') := Engine.stop now flt self d in
      Some ({| engine := self'; streaming_holds := streaming_holds s;
               refining := refining s |}, d')
  end.

Fixpoint run (acts : list action) (sd : threads * PyFile.disk)
  : option (threads * PyFile.disk) :=
  match acts with
  | [] => Some sd
  | a :: acts' =>
      match step a sd with
      | None => None
      | Some sd' => run acts' sd'
      end
  end.

(** The entry that the refining thread has appended and not yet given
    to the callback. *)
Definition waiting (s : threads) : list Engine.transcript :=
  match refining s with
  | ToCallBack transcript_data => [transcript_data]
  | _ => []
  end.

End WithAudio.

Arguments AtLoopHead {audio}.
Arguments Capture {audio}.
Arguments StreamingTakes {audio}.
Arguments StreamingReturns {audio}.
Arguments RefiningTakes {audio}.
Arguments RefiningReturns {audio}.
Arguments RefiningCallsBack {audio}.
Arguments Stop {audio}.

End EngineTurns.

(* ===================================================================== *)
(** * engine.py: the capture thread *)
(* ===================================================================== *)

Module EngineCapture.
Section WithSample.
Variable sample : Type.

(** The fields of the engine that [_audio_input_thread] works on; a
    chunk is the list of its samples. *)
Record capture := {
  chunk_samples : nat;
  audio_buffer : list sample;
  audio_queue : list (list sample);
  printed : list str
}.

(** One turn of the loop of [_audio_input_thread], lines 149-160.
    [read] is what [stream.read] hands back, [inr e] when it raises. *)
Definition capture_turn (read : list sample + str) (self : capture)
  : capture :=
  match read with
  | inr e =>
      {| chunk_samples := chunk_samples self;
         audio_buffer := audio_buffer self;
         audio_queue := audio_queue self;
         printed := printed self ++ [lit "Audio read error: " ++ e] |}
  | inl data =>
      let buffer := audio_buffer self ++ data in
      if chunk_samples self <=? List.length buffer then
        {| chunk_samples := chunk_samples self;
           audio_buffer := skipn (chunk_samples self) buffer;
           audio_queue :=
             PyQueue.put (audio_queue self)
               (firstn (chunk_samples self) buffer);
           printed := printed self |}
      else
        {| chunk_samples := chunk_samples self;
           audio_buffer := buffer;
           audio_queue := audio_queue self;
           printed := printed self |}
  end.

(** The loop, fed with the successive results of [stream.read]. *)
Definition _audio_input_thread (reads : list (list sample + str))
    (self : capture) : capture :=
  fold_left (fun s read => capture_turn read s) reads self.

(** The samples of the reads that did not raise, in order. *)
Definition samples_read (reads : list (list sample + str)) : list sample :=
  flat_map (fun read => match read with inl data => data | inr _ => [] end)
    reads.

End WithSample.
End EngineCapture.

(* ===================================================================== *)
(** * engine_lightweight.py: the transcription thread and the session *)
(* ===================================================================== *)

Module LightweightSession.

Definition Transcribed : str := lit "Transcribed".

Section WithSample.
Variable sample : Type.

(** The engine object: [core] holds the fields the capture thread uses
    (the flag, the buffer, the bounded queue, the lines printed), the
    others are those of [_transcription_thread] and [_save_session].
    [callbacks] are the calls that the transcription thread makes to
    [update_callback]; the status messages of the other threads are
    not recorded. *)
Record engine := {
  core : EngineLightweight.engine sample;
  session_file : str;
  session_transcripts : list Engine.transcript;
  chunk_id : nat;
  callbacks : list Engine.event
}.

Definition set_core (self : engine) (c : EngineLightweight.engine sample)
  : engine :=
  {| core := c; session_file := session_file self;
     session_transcripts := session_transcripts self;
     chunk_id := chunk_id self; callbacks := callbacks self |}.

(** [print(...)] *)
Definition print (self : engine) (line : str) : engine :=
  set_core self
    (EngineLightweight.set_audio (core self)
       (EngineLightweight.audio_buffer (core self))
       (EngineLightweight.audio_queue (core self))
       (EngineLightweight.printed (core self) ++ [line])).

Definition set_is_running (c : EngineLightweight.engine sample) (b : bool)
  : EngineLightweight.engine sample :=
  {| EngineLightweight.is_running := b;
     EngineLightweight.chunk_samples := EngineLightweight.chunk_samples c;
     EngineLightweight.max_buffer_size := EngineLightweight.max_buffer_size c;
     EngineLightweight.audio_buffer := EngineLightweight.audio_buffer c;
     EngineLightweight.audio_queue := EngineLightweight.audio_queue c;
     EngineLightweight.printed := EngineLightweight.printed c |}.

(** The engine as [__init__] leaves it. *)
Definition init (session_file : str) : engine :=
  {| core := EngineLightweight.init sample; session_file := session_file;
     session_transcripts := []; chunk_id := 0; callbacks := [] |}.

(** [start]: the flag is raised; the transcription thread begins with
    [chunk_id = 0]. *)
Definition start (self : engine) : engine :=
  {| core := set_is_running (core self) true;
     session_file := session_file self;
     session_transcripts := session_transcripts self;
     chunk_id := 0; callbacks := callbacks self |}.

(** One turn of the loop of [_transcription_thread], lines 243-274.
    [ready] tells whether [self.pipeline] is loaded, [r] what the
    pipeline does if it is called, [now] is [time.time()]. *)
Definition transcription_turn (ready : bool) (r : Engine.result) (now : Z)
    (self : engine) : engine :=
  if negb ready then self
  else
    match PyQueue.get (EngineLightweight.audio_queue (core self)) with
    | None => self
    | Some (audio_chunk, q) =>
        let self :=
          set_core self
            (EngineLightweight.set_audio (core self)
               (EngineLightweight.audio_buffer (core self)) q
               (EngineLightweight.printed (core self))) in
        match r with
        | Engine.Raises e => print self (lit "Transcription error: " ++ e)
        | Engine.Returns text =>
            let transcript := strip text in
            if truthy transcript && (2 <? len transcript)%Z then
              let transcript_data :=
                {| Engine.id := chunk_id self; Engine.text := transcript;
                   Engine.status := Transcribed;
                   Engine.timestamp := Some now |} in
              {| core := core self; session_file := session_file self;
                 session_transcripts :=
                   session_transcripts self ++ [transcript_data];
                 chunk_id := chunk_id self + 1;
                 callbacks :=
                   callbacks self ++ [Engine.transcript_event transcript_data] |}
            else self
        end
    end.

(** [_save_session], the same lines as in engine.py. *)
Definition _save_session (now : Engine.datetime) (flt : PyFile.fault)
    (self : engine) (d : PyFile.disk) : engine * PyFile.disk :=
  match PyFile.write_file
          (Engine.session_writes now (session_transcripts self)) flt d with
  | (d', None) => (print self (lit "Session saved to " ++ session_file self), d')
  | (d', Some e) => (print self (lit "Error saving session: " ++ e), d')
  end.

(** [stop]: lower the flag, empty the buffer and the queue, save. *)
Definition stop (now : Engine.datetime) (flt : PyFile.fault)
    (self : engine) (d : PyFile.disk) : engine * PyFile.disk :=
  _save_session now flt
    (set_core self
       (EngineLightweight._cleanup_memory (set_is_running (core self) false)))
    d.

(** What can happen next: a turn of the capture loop, one of its timers
    calling [_cleanup_memory], a turn of the transcription loop, or
    [stop].  The loops make a turn only while [is_running] holds. *)
Inductive action :=
| CaptureTurn (read : list sample + str)
| Cleanup
| TranscriptionTurn (ready : bool) (r : Engine.result) (now : Z)
| Stop (now : Engine.datetime) (flt : PyFile.fault).

Definition step (a : action) (s : engine * PyFile.disk)
  : engine * PyFile.disk :=
  let (self, d) := s in
  match a with
  | CaptureTurn read =>
      if EngineLightweight.is_running (core self)
      then (set_core self (EngineLightweight.capture_turn read (core self)), d)
      else s
  | Cleanup =>
      if EngineLightweight.is_running (core self)
      then (set_core self (EngineLightweight._cleanup_memory (core self)), d)
      else s
  | TranscriptionTurn ready r now =>
      if EngineLightweight.is_running (core self)
      then (transcription_turn ready r now self, d)
      else s
  | Stop now flt => stop now flt self d
  end.

Definition run (acts : list action) (s : engine * PyFile.disk)
  : engine * PyFile.disk :=
  fold_left (fun s a => step a s) acts s.

End WithSample.

Arguments CaptureTurn {sample}.
Arguments Cleanup {sample}.
Arguments TranscriptionTurn {sample}.
Arguments Stop {sample}.

End LightweightSession.

(* ===================================================================== *)
(** * transcription_engine.py: the refining thread *)
(* ===================================================================== *)

Module TranscriptionEngineThreads.
Section WithAudio.
Variable audio : Type.

(** One turn of the loop of [_refining_thread], lines 131-140.  As in
    the streaming thread only [queue.Empty] is caught, and
    [self.refining_pipeline] does not exist before the models are
    loaded: the right-hand result is the exception that ends the
    thread. *)
Definition refining_turn (loaded : bool) (r : Engine.result)
    (self : TranscriptionEngine.engine audio)
  : TranscriptionEngine.engine audio + str :=
  match PyQueue.get_unbounded (TranscriptionEngine.refine_queue self) with
  | None => inl self
  | Some (job, q) =>
      if loaded then
        match r with
        | Engine.Raises e => inr e
        | Engine.Returns transcript =>
            inl {| TranscriptionEngine.is_running :=
                     TranscriptionEngine.is_running self;
                   TranscriptionEngine.audio_queue :=
                     TranscriptionEngine.audio_queue self;
                   TranscriptionEngine.refine_queue := q;
                   TranscriptionEngine.chunk_id :=
                     TranscriptionEngine.chunk_id self;
                   TranscriptionEngine.callbacks :=
                     TranscriptionEngine.callbacks self ++
                       [{| TranscriptionEngine.id :=
                             TranscriptionEngine.job_id job;
                           TranscriptionEngine.text := transcript;
                           TranscriptionEngine.status := Engine.Refined |}] |}
        end
      else inr (lit "AttributeError")
  end.

(** The engine with its two worker threads; a thread that met an
    exception it does not catch has ended. *)
Record threads := {
  engine : TranscriptionEngine.engine audio;
  streaming_ended : bool;
  refining_ended : bool
}.

(** [start] on the engine as [__init__] leaves it. *)
Definition start : threads :=
  {| engine :=
       {| TranscriptionEngine.is_running := true;
          TranscriptionEngine.audio_queue := [];
          TranscriptionEngine.refine_queue := [];
          TranscriptionEngine.chunk_id := 0;
          TranscriptionEngine.callbacks := [] |};
     streaming_ended := false; refining_ended := false |}.

Definition set_running (e : TranscriptionEngine.engine audio) (b : bool)
  : TranscriptionEngine.engine audio :=
  {| TranscriptionEngine.is_running := b;
     TranscriptionEngine.audio_queue := TranscriptionEngine.audio_queue e;
     TranscriptionEngine.refine_queue := TranscriptionEngine.refine_queue e;
     TranscriptionEngine.chunk_id := TranscriptionEngine.chunk_id e;
     TranscriptionEngine.callbacks := TranscriptionEngine.callbacks e |}.

Definition queue_chunk (e : TranscriptionEngine.engine audio) (chunk : audio)
  : TranscriptionEngine.engine audio :=
  {| TranscriptionEngine.is_running := TranscriptionEngine.is_running e;
     TranscriptionEngine.audio_queue :=
       PyQueue.put (TranscriptionEngine.audio_queue e) chunk;
     TranscriptionEngine.refine_queue := TranscriptionEngine.refine_queue e;
     TranscriptionEngine.chunk_id := TranscriptionEngine.chunk_id e;
     TranscriptionEngine.callbacks := TranscriptionEngine.callbacks e |}.

(** What can happen next: the capture thread queues a chunk, a worker
    makes a turn of its loop, or [stop] lowers the flag. *)
Inductive action :=
| Capture (chunk : audio)
| StreamingTurn (loaded : bool) (r : Engine.result)
| RefiningTurn (loaded : bool) (r : Engine.result)
| Stop.

Definition step (a : action) (s : threads) : threads :=
  match a with
  | Capture chunk =>
      if TranscriptionEngine.is_running (engine s)
      then {| engine := queue_chunk (engine s) chunk;
              streaming_ended := streaming_ended s;
              refining_ended := refining_ended s |}
      else s
  | StreamingTurn loaded r =>
      if TranscriptionEngine.is_running (engine s)
         && negb (streaming_ended s)
      then match TranscriptionEngine.streaming_turn loaded r (engine s) with
           | inl e => {| engine := e; streaming_ended := false;
                         refining_ended := refining_ended s |}
           | inr _ =>
               (* the chunk was taken from the queue before the raise *)
               {| engine :=
                    {| TranscriptionEngine.is_running :=
                         TranscriptionEngine.is_running (engine s);
                       TranscriptionEngine.audio_queue :=
                         tl (TranscriptionEngine.audio_queue (engine s));
                       TranscriptionEngine.refine_queue :=
                         TranscriptionEngine.refine_queue (engine s);
                       TranscriptionEngine.chunk_id :=
                         TranscriptionEngine.chunk_id (engine s);
                       TranscriptionEngine.callbacks :=
                         TranscriptionEngine.callbacks (engine s) |};
                  streaming_ended := true;
                  refining_ended := refining_ended s |}
           end
      else s
  | RefiningTurn loaded r =>
      if TranscriptionEngine.is_running (engine s)
         && negb (refining_ended s)
      then match refining_turn loaded r (engine s) with
           | inl e => {| engine := e; streaming_ended := streaming_ended s;
                         refining_ended := false |}
           | inr _ =>
               (* the job was taken from the queue before the raise *)
               {| engine :=
                    {| TranscriptionEngine.is_running :=
                         TranscriptionEngine.is_running (engine s);
                       TranscriptionEngine.audio_queue :=
                         TranscriptionEngine.audio_queue (engine s);
                       TranscriptionEngine.refine_queue :=
                         tl (TranscriptionEngine.refine_queue (engine s));
                       TranscriptionEngine.chunk_id :=
                         TranscriptionEngine.chunk_id (engine s);
                       TranscriptionEngine.callbacks :=
                         TranscriptionEngine.callbacks (engine s) |};
                  streaming_ended := streaming_ended s;
                  refining_ended := true |}
           end
      else s
  | Stop =>
      {| engine := set_running (engine s) false;
         streaming_ended := streaming_ended s;
         refining_ended := refining_ended s |}
  end.

Definition run (acts : list action) (s : threads) : threads :=
  fold_left (fun s a => step a s) acts s.



End WithAudio.

Arguments Capture {audio}.
Arguments StreamingTurn {audio}.
Arguments RefiningTurn {audio}.
Arguments Stop {audio}.

End TranscriptionEngineThreads.

(* ===================================================================== *)
(** * main.py: the microphone callback, the threads, the scrolling *)
(* ===================================================================== *)

Module MainThreads.
Section WithAudio.

(** A raw sample, and the chunk as it is queued: the source converts
    the samples of a chunk to float32 and scales them, which [convert]
    stands for. *)
Variables sample audio : Type.
Variable convert : list sample -> audio.

(** The loop [while len(self.audio_buffer) >= self.chunk_samples] of
    [_mic_callback] on the buffer and the audio queue.  [fuel] bounds
    the number of times the loop condition is evaluated; [None] is a
    loop that has not ended within it. *)
Fixpoint cut_chunks (fuel : nat) (chunk_samples : nat)
    (audio_buffer : list sample) (audio_queue : list (option audio))
  : option (list sample * list (option audio)) :=
  match fuel with
  | O => None
  | S fuel' =>
      if chunk_samples <=? List.length audio_buffer then
        let chunk := firstn chunk_samples audio_buffer in
        let audio_buffer := skipn chunk_samples audio_buffer in
        let float_chunk := convert chunk in
        cut_chunks fuel' chunk_samples audio_buffer
          (PyQueue.put audio_queue (Some float_chunk))
      else Some (audio_buffer, audio_queue)
  end.

(** [_mic_callback]: extend the buffer with the samples handed in, then
    cut. *)
Definition _mic_callback (chunk_samples : nat) (in_data : list sample)
    (audio_buffer : list sample) (audio_queue : list (option audio))
  : option (list sample * list (option audio)) :=
  let audio_buffer := audio_buffer ++ in_data in
  cut_chunks (S (List.length audio_buffer)) chunk_samples audio_buffer
    audio_queue.

(** What can happen next: [audio_processor] queues a chunk or, at the
    end of its input, the end mark; a worker makes a turn of its
    loop. *)
Inductive action :=
| Put (item : option audio)
| StreamingTurn (timestamp : str) (w : Main.whisper)
| RefiningTurn (timestamp : str) (w : Main.whisper).

Definition step (a : action) (self : Main.transcriber audio)
  : Main.transcriber audio :=
  match a with
  | Put item =>
      {| Main.is_running := Main.is_running self;
         Main.ui_history := Main.ui_history self;
         Main.audio_queue := PyQueue.put (Main.audio_queue self) item;
         Main.refine_queue := Main.refine_queue self;
         Main.history_index := Main.history_index self;
         Main.streaming_done := Main.streaming_done self;
         Main.refining_done := Main.refining_done self |}
  | StreamingTurn timestamp w => Main.streaming_turn timestamp w self
  | RefiningTurn timestamp w => Main.refining_turn timestamp w self
  end.

Definition run (acts : list action) (self : Main.transcriber audio)
  : Main.transcriber audio :=
  fold_left (fun s a => step a s) acts self.

(** Whisper did not fail in this action, and the time stamp it logs
    with holds no [']'], as every [time.strftime("%H:%M:%S")] does. *)
Definition smooth (a : action) : bool :=
  match a with
  | Put _ => true
  | StreamingTurn timestamp (Main.Transcript _)
  | RefiningTurn timestamp (Main.Transcript _) =>
      negb (existsb (Ascii.eqb "]"%char) timestamp)
  | _ => false
  end.

End WithAudio.

Arguments Put {audio}.
Arguments StreamingTurn {audio}.
Arguments RefiningTurn {audio}.

(** The keys [handle_input] tells apart. *)
Inductive key := KEY_UP | KEY_DOWN | key_q | key_other.

(** [handle_input] on the scroll position: [pressed] is what [getch]
    hands back, [None] when it raises [curses.error]; the result is the
    new position and the value returned. *)
Definition handle_input (pressed : option key) (history : Main.history)
    (history_win_height : Z) (scroll_pos : Z) : Z * bool :=
  match pressed with
  | Some KEY_UP => (Z.max 0 (scroll_pos - 1), true)
  | Some KEY_DOWN =>
      if (history_win_height <? Z.of_nat (List.length history))%Z
      then (Z.min (Z.of_nat (List.length history) - history_win_height)
              (scroll_pos + 1), true)
      else (scroll_pos, true)
  | Some key_q => (scroll_pos, false)
  | Some key_other => (scroll_pos, true)
  | None => (scroll_pos, true)
  end.

(** A history line as [add_to_history] builds it. *)
Definition line (timestamp status text : str) : str :=
  lit "[" ++ timestamp ++ lit "] [" ++ status ++ lit "] " ++ text.

End MainThreads.

(* ===================================================================== *)
(** * gui_transcriber.py *)
(* ===================================================================== *)

Module GuiTranscriber.

(** [self.transcripts], a dict from id to the entry last seen for it,
    kept in insertion order. *)
Definition dict := list (nat * Engine.transcript).

(** [d[k] = v] *)
Fixpoint dict_set (d : dict) (k : nat) (v : Engine.transcript) : dict :=
  match d with
  | [] => [(k, v)]
  | (k', v') :: r =>
      if k' =? k then (k, v) :: r else (k', v') :: dict_set r k v
  end.

(** What the application shows and keeps: the queue the engine's
    callback fills, the label of the live speech, the text of the
    scrollable log and the dict. *)
Record app := {
  transcription_queue : list Engine.event;
  current_text_label : str;
  history_text : str;
  transcripts : dict
}.

(** [update_callback(event_type, data)] *)
Definition update_callback (self : app) (ev : Engine.event) : app :=
  {| transcription_queue := PyQueue.put (transcription_queue self) ev;
     current_text_label := current_text_label self;
     history_text := history_text self;
     transcripts := transcripts self |}.

(** [update_transcript_display(data)] *)
Definition update_transcript_display (self : app) (data : Engine.transcript)
  : app :=
  let text := Engine.text data in
  let status := Engine.status data in
  let transcript_id := Engine.id data in
  if PyStr.eqb status Engine.Refined then
    {| transcription_queue := transcription_queue self;
       current_text_label := [];
       history_text :=
         history_text self ++ text ++ Main.newline ++ Main.newline;
       transcripts := dict_set (transcripts self) transcript_id data |}
  else
    {| transcription_queue := transcription_queue self;
       current_text_label := text;
       history_text := history_text self;
       transcripts := dict_set (transcripts self) transcript_id data |}.

(** One event taken from the queue by [process_queue]. *)
Definition dispatch (self : app) (ev : Engine.event) : app :=
  match ev with
  | Engine.status_event data =>
      {| transcription_queue := transcription_queue self;
         current_text_label := data;
         history_text := history_text self;
         transcripts := transcripts self |}
  | Engine.transcript_event data => update_transcript_display self data
  end.

(** [process_queue]: the loop [while not self.transcription_queue.empty()]. *)
Definition process_queue (self : app) : app :=
  fold_left dispatch (transcription_queue self)
    {| transcription_queue := [];
       current_text_label := current_text_label self;
       history_text := history_text self;
       transcripts := transcripts self |}.

(** The application as [__init__] and [create_widgets] leave it. *)
Definition init : app :=
  {| transcription_queue := []; current_text_label := lit "Initializing...";
     history_text := []; transcripts := [] |}.

(** The application once the engine has made the calls [evs] to its
    callback and the queue has been processed. *)
Definition shown (evs : list Engine.event) : app :=
  process_queue (fold_left update_callback evs init).

End GuiTranscriber.

(* ===================================================================== *)
(** * live_streaming_transcriber.py *)
(* ===================================================================== *)

Module LiveStreaming.
Section WithAudio.
Variable audio : Type.

Record transcriber := {
  is_running : bool;
  audio_queue : list audio;
  transcript_queue : list str;
  transcript_history : list str;
  max_history_lines : nat;
  printed : list str
}.

(** [list.pop(0)] on a list that is not empty. *)
Definition pop0 (l : list str) : list str := tl l.

(** One turn of the loop of [audio_processor], lines 272-299.
    [timestamp] is [time.strftime("%H:%M:%S")] and [r] what
    [transcribe_chunk] meets: the text whisper wrote, or the exception
    it prints before handing back the empty string.  The redrawing of
    the screen by [_update_display] is left out. *)
Definition processor_turn (timestamp : str) (r : Engine.result)
    (self : transcriber) : transcriber :=
  match PyQueue.get_unbounded (audio_queue self) with
  | None => self
  | Some (audio_chunk, q) =>
      let (transcript, out) :=
        match r with
        | Engine.Returns text => (strip text, printed self)
        | Engine.Raises e =>
            ([], printed self ++ [lit "Transcription error: " ++ e])
        end in
      if truthy transcript then
        let transcript_line := lit "[" ++ timestamp ++ lit "] " ++ transcript in
        let history := transcript_history self ++ [transcript_line] in
        let history :=
          if max_history_lines self <? List.length history
          then pop0 history else history in
        {| is_running := is_running self; audio_queue := q;
           transcript_queue := PyQueue.put (transcript_queue self) transcript;
           transcript_history := history;
           max_history_lines := max_history_lines self;
           printed := out |}
      else
        {| is_running := is_running self; audio_queue := q;
           transcript_queue := transcript_queue self;
           transcript_history := transcript_history self;
           max_history_lines := max_history_lines self;
           printed := out |}
  end.

(** The loop, fed with the time stamp and the outcome of each turn. *)
Definition audio_processor (turns : list (str * Engine.result))
    (self : transcriber) : transcriber :=
  fold_left
    (fun s turn => if is_running s then processor_turn (fst turn) (snd turn) s
                   else s)
    turns self.

(** [save_transcript]: the arguments of the successive [f.write] calls. *)
Definition transcript_writes (self : transcriber) : list str :=
  (lit "LIVE LECTURE TRANSCRIPT" ++ Main.newline)
  :: (times "=" 50 ++ Main.newline ++ Main.newline)
  :: map (fun line => line ++ Main.newline) (transcript_history self).

(** [save_transcript] on the output file: the file afterwards, the
    value returned and the engine, which has printed the outcome. *)
Definition save_transcript (output_file : str) (flt : PyFile.fault)
    (self : transcriber) (d : PyFile.disk)
  : transcriber * PyFile.disk * bool :=
  let say line :=
    {| is_running := is_running self; audio_queue := audio_queue self;
       transcript_queue := transcript_queue self;
       transcript_history := transcript_history self;
       max_history_lines := max_history_lines self;
       printed := printed self ++ [line] |} in
  match PyFile.write_file (transcript_writes self) flt d with
  | (d', None) => (say (lit "Transcript saved to " ++ output_file), d', true)
  | (d', Some e) => (say (lit "Failed to save transcript: " ++ e), d', false)
  end.

(** The last [n] elements of a list. *)
Definition last_lines (n : nat) (l : list str) : list str :=
  skipn (List.length l - n) l.

End WithAudio.
End LiveStreaming.

(* ===================================================================== *)
(** * rag_query.py, rag_api.py *)
(* ===================================================================== *)

Module Rag.

(** An entry of [self.transcripts]. *)
Record transcript := {
  file : str;
  session_date : str;
  content : str;
  length : Z
}.

(** The entry [load_all_transcripts] appends for a file it could read. *)
Definition loaded (file session_date content : str) : transcript :=
  {| file := file; session_date := session_date; content := content;
     length := len content |}.

(** [sep.join(parts)] *)
Fixpoint join (sep : str) (parts : list str) : str :=
  match parts with
  | [] => []
  | [p] => p
  | p :: r => p ++ sep ++ join sep r
  end.

(** The part of the context that one transcript gives. *)
Definition part (t : transcript) : str :=
  lit "=== Session " ++ session_date t ++ lit " ===" ++ Main.newline
  ++ content t ++ Main.newline.

(** The loop of [create_context] over the transcripts still to come,
    with [context_parts] and [current_length] as they stand; the loop
    ends at the first transcript that does not fit. *)
Fixpoint context_loop (max_context : Z) (transcripts : list transcript)
    (context_parts : list str) (current_length : Z) : list str * Z :=
  match transcripts with
  | [] => (context_parts, current_length)
  | t :: r =>
      if (max_context <? current_length + length t)%Z
      then (context_parts, current_length)
      else context_loop max_context r (context_parts ++ [part t])
             (current_length + length t)%Z
  end.

(** [create_context(query, max_context)] *)
Definition create_context (transcripts : list transcript) (query : str)
    (max_context : Z) : str :=
  join Main.newline (fst (context_loop max_context transcripts [] 0%Z)).

(** The sum of the lengths of the contents. *)
Definition total (ts : list transcript) : Z :=
  fold_right (fun t n => (length t + n)%Z) 0%Z ts.

End Rag.

(* ===================================================================== *)
(** * engine_lightweight.py: the whole capture loop *)
(* ===================================================================== *)

Module LightweightCapture.
Section WithSample.
Variable sample : Type.

Definition print (self : EngineLightweight.engine sample) (line : str)
  : EngineLightweight.engine sample :=
  EngineLightweight.set_audio self (EngineLightweight.audio_buffer self)
    (EngineLightweight.audio_queue self)
    (EngineLightweight.printed self ++ [line]).

(** What [_check_memory_usage] meets: the resident size against its
    two thresholds, with the number as the warning prints it
    ([memory_mb] to one decimal), or the exception that reading it
    raises. *)
Inductive memory :=
| Low                     (* memory_mb <= 500 *)
| High (mb : str)         (* 500 < memory_mb <= 1000 *)
| Critical (mb : str)     (* 1000 < memory_mb *)
| Unknown (e : str).

(** [_check_memory_usage], lines 143-159, on the engine; the lines
    printed are kept without the pictographs that open them. *)
Definition _check_memory_usage (m : memory)
    (self : EngineLightweight.engine sample)
  : EngineLightweight.engine sample :=
  match m with
  | Low => self
  | High mb => print self (lit "Memory usage: " ++ mb ++ lit " MB")
  | Critical mb =>
      let self := print self (lit "Memory usage: " ++ mb ++ lit " MB") in
      let self := print self (lit "Forcing memory cleanup...") in
      EngineLightweight._cleanup_memory self
  | Unknown e => print self (lit "Error checking memory: " ++ e)
  end.

(** What the two timers at the end of a loop turn come to, lines
    214-222: [memory_check] is [None] when the ten seconds since the
    last check have not passed, and else what the check meets;
    [cleanup_due] tells whether the sixty seconds since the last
    cleanup have passed.  The clock and the two time stamps are left
    to the environment. *)
Record timers := { memory_check : option memory; cleanup_due : bool }.

(** One turn of the loop [while self.is_running], lines 190-227:
    the read and the hand-over of a chunk, then the timers.  A read
    that raises is caught at line 224, and the timers are skipped. *)
Definition loop_turn (read : list sample + str) (t : timers)
    (self : EngineLightweight.engine sample)
  : EngineLightweight.engine sample :=
  match read with
  | inr e => EngineLightweight.capture_turn (inr e) self
  | inl new_data =>
      let self := EngineLightweight.capture_turn (inl new_data) self in
      let self :=
        match memory_check t with
        | Some m => _check_memory_usage m self
        | None => self
        end in
      if cleanup_due t then EngineLightweight._cleanup_memory self else self
  end.

(** The loop, fed with what each turn reads and what its timers come
    to. *)
Definition _audio_input_thread
    (turns : list ((list sample + str) * timers))
    (self : EngineLightweight.engine sample)
  : EngineLightweight.engine sample :=
  fold_left
    (fun self turn =>
       if EngineLightweight.is_running self
       then loop_turn (fst turn) (snd turn) self
       else self)
    turns self.

(** No timer of the turn calls [_cleanup_memory]. *)
Definition keeps (t : timers) : bool :=
  match memory_check t with
  | Some (Critical _) => false
  | _ => negb (cleanup_due t)
  end.

(** The bound on what a read brings. *)
Definition read_within (n : nat) (read : list sample + str) : Prop :=
  match read with
  | inl new_data => List.length new_data <= n
  | inr _ => True
  end.

End WithSample.

End LightweightCapture.

(* ===================================================================== *)
(** * What is observed of the other threads *)
(* ===================================================================== *)

Module Observed.


(** The chunks the capture loop cut off, each with whether the queue
    took it: what went into the queue, and the warnings printed for the
    others. *)
Definition taken {sample : Type} (offered : list (list sample * bool))
  : list (list sample) :=
  map fst (filter snd offered).

Definition warnings {sample : Type} (offered : list (list sample * bool))
  : list str :=
  map (fun _ => lit "Audio queue full, skipping chunk")
    (filter (fun o => negb (snd o)) offered).

(** The warning of line 210, without its pictograph. *)
Definition skip_warning : str := lit "Audio queue full, skipping chunk".

(** The actions of the loops of engine_lightweight.py, [stop] apart. *)
Definition is_loop_turn {sample : Type}
    (a : LightweightSession.action sample) : bool :=
  match a with
  | LightweightSession.Stop _ _ => false
  | _ => true
  end.




(** main.py: a job of the refine queue whose draft stands in the
    history at the line its index names, one below the index because
    of the line the UI logs first. *)
Definition job_in_place {audio : Type} (h : Main.history)
    (job : option (Z * audio * str)) : Prop :=
  match job with
  | None => True
  | Some (index, _, draft) =>
      (0 <= index)%Z
      /\ exists ts,
           existsb (Ascii.eqb "]"%char) ts = false
           /\ nth_error h (Z.to_nat (index + 1))
              = Some (MainThreads.line ts (lit "Streaming") draft)
  end.

Definition job_index {audio : Type} (job : option (Z * audio * str))
  : list Z :=
  match job with
  | None => []
  | Some (index, _, _) => [index]
  end.

(** main.py: the history has one line per draft besides the first, and
    every job still queued finds its draft in place. *)
Definition drafts_in_place {audio : Type} (s : Main.transcriber audio)
  : Prop :=
  Main.is_running s = true
  /\ (0 <= Main.history_index s)%Z
  /\ Z.of_nat (List.length (Main.ui_history s))
     = (Main.history_index s + 1)%Z
  /\ Forall (job_in_place (Main.ui_history s)) (Main.refine_queue s)
  /\ NoDup (flat_map job_index (Main.refine_queue s))
  /\ Forall (fun i => (i < Main.history_index s)%Z)
       (flat_map job_index (Main.refine_queue s)).

(** main.py: the end mark stands behind every job of the refine
    queue, and the refining thread has left its loop only on an empty
    queue. *)
Definition is_job {audio : Type} (item : option (Z * audio * str)) : bool :=
  match item with Some _ => true | None => false end.

Definition mark_is_last {audio : Type} (s : Main.transcriber audio) : Prop :=
  (Main.streaming_done s = false ->
   Main.refining_done s = false
   /\ forallb is_job (Main.refine_queue s) = true)
  /\ (Main.streaming_done s = true ->
      if Main.refining_done s
      then Main.refine_queue s = []
      else exists jobs,
             Main.refine_queue s = jobs ++ [None]
             /\ forallb is_job jobs = true).

(** The Refined entries among the calls to the update callback, in the
    order of the calls. *)
Definition refined_of (evs : list Engine.event) : list Engine.transcript :=
  flat_map
    (fun ev =>
       match ev with
       | Engine.transcript_event t =>
           if PyStr.eqb (Engine.status t) Engine.Refined then [t] else []
       | Engine.status_event _ => []
       end)
    evs.

(** gui_transcriber.py: what the scrollable log holds for a list of
    entries, each text followed by an empty line. *)
Definition log_of (ts : list Engine.transcript) : str :=
  concat (map (fun t => Engine.text t ++ Main.newline ++ Main.newline) ts).

(** gui_transcriber.py: the engine makes the calls [batch] to the
    callback, then the timer runs [process_queue]. *)
Definition poll (self : GuiTranscriber.app) (batch : list Engine.event)
  : GuiTranscriber.app :=
  GuiTranscriber.process_queue
    (fold_left GuiTranscriber.update_callback batch self).

(** gui_transcriber.py: what the label of the live speech shows once
    the event [ev] has been processed. *)
Definition label_after (ev : Engine.event) : str :=
  match ev with
  | Engine.status_event data => data
  | Engine.transcript_event t =>
      if PyStr.eqb (Engine.status t) Engine.Refined then []
      else Engine.text t
  end.

(** A text that ends in one of the three marks. *)
Definition ends_in_mark (s : str) : Prop :=
  exists y c, s = y ++ [c] /\ terminal c = true.

(** engine.py: an entry as the streaming thread or the refining thread
    hands it to the callback. *)
Definition well_formed (ev : Engine.event) : Prop :=
  match ev with
  | Engine.status_event _ => False
  | Engine.transcript_event t =>
      (Engine.status t = Engine.Streaming
       /\ Engine.timestamp t = None
       /\ substantial (Engine.text t)
       /\ ends_in_mark (Engine.text t))
      \/ (Engine.status t = Engine.Refined
          /\ Engine.timestamp t <> None
          /\ Engine.text t = strip (Engine.text t)
          /\ (2 < len (Engine.text t))%Z)
  end.

(** What one step adds: the Streaming entries of the sentences cut in
    this turn, or one Refined entry that also joins the session list. *)
Definition adds {audio : Type} (self self' : Engine.engine audio)
    (sentences : list str)
    (refined : list Engine.transcript) : Prop :=
  Engine.callbacks self'
  = Engine.callbacks self
    ++ entries (Engine.chunk_id self) sentences
    ++ map Engine.transcript_event refined
  /\ Engine.session_transcripts self'
     = Engine.session_transcripts self ++ refined
  /\ Forall (fun s => substantial s /\ Observed.ends_in_mark s) sentences
  /\ Forall (fun t => Engine.status t = Engine.Refined
                      /\ Engine.timestamp t <> None
                      /\ Engine.text t = strip (Engine.text t)
                      /\ (2 < len (Engine.text t))%Z) refined.

(** engine.py: the records of a session file all of whose entries
    read "[Refined]", behind the rule. *)
Definition refined_records (ts : list Engine.transcript) : str :=
  times "=" 50 ++ Main.newline ++ Main.newline
  ++ concat (map (fun t => lit "[Refined] " ++ Engine.text t
                           ++ Main.newline ++ Main.newline) ts).

(** engine.py: what the session file can hold when the session list is
    [session] and the file held [d0] at the start: still [d0], or the
    first [k] characters of a snapshot, with its header, of the first
    entries [ts] of the list, those it had when the snapshot was
    taken. *)
Definition saved_from (d0 d : PyFile.disk) (session : list Engine.transcript)
  : Prop :=
  d = d0
  \/ exists now k ts later,
       session = ts ++ later
       /\ d = Some (firstn k (header now ++ refined_records ts)).

(** engine.py: what holds between any two steps of the threads: the
    session list holds Refined entries only, which are those the
    callback has been given followed by the one still waiting for it,
    and the file comes from the list. *)
Definition turns_inv {audio : Type} (d0 : PyFile.disk)
    (sd : EngineTurns.threads audio * PyFile.disk) : Prop :=
  let session := Engine.session_transcripts (EngineTurns.engine (fst sd)) in
  Forall (fun t => Engine.status t = Engine.Refined) session
  /\ session
     = refined_of (Engine.callbacks (EngineTurns.engine (fst sd)))
       ++ EngineTurns.waiting (fst sd)
  /\ saved_from d0 (snd sd) session.

(** engine_lightweight.py: the samples [samples] that the capture loop
    has read between [c] and [c'] are all accounted for: the chunks cut
    off, each in the queue or answered by the warning of line 210
    among the lines printed, followed by the buffer, are the old
    buffer followed by the samples. *)
Definition accounted {sample : Type}
    (c c' : EngineLightweight.engine sample) (samples : list sample)
  : Prop :=
  exists offered lines,
    PyQueue.items (EngineLightweight.audio_queue c')
    = PyQueue.items (EngineLightweight.audio_queue c) ++ taken offered
    /\ EngineLightweight.printed c' = EngineLightweight.printed c ++ lines
    /\ filter (PyStr.eqb skip_warning) lines = warnings offered
    /\ Forall (fun o => List.length (fst o)
                        = EngineLightweight.chunk_samples c) offered
    /\ concat (map fst offered) ++ EngineLightweight.audio_buffer c'
       = EngineLightweight.audio_buffer c ++ samples.

End Observed.

(* ===================================================================== *)
(** * Facts about the string operations *)
(* ===================================================================== *)

Unset Implicit Arguments.

Example strip_ex : strip (lit "  Hello world. ") = lit "Hello world.".
Proof. reflexivity. Qed.

Example find_ex : find (lit "Hello world. ok.") "."%char = 11%Z.
Proof. reflexivity. Qed.

Example find_missing_ex : find (lit "Hello") "."%char = (-1)%Z.
Proof. reflexivity. Qed.

Example slice_ex : slice_to (lit "Hello world. ok.") 12 = lit "Hello world.".
Proof. reflexivity. Qed.

Example of_nat_ex : of_nat 2024 = lit "2024".
Proof. reflexivity. Qed.

Lemma infix_refl s : infix s s.
Proof. exists [], []. now rewrite app_nil_r. Qed.

Lemma infix_trans t s u : infix t s -> infix s u -> infix t u.
Proof.
  intros (a & b & ->) (c & d & ->).
  exists (c ++ a), (b ++ d). now rewrite !app_assoc.
Qed.

Lemma infix_length t s : infix t s -> List.length t <= List.length s.
Proof. intros (a & b & ->). rewrite !length_app. lia. Qed.

Lemma infix_In t s c : infix t s -> In c t -> In c s.
Proof. intros (a & b & ->) H. rewrite !in_app_iff. auto. Qed.

Lemma infix_firstn n s : infix (firstn n s) s.
Proof. exists [], (skipn n s). simpl. now rewrite firstn_skipn. Qed.

Lemma infix_skipn n s : infix (skipn n s) s.
Proof. exists (firstn n s), []. now rewrite app_nil_r, firstn_skipn. Qed.

Lemma lstrip_split s :
  exists pre, s = pre ++ lstrip s /\ forallb isspace pre = true.
Proof.
  induction s as [|c r (pre & E & W)]; simpl.
  - now exists [].
  - destruct (isspace c) eqn:Hc.
    + exists (c :: pre). simpl. rewrite Hc, W. now rewrite <- E.
    + now exists [].
Qed.

Lemma rstrip_split s :
  exists suf, s = rstrip s ++ suf /\ forallb isspace suf = true.
Proof.
  unfold rstrip. destruct (lstrip_split (rev s)) as (pre & E & W).
  exists (rev pre). split.
  - rewrite <- rev_app_distr, <- E. now rewrite rev_involutive.
  - rewrite forallb_forall in *. intros c Hc. apply W. now apply in_rev.
Qed.

Lemma strip_infix s : infix (strip s) s.
Proof.
  unfold strip.
  destruct (lstrip_split s) as (pre & E & _).
  destruct (rstrip_split (lstrip s)) as (suf & E' & _).
  exists pre, suf. now rewrite <- E'.
Qed.

Lemma strip_length s : List.length (strip s) <= List.length s.
Proof. apply infix_length, strip_infix. Qed.

Lemma lstrip_idem s : lstrip (lstrip s) = lstrip s.
Proof.
  induction s as [|c r IH]; simpl; [easy|].
  destruct (isspace c) eqn:E; [exact IH|]. simpl. now rewrite E.
Qed.

Lemma rstrip_idem s : rstrip (rstrip s) = rstrip s.
Proof. unfold rstrip. now rewrite rev_involutive, lstrip_idem. Qed.

Lemma lstrip_snoc x c :
  isspace c = false -> exists y, lstrip (x ++ [c]) = y ++ [c].
Proof.
  intros Hc. induction x as [|d x IH]; simpl.
  - rewrite Hc. now exists [].
  - destruct (isspace d); [exact IH|]. now exists (d :: x).
Qed.

(** Trimming the right end leaves the left end as it is. *)
Lemma lstrip_rstrip t : lstrip t = t -> lstrip (rstrip t) = rstrip t.
Proof.
  destruct t as [|c r]; [reflexivity|]. intros H.
  assert (Hc : isspace c = false).
  { simpl in H. destruct (isspace c) eqn:E; [|reflexivity].
    pose proof (lstrip_split r) as (pre & E1 & _).
    apply (f_equal (@List.length ascii)) in H, E1.
    rewrite length_app in E1. simpl in H. lia. }
  unfold rstrip. simpl rev.
  destruct (lstrip_snoc (rev r) c Hc) as (y & ->).
  rewrite rev_app_distr. simpl. now rewrite Hc.
Qed.

Lemma strip_idem s : strip (strip s) = strip s.
Proof.
  unfold strip.
  rewrite (lstrip_rstrip (lstrip s)) by apply lstrip_idem.
  apply rstrip_idem.
Qed.

(** A string that does not start with white space is its own [lstrip]. *)
Lemma lstrip_id c r : isspace c = false -> lstrip (c :: r) = c :: r.
Proof. simpl. now intros ->. Qed.

Lemma lstrip_app_nonspace s c r :
  isspace c = false -> lstrip (s ++ c :: r) = lstrip (s ++ [c]) ++ r.
Proof.
  intros Hc. induction s as [|d s IH]; simpl.
  - now rewrite Hc.
  - destruct (isspace d); [exact IH|].
    simpl. now rewrite <- app_assoc.
Qed.

Lemma lstrip_spaces w : forallb isspace w = true -> lstrip w = [].
Proof.
  induction w as [|c w IH]; simpl; [easy|].
  intros H. apply andb_prop in H as [-> H]. auto.
Qed.

Lemma lstrip_spaces_app w s :
  forallb isspace w = true -> lstrip (w ++ s) = lstrip s.
Proof.
  induction w as [|c w IH]; simpl; [easy|].
  intros H. apply andb_prop in H as [-> H]. auto.
Qed.

Lemma rstrip_app_spaces s w :
  forallb isspace w = true -> rstrip (s ++ w) = rstrip s.
Proof.
  intros H. unfold rstrip. rewrite rev_app_distr.
  rewrite lstrip_spaces_app; [easy|].
  rewrite forallb_forall in *. intros c Hc. apply H. now apply in_rev.
Qed.

Lemma bound_nat s k :
  k <= List.length s -> bound s (Z.of_nat k) = k.
Proof.
  intros H. unfold bound, len.
  destruct (Z.of_nat k <? 0)%Z eqn:E; [lia|].
  rewrite Z.min_l by lia. apply Nat2Z.id.
Qed.

Section First.
Variable p : ascii -> bool.

Lemma first_lt s k : first p s = Some k -> k < List.length s.
Proof.
  revert k. induction s as [|c r IH]; simpl; [easy|]. intros k.
  destruct (p c); [intros [= <-]; lia|].
  destruct (first p r) as [j|]; [|easy].
  intros [= <-]. specialize (IH j eq_refl). lia.
Qed.

Lemma first_None s : first p s = None <-> existsb p s = false.
Proof.
  induction s as [|c r IH]; simpl; [easy|].
  destruct (p c); simpl; [easy|].
  destruct (first p r); [|tauto].
  split; [easy|]. intros H. apply IH in H. easy.
Qed.

Lemma first_Some_exists s k : first p s = Some k -> existsb p s = true.
Proof.
  intros H. destruct (existsb p s) eqn:E; [easy|].
  apply first_None in E. congruence.
Qed.

(** Nothing before the first accepted character is accepted. *)
Lemma first_prefix s k :
  first p s = Some k -> existsb p (firstn k s) = false.
Proof.
  revert k. induction s as [|c r IH]; simpl; [easy|]. intros k.
  destruct (p c) eqn:Hc; [now intros [= <-]|].
  destruct (first p r) as [j|]; [|easy].
  intros [= <-]. simpl. rewrite Hc. now apply IH.
Qed.

Lemma first_nth s k :
  first p s = Some k -> p (nth k s "000"%char) = true.
Proof.
  revert k. induction s as [|c r IH]; simpl; [easy|]. intros k.
  destruct (p c) eqn:Hc; [now intros [= <-]|].
  destruct (first p r) as [j|]; [|easy].
  intros [= <-]. now apply IH.
Qed.

End First.

Lemma contains_first e s :
  contains e s = match first (Ascii.eqb e) s with
                 | Some _ => true
                 | None => false
                 end.
Proof.
  unfold contains. destruct (first (Ascii.eqb e) s) eqn:E.
  - eapply first_Some_exists; eauto.
  - now apply first_None.
Qed.

Lemma find_first e s :
  find s e = match first (Ascii.eqb e) s with
             | Some k => Z.of_nat k
             | None => (-1)%Z
             end.
Proof.
  induction s as [|c r IH]; simpl; [easy|].
  destruct (Ascii.eqb e c); [easy|].
  rewrite IH. destruct (first (Ascii.eqb e) r) as [k|]; [|easy].
  destruct (Z.of_nat k =? -1)%Z eqn:E; lia.
Qed.

(* ===================================================================== *)
(** * The cutting loop *)
(* ===================================================================== *)

(** The [while] loop of [_extract_complete_sentences] is the cutting
    loop at the characters equal to [ending]: inside the loop [find]
    never answers -1. *)
Lemma while_ending_cut_loop fuel e ss b :
  Engine.while_ending fuel e ss b = cut_loop (Ascii.eqb e) fuel ss b.
Proof.
  revert ss b. induction fuel as [|f IH]; intros ss b; [easy|].
  cbn [Engine.while_ending cut_loop]. cbv zeta.
  rewrite contains_first, find_first.
  destruct (first (Ascii.eqb e) b) as [k|] eqn:E; [|easy].
  apply first_lt in E.
  replace (Z.of_nat k + 1)%Z with (Z.of_nat (S k)) by lia.
  destruct (Z.of_nat k =? -1)%Z eqn:E1; [lia|]. cbn [negb].
  unfold slice_to, slice_from. rewrite bound_nat by lia.
  apply IH.
Qed.

Section CutLoop.
Variable p : ascii -> bool.

Lemma cut_shrinks b k :
  first p b = Some k ->
  List.length (strip (skipn (S k) b)) < List.length b.
Proof.
  intros E. apply first_lt in E.
  pose proof (strip_length (skipn (S k) b)) as H.
  rewrite length_skipn in H. lia.
Qed.

(** With more fuel than the buffer has characters the loop ends: it
    adds sentences longer than ten characters to [ss] and leaves a
    run of the buffer in which [p] accepts nothing. *)
Lemma cut_loop_total fuel ss b :
  List.length b < fuel ->
  exists new b',
    cut_loop p fuel ss b = Some (ss ++ new, b')
    /\ infix b' b
    /\ existsb p b' = false
    /\ Forall substantial new.
Proof.
  revert ss b. induction fuel as [|f IH]; intros ss b Hf; [lia|].
  cbn [cut_loop]. cbv zeta.
  destruct (first p b) as [k|] eqn:E.
  - pose proof (cut_shrinks _ _ E) as Hs.
    set (b1 := strip (skipn (S k) b)) in *.
    assert (Hi : infix b1 b)
      by (eapply infix_trans; [apply strip_infix | apply infix_skipn]).
    destruct (10 <? len (strip (firstn (S k) b)))%Z eqn:L.
    + destruct (IH (ss ++ [strip (firstn (S k) b)]) b1) as (new & b' & R & I & N & F);
        [lia|].
      exists (strip (firstn (S k) b) :: new), b'. repeat split; auto.
      * rewrite R, <- app_assoc. reflexivity.
      * eapply infix_trans; eauto.
      * constructor; [|exact F]. split; [lia | apply strip_idem].
    + destruct (IH ss b1) as (new & b' & R & I & N & F); [lia|].
      exists new, b'. repeat split; auto.
      eapply infix_trans; eauto.
  - exists [], b. rewrite app_nil_r. repeat split; auto.
    + apply infix_refl.
    + now apply first_None.
Qed.

(** Past that point the amount of fuel makes no difference. *)
Lemma cut_loop_fuel f1 f2 ss b :
  List.length b < f1 -> List.length b < f2 ->
  cut_loop p f1 ss b = cut_loop p f2 ss b.
Proof.
  revert f2 ss b. induction f1 as [|f1 IH]; intros f2 ss b H1 H2; [lia|].
  destruct f2 as [|f2]; [lia|]. cbn [cut_loop]. cbv zeta.
  destruct (first p b) as [k|] eqn:E; [|easy].
  pose proof (cut_shrinks _ _ E). apply IH; lia.
Qed.

End CutLoop.

Lemma first_ext p q s :
  (forall c, In c s -> p c = q c) -> first p s = first q s.
Proof.
  induction s as [|c r IH]; simpl; [easy|]. intros H.
  rewrite (H c) by auto. rewrite IH by auto. reflexivity.
Qed.

(** Two predicates that agree on the characters of the buffer cut it
    alike. *)
Lemma cut_loop_ext p q fuel ss b :
  (forall c, In c b -> p c = q c) ->
  cut_loop p fuel ss b = cut_loop q fuel ss b.
Proof.
  revert ss b. induction fuel as [|f IH]; intros ss b H; [easy|].
  cbn [cut_loop]. cbv zeta.
  rewrite (first_ext p q b H).
  destruct (first q b) as [k|]; [|easy].
  apply IH. intros c Hc. apply H.
  eapply infix_In; [|exact Hc].
  eapply infix_trans; [apply strip_infix | apply infix_skipn].
Qed.

Section Ordered.
Variables p q : ascii -> bool.
Hypothesis p_q : forall c, p c = true -> q c = true.

Lemma none_after_first b k :
  none_after p q b = true ->
  first p b = Some k -> first q b = Some k.
Proof.
  revert k. induction b as [|c r IH]; simpl; [easy|]. intros k H.
  apply andb_prop in H as [H1 H2].
  destruct (p c) eqn:Pc.
  - rewrite (p_q _ Pc). easy.
  - destruct (first p r) as [j|] eqn:E; [|easy]. intros [= <-].
    destruct (q c); simpl in H1.
    + apply first_Some_exists in E. rewrite E in H1. easy.
    + now rewrite (IH j H2 eq_refl).
Qed.

Lemma none_after_app_r l b :
  none_after p q (l ++ b) = true -> none_after p q b = true.
Proof.
  induction l as [|c l IH]; simpl; [easy|].
  intros H. apply andb_prop in H as [_ H]. auto.
Qed.

Lemma none_after_app_l b l :
  none_after p q (b ++ l) = true -> none_after p q b = true.
Proof.
  induction b as [|c b IH]; simpl; [easy|].
  intros H. apply andb_prop in H as [H1 H2].
  rewrite (IH H2), andb_true_r.
  destruct (q c && negb (p c)); [|easy].
  rewrite existsb_app in H1.
  destruct (existsb p b); [easy|reflexivity].
Qed.

Lemma none_after_infix t s :
  infix t s -> none_after p q s = true -> none_after p q t = true.
Proof.
  intros (l1 & l2 & ->) H.
  apply none_after_app_r in H. now apply none_after_app_l in H.
Qed.

(** When every character of [p] stands before the others of [q],
    cutting at [q] is cutting at [p] first and at [q] afterwards. *)
Lemma cut_loop_split fuel ss b :
  none_after p q b = true ->
  List.length b < fuel ->
  cut_loop q fuel ss b =
  match cut_loop p fuel ss b with
  | Some (ss', b') => cut_loop q fuel ss' b'
  | None => None
  end.
Proof.
  revert ss b. induction fuel as [|f IH]; intros ss b Ho Hf; [lia|].
  cbn [cut_loop]. cbv zeta.
  destruct (first p b) as [k|] eqn:E.
  - rewrite (none_after_first _ _ Ho E).
    pose proof (cut_shrinks _ _ _ E) as Hs.
    set (b1 := strip (skipn (S k) b)) in *.
    set (ss1 := if (10 <? len (strip (firstn (S k) b)))%Z
                then ss ++ [strip (firstn (S k) b)] else ss).
    assert (Hi : infix b1 b)
      by (eapply infix_trans; [apply strip_infix | apply infix_skipn]).
    rewrite (IH ss1 b1 (none_after_infix _ _ Hi Ho)) by lia.
    destruct (cut_loop_total p f ss1 b1)
      as (new & b' & R & I & _ & _); [lia|].
    rewrite R. apply infix_length in I.
    apply (cut_loop_fuel q f (S f)); lia.
  - reflexivity.
Qed.

End Ordered.

(* ===================================================================== *)
(** * What the cutting loop leaves in the buffer *)
(* ===================================================================== *)

Lemma strip_split s :
  exists w1 w2, s = w1 ++ strip s ++ w2
    /\ forallb isspace w1 = true /\ forallb isspace w2 = true.
Proof.
  unfold strip.
  destruct (lstrip_split s) as (w1 & E1 & W1).
  destruct (rstrip_split (lstrip s)) as (w2 & E2 & W2).
  exists w1, w2. now rewrite <- E2.
Qed.

Lemma lstrip_app_spaces x w :
  forallb isspace w = true ->
  lstrip (x ++ w) = match lstrip x with [] => [] | l => l ++ w end.
Proof.
  intros W. induction x as [|c x IH]; simpl.
  - now apply lstrip_spaces.
  - destruct (isspace c); [exact IH | reflexivity].
Qed.

Lemma strip_app_spaces x w :
  forallb isspace w = true -> strip (x ++ w) = strip x.
Proof.
  intros W. unfold strip. rewrite (lstrip_app_spaces _ _ W).
  destruct (lstrip x) as [|c l]; [reflexivity|].
  now apply rstrip_app_spaces.
Qed.

Lemma existsb_agree (p q : ascii -> bool) s :
  (forall c, In c s -> p c = q c) -> existsb p s = existsb q s.
Proof.
  induction s as [|c r IH]; simpl; [easy|]. intros H.
  rewrite (H c) by auto. rewrite IH by auto. reflexivity.
Qed.

Lemma existsb_either (p q : ascii -> bool) s :
  existsb (fun c => p c || q c) s = existsb p s || existsb q s.
Proof.
  induction s as [|c r IH]; simpl; [easy|]. rewrite IH.
  destruct (p c), (q c), (existsb p r), (existsb q r); reflexivity.
Qed.

Lemma after_last_ext p q s :
  (forall c, In c s -> p c = q c) -> after_last p s = after_last q s.
Proof.
  induction s as [|c r IH]; simpl; [easy|]. intros H.
  rewrite (existsb_agree p q r) by auto.
  rewrite (H c) by auto. rewrite IH by auto. reflexivity.
Qed.

Section AfterLast.
Variable p : ascii -> bool.
Hypothesis p_nonspace : forall c, p c = true -> isspace c = false.

Lemma spaces_rejected w : forallb isspace w = true -> existsb p w = false.
Proof.
  induction w as [|c w IH]; simpl; [easy|]. intros H.
  apply andb_prop in H as [Hc H]. rewrite (IH H), orb_false_r.
  destruct (p c) eqn:E; [|easy]. apply p_nonspace in E. congruence.
Qed.

Lemma existsb_strip s : existsb p (strip s) = existsb p s.
Proof.
  destruct (strip_split s) as (w1 & w2 & E & W1 & W2).
  rewrite E at 2. rewrite !existsb_app.
  rewrite (spaces_rejected _ W1), (spaces_rejected _ W2).
  now rewrite orb_false_r.
Qed.

Lemma after_last_none s : existsb p s = false -> after_last p s = s.
Proof.
  induction s as [|c r IH]; simpl; [easy|]. intros H.
  apply orb_false_elim in H as [-> ->]. reflexivity.
Qed.

Lemma after_last_app l x :
  existsb p x = true -> after_last p (l ++ x) = after_last p x.
Proof.
  intros H. induction l as [|c l IH]; simpl; [easy|].
  rewrite existsb_app, H, orb_true_r. exact IH.
Qed.

Lemma after_last_app_spaces x w :
  existsb p x = true -> forallb isspace w = true ->
  after_last p (x ++ w) = after_last p x ++ w.
Proof.
  intros H W. induction x as [|c r IH]; simpl in *; [easy|].
  rewrite existsb_app, (spaces_rejected _ W), orb_false_r.
  destruct (existsb p r); [now apply IH|].
  rewrite orb_false_r in H. now rewrite H.
Qed.

Lemma strip_after_last_strip y :
  existsb p y = true ->
  strip (after_last p (strip y)) = strip (after_last p y).
Proof.
  intros H.
  destruct (strip_split y) as (w1 & w2 & E & W1 & W2).
  assert (Hs : existsb p (strip y) = true) by now rewrite existsb_strip.
  rewrite E at 2.
  rewrite after_last_app
    by (rewrite existsb_app, Hs; reflexivity).
  rewrite (after_last_app_spaces _ _ Hs W2).
  now rewrite strip_app_spaces.
Qed.

Lemma rest_strip y : rest p (strip y) = strip (after_last p y).
Proof.
  unfold rest. rewrite existsb_strip.
  destruct (existsb p y) eqn:H.
  - now apply strip_after_last_strip.
  - now rewrite after_last_none.
Qed.

Lemma after_last_first b k :
  first p b = Some k -> existsb p (skipn (S k) b) = false ->
  after_last p b = skipn (S k) b.
Proof.
  revert k. induction b as [|c r IH]; simpl; [easy|]. intros k.
  destruct (p c) eqn:Pc.
  - intros [= <-]. simpl. now intros ->.
  - destruct (first p r) as [j|] eqn:E; [|easy]. intros [= <-] H.
    rewrite (first_Some_exists _ _ _ E). now apply IH.
Qed.

(** The buffer the loop ends with. *)
Lemma cut_loop_rest fuel ss b ss' b' :
  List.length b < fuel ->
  cut_loop p fuel ss b = Some (ss', b') -> b' = rest p b.
Proof.
  revert ss b. induction fuel as [|f IH]; intros ss b Hf; [lia|].
  cbn [cut_loop]. cbv zeta.
  destruct (first p b) as [k|] eqn:E.
  - intros R. pose proof (cut_shrinks _ _ _ E) as Hs.
    apply IH in R; [|lia]. rewrite R, rest_strip.
    unfold rest. rewrite (first_Some_exists _ _ _ E).
    destruct (existsb p (skipn (S k) b)) eqn:X.
    + rewrite <- (firstn_skipn (S k) b) at 2.
      now rewrite after_last_app.
    + now rewrite after_last_none, (after_last_first _ _ E X).
  - intros [= <- <-]. unfold rest.
    apply first_None in E. now rewrite E.
Qed.

End AfterLast.

(** Consuming the [p1] candidates and then the [p2] candidates leaves
    what consuming the candidates of either kind leaves. *)
Lemma after_last_after_last p1 p2 s :
  after_last p2 (after_last p1 s) = after_last (fun c => p1 c || p2 c) s.
Proof.
  induction s as [|c r IH]; [reflexivity|].
  cbn [after_last]. rewrite existsb_either.
  destruct (existsb p1 r) eqn:E1; cbn [orb]; [exact IH|].
  assert (X : forall d, In d r -> p2 d = p1 d || p2 d).
  { intros d Hd. destruct (p1 d) eqn:Pd; [|reflexivity].
    assert (existsb p1 r = true) by (apply existsb_exists; eauto).
    congruence. }
  destruct (p1 c) eqn:Pc; cbn [orb].
  - destruct (existsb p2 r) eqn:E2.
    + now apply after_last_ext.
    + now apply after_last_none.
  - cbn [after_last]. rewrite (after_last_ext _ _ r X). reflexivity.
Qed.

Lemma rest_rest p1 p2 b :
  (forall c, p2 c = true -> isspace c = false) ->
  rest p2 (rest p1 b) = rest (fun c => p1 c || p2 c) b.
Proof.
  intros N2. unfold rest at 2. destruct (existsb p1 b) eqn:E1.
  - rewrite (rest_strip _ N2), after_last_after_last.
    unfold rest. now rewrite existsb_either, E1.
  - assert (X : forall d, In d b -> p2 d = p1 d || p2 d).
    { intros d Hd. destruct (p1 d) eqn:Pd; [|reflexivity].
      assert (existsb p1 b = true) by (apply existsb_exists; eauto).
      congruence. }
    unfold rest. rewrite (existsb_agree _ _ b X).
    now rewrite (after_last_ext _ _ b X).
Qed.

(* ===================================================================== *)
(** * [_extract_complete_sentences] *)
(* ===================================================================== *)

Lemma ending_nonspace e :
  In e Engine.sentence_endings ->
  forall c, Ascii.eqb e c = true -> isspace c = false.
Proof.
  intros H c E. apply Ascii.eqb_eq in E. subst c.
  simpl in H. destruct H as [<-|[<-|[<-|[]]]]; reflexivity.
Qed.

(** The function is three cutting loops in a row, at ['.'], then at
    ['!'], then at ['?']. *)
Lemma extract_cut_loops b :
  Engine.extract b =
  match cut_loop (Ascii.eqb ".") (S (List.length b)) [] b with
  | Some (s1, b1) =>
      match cut_loop (Ascii.eqb "!") (S (List.length b)) s1 b1 with
      | Some (s2, b2) => cut_loop (Ascii.eqb "?") (S (List.length b)) s2 b2
      | None => None
      end
  | None => None
  end.
Proof.
  unfold Engine.extract, Engine.sentence_endings.
  cbn [Engine.for_ending]. rewrite !while_ending_cut_loop.
  destruct (cut_loop (Ascii.eqb ".") _ _ _) as [[s1 b1]|]; [|reflexivity].
  rewrite !while_ending_cut_loop.
  destruct (cut_loop (Ascii.eqb "!") _ _ _) as [[s2 b2]|]; [|reflexivity].
  rewrite !while_ending_cut_loop.
  destruct (cut_loop (Ascii.eqb "?") _ _ _) as [[s3 b3]|]; reflexivity.
Qed.

(** The three loops end, whatever the buffer: the function returns
    sentences longer than ten characters and leaves the text after the
    last mark of the buffer. *)
Lemma extract_total b :
  exists sentences,
    Engine.extract b = Some (sentences, rest terminal b)
    /\ Forall substantial sentences.
Proof.
  rewrite extract_cut_loops.
  set (F := S (List.length b)).
  destruct (cut_loop_total (Ascii.eqb ".") F [] b) as (n1 & b1 & R1 & I1 & _ & F1);
    [subst F; lia|].
  rewrite R1. apply infix_length in I1.
  destruct (cut_loop_total (Ascii.eqb "!") F ([] ++ n1) b1)
    as (n2 & b2 & R2 & I2 & _ & F2); [subst F; lia|].
  rewrite R2. apply infix_length in I2.
  destruct (cut_loop_total (Ascii.eqb "?") F (([] ++ n1) ++ n2) b2)
    as (n3 & b3 & R3 & I3 & _ & F3); [subst F; lia|].
  rewrite R3.
  apply cut_loop_rest in R1, R2, R3;
    try (subst F; lia);
    try (apply ending_nonspace; simpl; auto).
  exists ((([] ++ n1) ++ n2) ++ n3). split.
  - f_equal. f_equal. subst b3 b2 b1.
    rewrite (rest_rest (Ascii.eqb ".") (Ascii.eqb "!") b)
      by (apply ending_nonspace; simpl; auto).
    rewrite rest_rest by (apply ending_nonspace; simpl; auto).
    reflexivity.
  - simpl. rewrite !Forall_app. auto.
Qed.

(** On a buffer whose marks stand in the order the code looks for them,
    the function is the left-to-right scan. *)
Lemma extract_scan b :
  kind_ordered b = true -> Engine.extract b = scan b.
Proof.
  intros H. apply andb_prop in H as [H1 H2].
  rewrite extract_cut_loops. unfold scan.
  set (F := S (List.length b)).
  assert (T1 : forall c, Ascii.eqb "." c = true -> terminal c = true)
    by (intros c E; unfold terminal; now rewrite E).
  rewrite (cut_loop_split _ _ T1 F [] b H1) by (subst F; lia).
  destruct (cut_loop_total (Ascii.eqb ".") F [] b)
    as (n1 & b1 & R1 & I1 & N1 & _); [subst F; lia|].
  rewrite R1.
  set (q2 := fun c => Ascii.eqb "!" c || Ascii.eqb "?" c) in *.
  assert (X1 : forall c, In c b1 -> terminal c = q2 c).
  { intros c Hc. unfold terminal, q2.
    destruct (Ascii.eqb "." c) eqn:E; [|reflexivity].
    assert (existsb (Ascii.eqb ".") b1 = true)
      by (apply existsb_exists; eauto).
    congruence. }
  rewrite (cut_loop_ext _ _ F _ b1 X1).
  assert (T2 : forall c, Ascii.eqb "!" c = true -> q2 c = true)
    by (intros c E; unfold q2; now rewrite E).
  pose proof (infix_length _ _ I1) as L1.
  rewrite (cut_loop_split _ _ T2 F _ b1 (none_after_infix _ _ _ _ I1 H2))
    by (subst F; lia).
  destruct (cut_loop_total (Ascii.eqb "!") F ([] ++ n1) b1)
    as (n2 & b2 & R2 & I2 & N2 & _); [subst F; lia|].
  rewrite R2.
  apply cut_loop_ext. intros c Hc. unfold q2.
  destruct (Ascii.eqb "!" c) eqn:E; [|reflexivity].
  assert (existsb (Ascii.eqb "!") b2 = true)
    by (apply existsb_exists; eauto).
  congruence.
Qed.

(** A buffer without a mark is left as it is. *)
Lemma extract_no_mark b :
  existsb terminal b = false -> Engine.extract b = Some ([], b).
Proof.
  intros H. rewrite extract_cut_loops.
  change terminal
    with (fun c => (Ascii.eqb "." c || Ascii.eqb "!" c) || Ascii.eqb "?" c) in H.
  rewrite existsb_either in H. apply orb_false_elim in H as [H H3].
  rewrite existsb_either in H. apply orb_false_elim in H as [H1 H2].
  apply first_None in H1, H2, H3.
  cbn [cut_loop]. rewrite H1, H2, H3. reflexivity.
Qed.

(* ===================================================================== *)
(** * The worker threads of engine.py *)
(* ===================================================================== *)

Lemma streaming_ids_app evs evs' :
  streaming_ids (evs ++ evs') = streaming_ids evs ++ streaming_ids evs'.
Proof. unfold streaming_ids. now rewrite flat_map_app. Qed.

Lemma streaming_ids_entries n sentences :
  streaming_ids (entries n sentences) = seq n (List.length sentences).
Proof.
  revert n. induction sentences as [|s r IH]; intros n; [reflexivity|].
  simpl. now rewrite <- IH.
Qed.

Lemma long_truthy t : (2 <? len t)%Z = true -> truthy t = true.
Proof. destruct t; [easy|reflexivity]. Qed.

Lemma substantial_truthy s : substantial s -> truthy (strip s) = true.
Proof.
  intros [L ->]. destruct s; [|reflexivity]. unfold len in L. simpl in L. lia.
Qed.

(** Closes the goals of a turn that leaves the state as it is. *)
Ltac unchanged :=
  repeat split; auto;
  try (match goal with H : inv _ |- _ => apply H end).

Section EngineFacts.
Variable audio : Type.
Implicit Types (self : Engine.engine audio) (chunk : audio).

(** Feeding a transcript always returns: sentences that are
    substantial, and the engine with the text after the last mark in
    its buffer. *)
Lemma feed_total self transcript :
  exists sentences,
    Engine.feed self transcript =
      Some (sentences,
            Engine.set_sentence_buffer self
              (rest terminal
                 (strip (Engine.sentence_buffer self ++ lit " " ++ transcript))))
    /\ Forall substantial sentences
    /\ Engine.extract
         (strip (Engine.sentence_buffer self ++ lit " " ++ transcript))
       = Some (sentences,
               rest terminal
                 (strip (Engine.sentence_buffer self ++ lit " " ++ transcript))).
Proof.
  unfold Engine.feed, Engine._extract_complete_sentences.
  cbn [Engine.sentence_buffer Engine.set_sentence_buffer].
  destruct (extract_total
              (strip (Engine.sentence_buffer self ++ lit " " ++ transcript)))
    as (sentences & -> & F).
  exists sentences. split; [reflexivity|]. split; [exact F | reflexivity].
Qed.

(** The loop over the sentences hands each one to the callback and
    counts it. *)
Lemma emit_all sentences self :
  Forall substantial sentences ->
  fold_left (@Engine.emit audio) sentences self =
  {| Engine.is_running := Engine.is_running self;
     Engine.audio_queue := Engine.audio_queue self;
     Engine.refine_queue := Engine.refine_queue self;
     Engine.session_file := Engine.session_file self;
     Engine.session_transcripts := Engine.session_transcripts self;
     Engine.sentence_buffer := Engine.sentence_buffer self;
     Engine.chunk_id := Engine.chunk_id self + List.length sentences;
     Engine.callbacks :=
       Engine.callbacks self ++ entries (Engine.chunk_id self) sentences;
     Engine.printed := Engine.printed self |}.
Proof.
  intros F. revert self.
  induction F as [|s r Hs F IH]; intros self.
  - simpl. rewrite Nat.add_0_r, app_nil_r. now destruct self.
  - cbn [fold_left entries]. unfold Engine.emit at 2.
    rewrite (substantial_truthy _ Hs). rewrite IH.
    cbn [Engine.is_running Engine.audio_queue Engine.session_file
         Engine.session_transcripts Engine.printed Engine.chunk_id
         Engine.callbacks Engine.refine_queue Engine.sentence_buffer
         Engine.set_chunk_id Engine.update_callback List.length].
    rewrite Nat.add_1_r, Nat.add_succ_r, <- app_assoc. reflexivity.
Qed.

(** A turn of the streaming thread on a chunk whose draft came back:
    the state afterwards, field by field. *)
Lemma streaming_turn_returns self chunk q text :
  Engine.audio_queue self = chunk :: q ->
  exists sentences self',
    Engine.streaming_turn true (Engine.Returns text) self = Some self'
    /\ Forall substantial sentences
    /\ Engine.is_running self' = Engine.is_running self
    /\ Engine.audio_queue self' = q
    /\ Engine.session_file self' = Engine.session_file self
    /\ Engine.session_transcripts self' = Engine.session_transcripts self
    /\ Engine.printed self' = Engine.printed self
    /\ (if passes text then
          Engine.chunk_id self'
            = Engine.chunk_id self + List.length sentences
          /\ Engine.callbacks self'
            = Engine.callbacks self
                ++ entries (Engine.chunk_id self) sentences
          /\ Engine.refine_queue self'
            = Engine.refine_queue self
                ++ [{| Engine.job_id := Engine.chunk_id self';
                       Engine.job_audio := chunk |}]
          /\ Engine.sentence_buffer self'
            = rest terminal
                (strip (Engine.sentence_buffer self ++ lit " " ++ strip text))
          /\ Engine.extract
               (strip (Engine.sentence_buffer self ++ lit " " ++ strip text))
             = Some (sentences, Engine.sentence_buffer self')
        else
          Engine.chunk_id self' = Engine.chunk_id self
          /\ Engine.callbacks self' = Engine.callbacks self
          /\ Engine.refine_queue self' = Engine.refine_queue self
          /\ Engine.sentence_buffer self' = Engine.sentence_buffer self).
Proof.
  intros Q. unfold Engine.streaming_turn. cbn [negb]. rewrite Q.
  cbn [PyQueue.get_unbounded]. unfold passes.
  destruct (2 <? len (strip text))%Z eqn:L.
  - rewrite (long_truthy _ L). cbn [andb].
    destruct (feed_total (Engine.set_audio_queue self q) (strip text))
      as (sentences & -> & F & X).
    rewrite (emit_all _ _ F).
    eexists sentences, _. split; [reflexivity|]. split; [exact F|].
    cbn [Engine.is_running Engine.audio_queue Engine.session_file
         Engine.session_transcripts Engine.printed Engine.chunk_id
         Engine.callbacks Engine.refine_queue Engine.sentence_buffer
         Engine.set_refine_queue Engine.set_chunk_id
         Engine.set_sentence_buffer Engine.set_audio_queue].
    repeat split. exact X.
  - rewrite andb_false_r.
    exists [], (Engine.set_audio_queue self q).
    repeat split. constructor.
Qed.

(** Whatever the pipeline does, a turn of the streaming thread ends,
    keeps the invariant and leaves the session list alone. *)
Lemma streaming_turn_inv ready r self :
  exists self',
    Engine.streaming_turn ready r self = Some self'
    /\ Engine.session_transcripts self' = Engine.session_transcripts self
    /\ Engine.is_running self' = Engine.is_running self
    /\ (inv self -> inv self').
Proof.
  destruct ready; [|exists self; unchanged].
  destruct (Engine.audio_queue self) as [|chunk q] eqn:Q.
  - exists self. unfold Engine.streaming_turn. rewrite Q.
    cbn [negb PyQueue.get_unbounded]. unchanged.
  - destruct r as [text|e].
    + destruct (streaming_turn_returns self chunk q text Q)
        as (sentences & self' & R & _ & Hrun & _ & _ & Hst & _ & H).
      exists self'. split; [exact R|]. split; [exact Hst|].
      split; [exact Hrun|].
      intros [I1 I2]. unfold inv. rewrite Hst. split; [|exact I2].
      destruct (passes text).
      * destruct H as (-> & -> & _).
        rewrite streaming_ids_app, streaming_ids_entries, I1.
        now rewrite seq_app.
      * destruct H as (-> & -> & _). exact I1.
    + eexists. unfold Engine.streaming_turn. rewrite Q.
      cbn [negb PyQueue.get_unbounded].
      split; [reflexivity|]. unchanged.
Qed.

Lemma refining_turn_inv ready r now self :
  exists self',
    Engine.refining_turn ready r now self = Some self'
    /\ Engine.is_running self' = Engine.is_running self
    /\ (inv self -> inv self').
Proof.
  destruct ready; [|exists self; unchanged].
  unfold Engine.refining_turn. cbn [negb].
  destruct (Engine.refine_queue self) as [|job q] eqn:Q.
  - exists self. unchanged.
  - cbn [PyQueue.get_unbounded]. destruct r as [text|e].
    + destruct (truthy (strip text) && (2 <? len (strip text))%Z).
      * eexists. split; [reflexivity|]. split; [reflexivity|].
        intros [I1 I2]. split; simpl.
        -- rewrite streaming_ids_app, I1. simpl. now rewrite app_nil_r.
        -- rewrite Forall_app. split; [exact I2|]. now constructor.
      * eexists. split; [reflexivity|]. unchanged.
    + eexists. split; [reflexivity|]. unchanged.
Qed.

Lemma step_inv a self d :
  exists self' d',
    Engine.step a (self, d) = Some (self', d') /\ (inv self -> inv self').
Proof.
  destruct a as [chunk|ready r|ready r now|now flt]; cbn [Engine.step].
  - destruct (Engine.is_running self); eexists _, _;
      (split; [reflexivity|auto]).
  - destruct (Engine.is_running self);
      [|eexists _, _; split; [reflexivity|auto]].
    destruct (streaming_turn_inv ready r self) as (self' & -> & _ & _ & I).
    eexists _, _; split; [reflexivity|auto].
  - destruct (Engine.is_running self);
      [|eexists _, _; split; [reflexivity|auto]].
    destruct (refining_turn_inv ready r now self) as (self' & -> & _ & I).
    eexists _, _; split; [reflexivity|auto].
  - unfold Engine.stop, Engine._save_session.
    destruct (PyFile.write_file _ flt d) as [d' [e|]];
      eexists _, _; (split; [reflexivity|auto]).
Qed.

(** Every sequence of actions runs to its end, and keeps the
    invariant. *)
Lemma run_inv acts self d :
  exists self' d',
    Engine.run acts (self, d) = Some (self', d') /\ (inv self -> inv self').
Proof.
  revert self d. induction acts as [|a acts IH]; intros self d.
  - exists self, d. split; [reflexivity|auto].
  - cbn [Engine.run].
    destruct (step_inv a self d) as (s1 & d1 & -> & I1).
    destruct (IH s1 d1) as (s2 & d2 & R & I2).
    exists s2, d2. split; [exact R|auto].
Qed.

Lemma inv_start f : inv (Engine.start (@Engine.init audio f)).
Proof. split; [reflexivity | constructor]. Qed.

(** The Streaming ids handed out are 0, 1, 2, ... in this order, each
    once, whatever the threads do. *)
Lemma streaming_ids_increasing acts f d0 :
  exists self d,
    Engine.run acts (Engine.start (@Engine.init audio f), d0) = Some (self, d)
    /\ streaming_ids (Engine.callbacks self) = seq 0 (Engine.chunk_id self).
Proof.
  destruct (run_inv acts (Engine.start (Engine.init f)) d0)
    as (self & d & R & I).
  exists self, d. split; [exact R|]. apply I, inv_start.
Qed.

(** The job a turn queues carries the counter as it stands after the
    sentences of this turn were numbered: the id of no entry handed
    out so far. *)
Lemma job_id_is_next_id self chunk q text :
  inv self ->
  Engine.audio_queue self = chunk :: q ->
  passes text = true ->
  exists self' j,
    Engine.streaming_turn true (Engine.Returns text) self = Some self'
    /\ Engine.refine_queue self' = Engine.refine_queue self ++ [j]
    /\ Engine.job_audio j = chunk
    /\ ~ In (Engine.job_id j) (streaming_ids (Engine.callbacks self')).
Proof.
  intros [I1 _] Q P.
  destruct (streaming_turn_returns self chunk q text Q)
    as (sentences & self' & R & _ & _ & _ & _ & _ & _ & H).
  rewrite P in H. destruct H as (C & K & Rq & _).
  eexists self', _. split; [exact R|]. split; [exact Rq|].
  split; [reflexivity|]. cbn [Engine.job_id].
  rewrite K, streaming_ids_app, streaming_ids_entries, I1, <- seq_app, <- C.
  rewrite in_seq. lia.
Qed.

End EngineFacts.

(* ===================================================================== *)
(** * The streaming thread and the refine queue *)
(* ===================================================================== *)

Section RefineJobs.
Variable audio : Type.

(** engine.py: the chunks that reach the refine queue are those whose
    draft passes, each once and in order. *)
Lemma engine_jobs (fed : list (audio * Engine.result)) :
  forall (self : Engine.engine audio) d,
    Engine.is_running self = true ->
    Engine.audio_queue self = map fst fed ->
    exists self' jobs,
      Engine.run (streaming_turns fed) (self, d) = Some (self', d)
      /\ Engine.audio_queue self' = []
      /\ Engine.refine_queue self' = Engine.refine_queue self ++ jobs
      /\ map (@Engine.job_audio audio) jobs = map fst (filter accepted fed).
Proof.
  induction fed as [|[chunk r] fed IH]; intros self d Hrun Q.
  - exists self, []. rewrite app_nil_r. repeat split; auto.
  - cbn [map fst] in Q. cbn [streaming_turns map Engine.run Engine.step snd].
    rewrite Hrun. destruct r as [text|e].
    + destruct (streaming_turn_returns audio self chunk _ text Q)
        as (sentences & self1 & -> & _ & R1 & Q1 & _ & _ & _ & H).
      destruct (IH self1 d) as (self' & jobs & R & Q' & Rq & A);
        [congruence | exact Q1 |].
      cbn [filter accepted snd]. destruct (passes text).
      * destruct H as (_ & _ & Rq1 & _).
        eexists self', (_ :: jobs). split; [exact R|]. split; [exact Q'|].
        split; [rewrite Rq, Rq1, <- app_assoc; reflexivity|].
        cbn [map Engine.job_audio fst]. now rewrite A.
      * destruct H as (_ & _ & Rq1 & _).
        exists self', jobs. rewrite Rq, Rq1. auto.
    + unfold Engine.streaming_turn. rewrite Q.
      cbn [negb PyQueue.get_unbounded filter accepted snd].
      match goal with
      | |- context [Engine.run _ (?s, d)] =>
          destruct (IH s d) as (self' & jobs & R & Q' & Rq & A);
          [exact Hrun | reflexivity |]
      end.
      exists self', jobs. auto.
Qed.

(** transcription_engine.py: every chunk whose draft came back is
    queued once, with its draft and the id of its entry. *)
Lemma drafted_jobs_queued (fed : list (audio * str)) :
  forall (self : TranscriptionEngine.engine audio),
    TranscriptionEngine.is_running self = true ->
    TranscriptionEngine.audio_queue self = map fst fed ->
    exists self',
      TranscriptionEngine._streaming_thread
        (map (fun ct => (true, Engine.Returns (snd ct))) fed) self
      = inl self'
      /\ TranscriptionEngine.audio_queue self' = []
      /\ TranscriptionEngine.refine_queue self'
         = TranscriptionEngine.refine_queue self
             ++ drafted_jobs (TranscriptionEngine.chunk_id self) fed
      /\ TranscriptionEngine.callbacks self'
         = TranscriptionEngine.callbacks self
             ++ drafted_entries (TranscriptionEngine.chunk_id self) fed.
Proof.
  induction fed as [|[chunk text] fed IH]; intros self Hrun Q.
  - exists self. rewrite !app_nil_r. repeat split; auto.
  - cbn [map fst snd] in *.
    cbn [TranscriptionEngine._streaming_thread].
    rewrite Hrun. unfold TranscriptionEngine.streaming_turn.
    rewrite Q. cbn [PyQueue.get_unbounded].
    match goal with
    | |- context [TranscriptionEngine._streaming_thread _ ?s] =>
        destruct (IH s) as (self' & R & Q' & Rq & Cb);
        [exact Hrun | reflexivity |]
    end.
    exists self'. split; [exact R|]. split; [exact Q'|].
    cbn [TranscriptionEngine.refine_queue TranscriptionEngine.callbacks
         TranscriptionEngine.chunk_id] in Rq, Cb.
    rewrite Nat.add_1_r in Rq, Cb. unfold PyQueue.put in Rq.
    rewrite <- app_assoc in Rq, Cb. split; [exact Rq | exact Cb].
Qed.

End RefineJobs.

Lemma drafted_ids_agree (audio : Type) n (fed : list (audio * str)) :
  map (@TranscriptionEngine.job_id audio) (drafted_jobs n fed)
  = map TranscriptionEngine.id (drafted_entries n fed)
  /\ map TranscriptionEngine.id (drafted_entries n fed)
     = seq n (List.length fed).
Proof.
  revert n. induction fed as [|[chunk text] fed IH]; intros n;
    [split; reflexivity|].
  destruct (IH (S n)) as [E1 E2]. simpl. now rewrite E1, E2.
Qed.

(* ===================================================================== *)
(** * The sentence segmenter: C3, C4 *)
(* ===================================================================== *)

(** C3, as the specification states it, fails: the buffer
    "Is that really so? Yes it really is." holds two marks, and a
    left-to-right scan cuts at both, yet the code looks for ['.'] first
    and returns the whole buffer as one sentence. *)
Lemma question_mark_before_period_is_not_cut :
  Engine.extract (lit "Is that really so? Yes it really is.")
    = Some ([lit "Is that really so? Yes it really is."], [])
  /\ scan (lit "Is that really so? Yes it really is.")
    = Some ([lit "Is that really so?"; lit "Yes it really is."], [])
  /\ Engine.extract (lit "Is that really so? Yes it really is.")
     <> scan (lit "Is that really so? Yes it really is.").
Proof.
  split; [vm_compute; reflexivity|]. split; [vm_compute; reflexivity|].
  intros H. vm_compute in H. discriminate H.
Qed.

(** C3 (amended).  The function cuts the buffer at every ['.'] from
    left to right, then what is left at every ['!'], then at every
    ['?'].  On every buffer in which no ['.'] stands after a ['!'] or
    ['?'] and no ['!'] after a ['?'], the sentences returned and the
    buffer left behind are those of the left-to-right scan over the
    three marks: the prefixes cut at each mark, in the order of the
    marks, the text after the last mark staying in the buffer.  The
    three feeds "Hello world.", " This is fine", " too." hand the
    callback exactly "Hello world." and then "This is fine too.", the
    second only when the third feed has arrived. *)
Theorem extract_is_scan_when_marks_ordered :
  forall (audio : Type) (c1 c2 c3 : audio) (f : str) (buffer : str),
    Engine.extract buffer
    = match cut_loop (Ascii.eqb ".") (S (List.length buffer)) [] buffer with
      | Some (s1, b1) =>
          match cut_loop (Ascii.eqb "!") (S (List.length buffer)) s1 b1 with
          | Some (s2, b2) =>
              cut_loop (Ascii.eqb "?") (S (List.length buffer)) s2 b2
          | None => None
          end
      | None => None
      end
    /\ (kind_ordered buffer = true ->
        exists sentences,
          Engine.extract buffer = Some (sentences, rest terminal buffer)
          /\ scan buffer = Some (sentences, rest terminal buffer)
          /\ Forall substantial sentences)
    /\ (let s0 := (Engine.set_audio_queue (Engine.start (Engine.init f))
                     [c1; c2; c3], None) in
        let t1 := Engine.StreamingTurn true (Engine.Returns (lit "Hello world.")) in
        let t2 := Engine.StreamingTurn true (Engine.Returns (lit " This is fine")) in
        let t3 := Engine.StreamingTurn true (Engine.Returns (lit " too.")) in
        delivered [t1] s0 = Some (entries 0 [lit "Hello world."])
        /\ delivered [t1; t2] s0 = Some (entries 0 [lit "Hello world."])
        /\ buffered [t1; t2] s0 = Some (lit "This is fine")
        /\ delivered [t1; t2; t3] s0
           = Some (entries 0 [lit "Hello world."; lit "This is fine too."])
        /\ buffered [t1; t2; t3] s0 = Some []).
Proof.
  intros audio c1 c2 c3 f buffer. split; [apply extract_cut_loops|]. split.
  - intros H. destruct (extract_total buffer) as (sentences & E & F).
    exists sentences. split; [exact E|]. split; [|exact F].
    now rewrite <- (extract_scan buffer H).
  - repeat split; vm_compute; reflexivity.
Qed.

Lemma extract_is_scan_when_marks_ordered_witness :
  kind_ordered (lit "Wait. Is that really so? Yes") = true
  /\ Engine.extract (lit "Wait. Is that really so? Yes")
     = scan (lit "Wait. Is that really so? Yes").
Proof.
  split; [vm_compute; reflexivity|].
  destruct (extract_is_scan_when_marks_ordered nat 1 2 3 (lit "s.txt")
              (lit "Wait. Is that really so? Yes")) as (_ & H & _).
  destruct (H eq_refl) as (sentences & E & S & _).
  rewrite E, S. reflexivity.
Defined.






(* ===================================================================== *)
(** * Entry ids and refine jobs: C1, C2 *)
(* ===================================================================== *)

(** C1, as the specification states it, fails on engine.py: a chunk
    whose draft "and then we moved on" completes no sentence hands the
    callback nothing, and still a job for it is put on the refine queue;
    the id the job carries is the id of no Streaming entry. *)
Lemma job_is_queued_without_streaming_entry :
  exists self d,
    Engine.run
      [Engine.Capture 1;
       Engine.StreamingTurn true (Engine.Returns (lit "and then we moved on"))]
      (Engine.start (Engine.init (lit "session.txt")), None) = Some (self, d)
    /\ Engine.callbacks self = []
    /\ Engine.refine_queue self
       = [{| Engine.job_id := 0; Engine.job_audio := 1 |}]
    /\ ~ In 0 (streaming_ids (Engine.callbacks self)).
Proof.
  eexists _, _. split; [vm_compute; reflexivity|].
  split; [reflexivity|]. split; [reflexivity|]. intros [].
Qed.

(** On engine.py a job never carries the id of an entry: it is built
    from the counter as it stands after the sentences of the turn were
    numbered.  One chunk whose draft is "This is chunk one. ": the entry
    has id 0 and the job id 1. *)
Lemma refine_job_id_runs_ahead_of_entries :
  exists self d,
    Engine.run
      [Engine.Capture 1;
       Engine.StreamingTurn true (Engine.Returns (lit "This is chunk one. "))]
      (Engine.start (Engine.init (lit "session.txt")), None) = Some (self, d)
    /\ Engine.callbacks self = entries 0 [lit "This is chunk one."]
    /\ streaming_ids (Engine.callbacks self) = [0]
    /\ Engine.refine_queue self
       = [{| Engine.job_id := 1; Engine.job_audio := 1 |}].
Proof.
  eexists _, _. split; [vm_compute; reflexivity|].
  split; [reflexivity|]. split; reflexivity.
Qed.

(** The same chunk through transcription_engine.py: entry and job both
    carry id 0. *)
Lemma sibling_job_carries_entry_id :
  TranscriptionEngine._streaming_thread
    [(true, Engine.Returns (lit "This is chunk one. "))]
    {| TranscriptionEngine.is_running := true;
       TranscriptionEngine.audio_queue := [1];
       TranscriptionEngine.refine_queue := [];
       TranscriptionEngine.chunk_id := 0;
       TranscriptionEngine.callbacks := [] |}
  = inl {| TranscriptionEngine.is_running := true;
           TranscriptionEngine.audio_queue := [];
           TranscriptionEngine.refine_queue :=
             drafted_jobs 0 [(1, lit "This is chunk one. ")];
           TranscriptionEngine.chunk_id := 1;
           TranscriptionEngine.callbacks :=
             drafted_entries 0 [(1, lit "This is chunk one. ")] |}.
Proof. vm_compute. reflexivity. Qed.

(** C1 (amended).  engine.py: whatever its threads do, the ids of the
    Streaming entries handed to the callback are 0, 1, 2, ... in this
    order, each once; and a chunk that is accepted while the buffer
    holds no mark gets its job on the refine queue without any entry
    being emitted, the jobs following the chunks and not the entries.
    transcription_engine.py: the Streaming ids are consecutive as well,
    and every job carries the id of the entry emitted for its chunk in
    the same turn. *)
Theorem streaming_ids_are_consecutive :
  forall (audio : Type),
    (forall (f : str) (d0 : PyFile.disk) (acts : list (Engine.action audio)),
        exists self d,
          Engine.run acts (Engine.start (Engine.init f), d0) = Some (self, d)
          /\ streaming_ids (Engine.callbacks self)
             = seq 0 (Engine.chunk_id self))
    /\ (forall (self : Engine.engine audio) (chunk : audio)
               (q : list audio) (text : str),
          Engine.audio_queue self = chunk :: q ->
          passes text = true ->
          existsb terminal
            (strip (Engine.sentence_buffer self ++ lit " " ++ strip text))
          = false ->
          exists self' j,
            Engine.streaming_turn true (Engine.Returns text) self = Some self'
            /\ Engine.callbacks self' = Engine.callbacks self
            /\ Engine.refine_queue self' = Engine.refine_queue self ++ [j]
            /\ Engine.job_audio j = chunk)
    /\ (forall (fed : list (audio * str))
               (self : TranscriptionEngine.engine audio),
          TranscriptionEngine.is_running self = true ->
          TranscriptionEngine.audio_queue self = map fst fed ->
          exists self',
            TranscriptionEngine._streaming_thread
              (map (fun ct => (true, Engine.Returns (snd ct))) fed) self
            = inl self'
            /\ TranscriptionEngine.callbacks self'
               = TranscriptionEngine.callbacks self
                   ++ drafted_entries (TranscriptionEngine.chunk_id self) fed
            /\ TranscriptionEngine.refine_queue self'
               = TranscriptionEngine.refine_queue self
                   ++ drafted_jobs (TranscriptionEngine.chunk_id self) fed
            /\ map (@TranscriptionEngine.job_id audio)
                 (drafted_jobs (TranscriptionEngine.chunk_id self) fed)
               = map TranscriptionEngine.id
                   (drafted_entries (TranscriptionEngine.chunk_id self) fed)
            /\ map TranscriptionEngine.id
                 (drafted_entries (TranscriptionEngine.chunk_id self) fed)
               = seq (TranscriptionEngine.chunk_id self) (List.length fed)).
Proof.
  intros audio. split; [|split].
  - intros f d0 acts. apply streaming_ids_increasing.
  - intros self chunk q text Q P N.
    destruct (streaming_turn_returns audio self chunk q text Q)
      as (sentences & self' & R & _ & _ & _ & _ & _ & _ & H).
    rewrite P in H. destruct H as (C & K & Rq & _ & X).
    rewrite (extract_no_mark _ N) in X.
    assert (S : sentences = []) by congruence.
    subst sentences. rewrite app_nil_r in K.
    eexists self', _. split; [exact R|]. split; [exact K|].
    split; [exact Rq | reflexivity].
  - intros fed self Hrun Q.
    destruct (drafted_jobs_queued audio fed self Hrun Q)
      as (self' & R & _ & Rq & Cb).
    destruct (drafted_ids_agree audio (TranscriptionEngine.chunk_id self) fed)
      as [E1 E2].
    exists self'. auto.
Qed.

Lemma streaming_ids_are_consecutive_witness :
  (exists self' j,
      Engine.streaming_turn true (Engine.Returns (lit "and then we moved on"))
        (Engine.set_audio_queue (Engine.start (Engine.init (lit "s.txt"))) [1])
      = Some self'
      /\ Engine.callbacks self' = []
      /\ Engine.refine_queue self' = [] ++ [j]
      /\ Engine.job_audio j = 1)
  /\ (exists self',
        TranscriptionEngine._streaming_thread
          (map (fun ct => (true, Engine.Returns (snd ct)))
             [(1, lit "This is chunk one. "); (2, lit "Chunk two continues. ")])
          {| TranscriptionEngine.is_running := true;
             TranscriptionEngine.audio_queue := [1; 2];
             TranscriptionEngine.refine_queue := [];
             TranscriptionEngine.chunk_id := 0;
             TranscriptionEngine.callbacks := [] |}
        = inl self'
        /\ map (@TranscriptionEngine.job_id nat)
             (TranscriptionEngine.refine_queue self') = [0; 1]).
Proof.
  destruct (streaming_ids_are_consecutive nat) as (_ & E & T). split.
  - apply (E (Engine.set_audio_queue
                (Engine.start (Engine.init (lit "s.txt"))) [1])
             1 [] (lit "and then we moved on")); reflexivity.
  - destruct (T [(1, lit "This is chunk one. ");
                 (2, lit "Chunk two continues. ")]
                {| TranscriptionEngine.is_running := true;
                   TranscriptionEngine.audio_queue := [1; 2];
                   TranscriptionEngine.refine_queue := [];
                   TranscriptionEngine.chunk_id := 0;
                   TranscriptionEngine.callbacks := [] |}
                eq_refl eq_refl) as (self' & R & _ & Q & _).
    exists self'. split; [exact R|]. rewrite Q. reflexivity.
Defined.

(** C2, as the specification states it, fails on engine.py: a chunk
    whose draft is "Hi" is taken from the audio queue and no job is
    queued for it; and the job queued for a chunk is the same whatever
    the draft was, so it does not carry the draft. *)
Lemma short_draft_is_never_refined :
  (exists self,
      Engine.run [Engine.Capture 7;
                  Engine.StreamingTurn true (Engine.Returns (lit "Hi"))]
        (Engine.start (Engine.init (lit "session.txt")), None)
        = Some (self, None)
      /\ Engine.audio_queue self = []
      /\ Engine.refine_queue self = [])
  /\ option_map (fun sd => Engine.refine_queue (fst sd))
       (Engine.run [Engine.Capture 7;
                    Engine.StreamingTurn true (Engine.Returns (lit "One two"))]
          (Engine.start (Engine.init (lit "session.txt")), None))
     = option_map (fun sd => Engine.refine_queue (fst sd))
         (Engine.run [Engine.Capture 7;
                      Engine.StreamingTurn true (Engine.Returns (lit "Six ten"))]
            (Engine.start (Engine.init (lit "session.txt")), None)).
Proof.
  split; [eexists; split; [vm_compute; reflexivity|split; reflexivity]|].
  vm_compute. reflexivity.
Qed.

(** C2 (amended).  engine.py: of the chunks the streaming thread
    transcribes, those whose stripped draft has more than two characters
    get one job each on the refine queue, in order and carrying the
    original chunk, whether or not a sentence was completed; the others
    get none, and the job holds the chunk and an id, not the draft.
    transcription_engine.py: every transcribed chunk gets one job,
    carrying the chunk, the draft and the id of its Streaming entry. *)
Theorem one_job_per_accepted_chunk :
  forall (audio : Type),
    (forall (fed : list (audio * Engine.result))
            (self : Engine.engine audio) (d : PyFile.disk),
        Engine.is_running self = true ->
        Engine.audio_queue self = map fst fed ->
        exists self' jobs,
          Engine.run (streaming_turns fed) (self, d) = Some (self', d)
          /\ Engine.audio_queue self' = []
          /\ Engine.refine_queue self' = Engine.refine_queue self ++ jobs
          /\ map (@Engine.job_audio audio) jobs
             = map fst (filter accepted fed))
    /\ (forall (fed : list (audio * str))
               (self : TranscriptionEngine.engine audio),
          TranscriptionEngine.is_running self = true ->
          TranscriptionEngine.audio_queue self = map fst fed ->
          exists self',
            TranscriptionEngine._streaming_thread
              (map (fun ct => (true, Engine.Returns (snd ct))) fed) self
            = inl self'
            /\ TranscriptionEngine.audio_queue self' = []
            /\ TranscriptionEngine.refine_queue self'
               = TranscriptionEngine.refine_queue self
                   ++ drafted_jobs (TranscriptionEngine.chunk_id self) fed
            /\ TranscriptionEngine.callbacks self'
               = TranscriptionEngine.callbacks self
                   ++ drafted_entries (TranscriptionEngine.chunk_id self) fed).
Proof.
  intros audio. split.
  - apply engine_jobs.
  - apply drafted_jobs_queued.
Qed.

Lemma one_job_per_accepted_chunk_witness :
  (exists self' jobs,
      Engine.run
        (streaming_turns
           [(1, Engine.Returns (lit "This is chunk one. "));
            (2, Engine.Returns (lit "Hi"));
            (3, Engine.Raises (lit "out of memory"));
            (4, Engine.Returns (lit "and then"))])
        (Engine.set_audio_queue (Engine.start (Engine.init (lit "s.txt")))
           [1; 2; 3; 4], None) = Some (self', None)
      /\ Engine.audio_queue self' = []
      /\ Engine.refine_queue self' = [] ++ jobs
      /\ map (@Engine.job_audio nat) jobs = [1; 4])
  /\ (exists self',
        TranscriptionEngine._streaming_thread
          (map (fun ct => (true, Engine.Returns (snd ct)))
             [(1, lit "This is chunk one. "); (2, lit "Hi")])
          {| TranscriptionEngine.is_running := true;
             TranscriptionEngine.audio_queue := [1; 2];
             TranscriptionEngine.refine_queue := [];
             TranscriptionEngine.chunk_id := 0;
             TranscriptionEngine.callbacks := [] |}
        = inl self'
        /\ TranscriptionEngine.refine_queue self'
           = drafted_jobs 0 [(1, lit "This is chunk one. "); (2, lit "Hi")]).
Proof.
  destruct (one_job_per_accepted_chunk nat) as [E T]. split.
  - apply (E [(1, Engine.Returns (lit "This is chunk one. "));
              (2, Engine.Returns (lit "Hi"));
              (3, Engine.Raises (lit "out of memory"));
              (4, Engine.Returns (lit "and then"))]
             (Engine.set_audio_queue (Engine.start (Engine.init (lit "s.txt")))
                [1; 2; 3; 4]) None); reflexivity.
  - destruct (T [(1, lit "This is chunk one. "); (2, lit "Hi")]
                {| TranscriptionEngine.is_running := true;
                   TranscriptionEngine.audio_queue := [1; 2];
                   TranscriptionEngine.refine_queue := [];
                   TranscriptionEngine.chunk_id := 0;
                   TranscriptionEngine.callbacks := [] |}
                eq_refl eq_refl) as (self' & R & _ & Q & _).
    exists self'. split; [exact R | exact Q].
Defined.

(* ===================================================================== *)
(** * Engine failures: C8 *)
(* ===================================================================== *)

(** C8.  engine.py, while the engine runs.  When the streaming pipeline
    raises on a chunk, the turn prints "Streaming error: ..." and drops
    the chunk: nothing reaches the callback, the refine queue, the
    sentence buffer or the counter, and the thread goes on to its next
    turn.  When the refining pipeline raises on a job, the turn prints
    "Refining error: ..." and drops the job: the session list and what
    the callback has received, the Streaming entry of that id included,
    stay as they are, and the thread goes on.  Whatever fails, every
    sequence of actions runs to its end. *)
Theorem engine_failure_is_logged_and_skipped :
  forall (audio : Type) (self : Engine.engine audio) (d : PyFile.disk)
         (e : str) (acts : list (Engine.action audio)),
    Engine.is_running self = true ->
    (forall chunk q,
        Engine.audio_queue self = chunk :: q ->
        exists self',
          Engine.streaming_turn true (Engine.Raises e) self = Some self'
          /\ Engine.printed self'
             = Engine.printed self ++ [lit "Streaming error: " ++ e]
          /\ Engine.audio_queue self' = q
          /\ Engine.refine_queue self' = Engine.refine_queue self
          /\ Engine.callbacks self' = Engine.callbacks self
          /\ Engine.session_transcripts self' = Engine.session_transcripts self
          /\ Engine.sentence_buffer self' = Engine.sentence_buffer self
          /\ Engine.chunk_id self' = Engine.chunk_id self
          /\ Engine.is_running self' = true
          /\ Engine.run (Engine.StreamingTurn true (Engine.Raises e) :: acts)
               (self, d) = Engine.run acts (self', d))
    /\ (forall job q now,
          Engine.refine_queue self = job :: q ->
          exists self',
            Engine.refining_turn true (Engine.Raises e) now self = Some self'
            /\ Engine.printed self'
               = Engine.printed self ++ [lit "Refining error: " ++ e]
            /\ Engine.refine_queue self' = q
            /\ Engine.audio_queue self' = Engine.audio_queue self
            /\ Engine.callbacks self' = Engine.callbacks self
            /\ Engine.session_transcripts self'
               = Engine.session_transcripts self
            /\ Engine.is_running self' = true
            /\ Engine.run
                 (Engine.RefiningTurn true (Engine.Raises e) now :: acts)
                 (self, d) = Engine.run acts (self', d))
    /\ exists s', Engine.run acts (self, d) = Some s'.
Proof.
  intros audio self d e acts Hrun. split; [|split].
  - intros chunk q Q. eexists.
    split; [unfold Engine.streaming_turn; rewrite Q; reflexivity|].
    cbn [Engine.run Engine.step]. rewrite Hrun.
    unfold Engine.streaming_turn. rewrite Q.
    cbn [negb PyQueue.get_unbounded]. repeat split; auto.
  - intros job q now Q. eexists.
    split; [unfold Engine.refining_turn; rewrite Q; reflexivity|].
    cbn [Engine.run Engine.step]. rewrite Hrun.
    unfold Engine.refining_turn. rewrite Q.
    cbn [negb PyQueue.get_unbounded]. repeat split; auto.
  - destruct (run_inv audio acts self d) as (self' & d' & R & _).
    now exists (self', d').
Qed.

Lemma engine_failure_is_logged_and_skipped_witness :
  (exists self',
      Engine.streaming_turn true (Engine.Raises (lit "out of memory"))
        (Engine.set_audio_queue (Engine.start (Engine.init (lit "s.txt")))
           [1; 2]) = Some self'
      /\ Engine.printed self' = [lit "Streaming error: out of memory"]
      /\ Engine.audio_queue self' = [2])
  /\ (exists self',
        Engine.refining_turn true (Engine.Raises (lit "out of memory")) 0
          (Engine.set_refine_queue (Engine.start (Engine.init (lit "s.txt")))
             [{| Engine.job_id := 1; Engine.job_audio := 1 |}]) = Some self'
        /\ Engine.printed self' = [lit "Refining error: out of memory"]
        /\ Engine.refine_queue self' = []).
Proof.
  split.
  - destruct (engine_failure_is_logged_and_skipped nat
                (Engine.set_audio_queue
                   (Engine.start (Engine.init (lit "s.txt"))) [1; 2])
                None (lit "out of memory") [] eq_refl) as (S & _ & _).
    destruct (S 1 [2] eq_refl) as (self' & R & P & Q & _).
    exists self'. split; [exact R|]. split; [exact P | exact Q].
  - destruct (engine_failure_is_logged_and_skipped nat
                (Engine.set_refine_queue
                   (Engine.start (Engine.init (lit "s.txt")))
                   [{| Engine.job_id := 1; Engine.job_audio := 1 |}])
                None (lit "out of memory") [] eq_refl) as (_ & R & _).
    destruct (R {| Engine.job_id := 1; Engine.job_audio := 1 |} [] 0%Z eq_refl)
      as (self' & T & P & Q & _).
    exists self'. split; [exact T|]. split; [exact P | exact Q].
Defined.

(* ===================================================================== *)
(** * The bounded capture queue: C5 *)
(* ===================================================================== *)

Section Lightweight.
Variable sample : Type.
Implicit Types (self : EngineLightweight.engine sample)
               (cs : list (EngineLightweight.chunk sample)).

(** Offering chunks while nothing is consumed: the queue keeps what it
    held and takes the first chunks offered, as many as fit; a warning
    is printed for each of the others. *)
Lemma offer_all_keeps_oldest cs self :
  let q := EngineLightweight.audio_queue self in
  let kept := match room q with Some n => firstn n cs | None => cs end in
  let self' := EngineLightweight.offer_all cs self in
  PyQueue.items (EngineLightweight.audio_queue self') = PyQueue.items q ++ kept
  /\ PyQueue.maxsize (EngineLightweight.audio_queue self') = PyQueue.maxsize q
  /\ EngineLightweight.printed self'
     = EngineLightweight.printed self
         ++ repeat skipped (List.length cs - List.length kept)
  /\ EngineLightweight.audio_buffer self' = EngineLightweight.audio_buffer self.
Proof.
  revert self. induction cs as [|c cs IH]; intros self.
  - cbn. destruct (room _); rewrite ?firstn_nil, !app_nil_r; auto.
  - cbn [EngineLightweight.offer_all fold_left].
    specialize (IH (EngineLightweight.offer self c)).
    unfold EngineLightweight.offer_all in IH. cbv zeta in IH.
    destruct IH as (I1 & I2 & I3 & I4). cbv zeta.
    rewrite I1, I2, I3, I4. clear I1 I2 I3 I4.
    unfold EngineLightweight.offer, PyQueue.put_nowait, room, PyQueue.full,
      PyQueue.qsize.
    destruct self as [run cs_ mb buf [m items] out].
    cbn [EngineLightweight.audio_queue PyQueue.maxsize PyQueue.items
         EngineLightweight.printed EngineLightweight.audio_buffer].
    destruct (0 <? m)%Z eqn:B; cbn [andb].
    + destruct (m <=? Z.of_nat (List.length items))%Z eqn:L;
        cbn [EngineLightweight.set_audio EngineLightweight.audio_queue
             PyQueue.maxsize PyQueue.items EngineLightweight.printed
             EngineLightweight.audio_buffer]; rewrite B.
      * replace (Z.to_nat (m - Z.of_nat (List.length items))) with 0 by lia.
        cbn [firstn List.length]. rewrite !app_nil_r, Nat.sub_0_r.
        rewrite <- app_assoc. repeat split.
      * rewrite length_app. cbn [List.length].
        replace (Z.to_nat (m - Z.of_nat (List.length items)))
          with (S (Z.to_nat (m - Z.of_nat (List.length items + 1)))) by lia.
        cbn [firstn List.length]. rewrite <- app_assoc. repeat split.
    + cbn [EngineLightweight.set_audio EngineLightweight.audio_queue
           PyQueue.maxsize PyQueue.items EngineLightweight.printed
           EngineLightweight.audio_buffer]. rewrite B.
      rewrite <- app_assoc. cbn [List.length]. repeat split.
Qed.

End Lightweight.

(** C5, as the specification states it, fails: with a bound of 2 and
    five chunks offered while nothing is consumed, the queue holds the
    first two chunks offered, not the last two. *)
Lemma full_queue_keeps_the_oldest_chunks :
  PyQueue.items
    (EngineLightweight.audio_queue
       (EngineLightweight.offer_all [[1]; [2]; [3]; [4]; [5]]
          (lightweight nat 2)))
  = [[1]; [2]]
  /\ PyQueue.items
       (EngineLightweight.audio_queue
          (EngineLightweight.offer_all [[1]; [2]; [3]; [4]; [5]]
             (lightweight nat 2)))
     <> [[4]; [5]].
Proof. split; [reflexivity | discriminate]. Qed.

(** C5 (amended).  engine_lightweight.py: a chunk offered to the full
    capture queue is itself dropped, with a warning printed; the queue
    keeps the chunks it holds and [put_nowait] never waits.  Offering
    chunks while nothing is consumed leaves the queue with its previous
    items followed by the first chunks offered, as many as fit: with a
    bound of 2, five chunks offered to the empty queue leave the first
    two, and three warnings. *)
Theorem full_queue_drops_the_incoming_chunk :
  forall (sample : Type) (self : EngineLightweight.engine sample)
         (cs : list (EngineLightweight.chunk sample))
         (c1 c2 c3 c4 c5 : EngineLightweight.chunk sample),
    (PyQueue.items
       (EngineLightweight.audio_queue (EngineLightweight.offer_all cs self))
     = PyQueue.items (EngineLightweight.audio_queue self)
         ++ match room (EngineLightweight.audio_queue self) with
            | Some n => firstn n cs
            | None => cs
            end)
    /\ (PyQueue.full (EngineLightweight.audio_queue self) = true ->
        forall c,
          EngineLightweight.offer self c
          = EngineLightweight.set_audio self
              (EngineLightweight.audio_buffer self)
              (EngineLightweight.audio_queue self)
              (EngineLightweight.printed self ++ [skipped]))
    /\ (let self' := EngineLightweight.offer_all [c1; c2; c3; c4; c5]
                       (lightweight sample 2) in
        PyQueue.items (EngineLightweight.audio_queue self') = [c1; c2]
        /\ EngineLightweight.printed self' = [skipped; skipped; skipped]).
Proof.
  intros sample self cs c1 c2 c3 c4 c5. split; [|split].
  - apply offer_all_keeps_oldest.
  - intros F c. unfold EngineLightweight.offer, PyQueue.put_nowait.
    now rewrite F.
  - split; reflexivity.
Qed.

Lemma full_queue_drops_the_incoming_chunk_witness :
  PyQueue.full
    (EngineLightweight.audio_queue
       (EngineLightweight.offer_all [[1]; [2]] (lightweight nat 2))) = true
  /\ PyQueue.items
       (EngineLightweight.audio_queue
          (EngineLightweight.offer
             (EngineLightweight.offer_all [[1]; [2]] (lightweight nat 2)) [3]))
     = [[1]; [2]].
Proof.
  split; [reflexivity|].
  destruct (full_queue_drops_the_incoming_chunk nat
              (EngineLightweight.offer_all [[1]; [2]] (lightweight nat 2))
              [] [] [] [] [] []) as (_ & F & _).
  rewrite (F eq_refl [3]). reflexivity.
Defined.

(* ===================================================================== *)
(** * Saving the session of engine.py: C7, C9 *)
(* ===================================================================== *)

Lemma to_uint_nonnil n : Nat.to_uint n <> Decimal.Nil.
Proof.
  intros H. pose proof (DecimalNat.Unsigned.of_to n) as E.
  rewrite H in E. simpl in E. subst n. discriminate H.
Qed.

Lemma of_nat_inj n m : of_nat n = of_nat m -> n = m.
Proof.
  unfold of_nat, lit. intros H.
  apply (f_equal string_of_list_ascii) in H.
  rewrite !string_of_list_ascii_of_string in H.
  apply (f_equal NilZero.uint_of_string) in H.
  rewrite !NilZero.usu in H by apply to_uint_nonnil.
  injection H as H. now apply DecimalNat.Unsigned.to_uint_inj.
Qed.

Lemma digit_inj a b : Engine.digit a = Engine.digit b -> a mod 10 = b mod 10.
Proof.
  unfold Engine.digit. intros H. apply (f_equal nat_of_ascii) in H.
  pose proof (Nat.mod_upper_bound a 10). pose proof (Nat.mod_upper_bound b 10).
  rewrite !nat_ascii_embedding in H by lia. lia.
Qed.

Lemma two_digits_inj a b :
  a < 100 -> b < 100 -> Engine.two_digits a = Engine.two_digits b -> a = b.
Proof.
  unfold Engine.two_digits. intros Ha Hb [= H1 H2].
  apply digit_inj in H1, H2.
  assert (a / 10 < 10) by (apply Nat.Div0.div_lt_upper_bound; lia).
  assert (b / 10 < 10) by (apply Nat.Div0.div_lt_upper_bound; lia).
  rewrite !Nat.mod_small in H1 by assumption.
  change (a / 10 = b / 10) in H1.
  pose proof (Nat.div_mod_eq a 10). pose proof (Nat.div_mod_eq b 10). lia.
Qed.

Lemma app_inv_same_length (l1 l2 t1 t2 : str) :
  List.length t1 = List.length t2 -> l1 ++ t1 = l2 ++ t2 -> l1 = l2 /\ t1 = t2.
Proof.
  intros L E.
  assert (L' : List.length l1 = List.length l2).
  { apply (f_equal (@List.length _)) in E. rewrite !length_app in E. lia. }
  clear L. revert l2 L' E. induction l1 as [|c l1 IH]; intros [|d l2] L' E;
    try discriminate L'; [auto|].
  injection E as -> E. injection L' as L'.
  destruct (IH l2 L' E) as [-> ->]. auto.
Qed.

(** Two readings of the clock print alike only when they are the same
    date and time, to the second. *)
Lemma strftime_inj now1 now2 :
  valid now1 = true -> valid now2 = true ->
  Engine.strftime now1 = Engine.strftime now2 -> now1 = now2.
Proof.
  unfold valid. rewrite !andb_true_iff, !Nat.leb_le.
  destruct now1 as [y1 mo1 d1 h1 mi1 s1], now2 as [y2 mo2 d2 h2 mi2 s2].
  cbn [Engine.year Engine.month Engine.day Engine.hour Engine.minute
       Engine.second].
  intros V1 V2 E. unfold Engine.strftime in E.
  cbn [Engine.year Engine.month Engine.day Engine.hour Engine.minute
       Engine.second] in E.
  assert (B : forall n, n <= 59 -> n < 100) by (intros; lia).
  apply app_inv_same_length in E as [Ey E]; [|reflexivity].
  apply of_nat_inj in Ey. apply app_inv_head in E.
  apply app_inv_same_length in E as [Emo E]; [|reflexivity].
  apply two_digits_inj in Emo; [|lia|lia]. apply app_inv_head in E.
  apply app_inv_same_length in E as [Ed E]; [|reflexivity].
  apply two_digits_inj in Ed; [|lia|lia]. apply app_inv_head in E.
  apply app_inv_same_length in E as [Eh E]; [|reflexivity].
  apply two_digits_inj in Eh; [|lia|lia]. apply app_inv_head in E.
  apply app_inv_same_length in E as [Emi E]; [|reflexivity].
  apply two_digits_inj in Emi; [|lia|lia]. apply app_inv_head in E.
  apply two_digits_inj in E; [|lia|lia].
  congruence.
Qed.

Lemma concat_session_writes now transcripts :
  concat (Engine.session_writes now transcripts)
  = header now ++ body transcripts.
Proof.
  unfold Engine.session_writes, header, body. cbn [concat].
  rewrite <- !app_assoc. do 3 f_equal.
Qed.

(** Saving without a write error: the file holds the header of that
    moment and the body of the session; the engine only prints. *)
Lemma save_session_writes (audio : Type) now (self : Engine.engine audio) d :
  Engine._save_session now PyFile.NoFault self d
  = (Engine.print self (lit "Session saved to " ++ Engine.session_file self),
     Some (header now ++ body (Engine.session_transcripts self))).
Proof.
  unfold Engine._save_session. cbn [PyFile.write_file].
  now rewrite concat_session_writes.
Qed.

(** C7, as the specification states it, fails: the same session saved
    at 10:00:00 and again at 10:00:01, with nothing in between, gives
    two different files. *)
Lemma snapshots_a_second_apart_differ :
  let now1 := {| Engine.year := 2024; Engine.month := 5; Engine.day := 17;
                 Engine.hour := 10; Engine.minute := 0; Engine.second := 0 |} in
  let now2 := {| Engine.year := 2024; Engine.month := 5; Engine.day := 17;
                 Engine.hour := 10; Engine.minute := 0; Engine.second := 1 |} in
  let self := Engine.set_session_transcripts
                (Engine.start (@Engine.init nat (lit "session.txt")))
                [{| Engine.id := 1; Engine.text := lit "THIS IS CHUNK ONE.";
                    Engine.status := Engine.Refined;
                    Engine.timestamp := Some 0%Z |}] in
  fst (snapshot_twice now1 now2 self None)
  <> snd (snapshot_twice now1 now2 self None).
Proof. intros now1 now2 self H. vm_compute in H. discriminate H. Qed.

(** C7 (amended).  engine.py: two snapshots of the same session with
    nothing in between write the same bytes after the first line; the
    first line carries the clock reading of each call, so the two files
    are byte-identical exactly when both calls print the same date and
    time, that is, when they read the clock in the same second.  Saving
    leaves the session list as it is. *)
Theorem snapshots_agree_up_to_the_timestamp :
  forall (audio : Type) (self : Engine.engine audio) (d : PyFile.disk)
         (now1 now2 : Engine.datetime),
    snapshot_twice now1 now2 self d
    = (Some (header now1 ++ body (Engine.session_transcripts self)),
       Some (header now2 ++ body (Engine.session_transcripts self)))
    /\ (fst (snapshot_twice now1 now2 self d)
        = snd (snapshot_twice now1 now2 self d)
        <-> Engine.strftime now1 = Engine.strftime now2)
    /\ (valid now1 = true -> valid now2 = true ->
        (fst (snapshot_twice now1 now2 self d)
         = snd (snapshot_twice now1 now2 self d)
         <-> now1 = now2))
    /\ Engine.session_transcripts
         (fst (Engine._save_session now1 PyFile.NoFault self d))
       = Engine.session_transcripts self.
Proof.
  intros audio self d now1 now2.
  assert (E : snapshot_twice now1 now2 self d
              = (Some (header now1 ++ body (Engine.session_transcripts self)),
                 Some (header now2 ++ body (Engine.session_transcripts self)))).
  { unfold snapshot_twice. rewrite !save_session_writes. reflexivity. }
  assert (I : fst (snapshot_twice now1 now2 self d)
              = snd (snapshot_twice now1 now2 self d)
              <-> Engine.strftime now1 = Engine.strftime now2).
  { rewrite E. cbn [fst snd]. unfold header. split.
    - intros H. apply (f_equal (fun o => match o with
                                         | Some x => x
                                         | None => []
                                         end)) in H.
      apply app_inv_tail in H. unfold lit in H.
      apply (app_inv_head
               (list_ascii_of_string "Transcription Session - ")) in H.
      now apply app_inv_tail in H.
    - now intros ->. }
  split; [exact E|]. split; [exact I|]. split.
  - intros V1 V2. rewrite I. split.
    + now apply strftime_inj.
    + now intros ->.
  - now rewrite save_session_writes.
Qed.

Lemma snapshots_agree_up_to_the_timestamp_witness :
  let now := {| Engine.year := 2024; Engine.month := 5; Engine.day := 17;
                Engine.hour := 10; Engine.minute := 0; Engine.second := 0 |} in
  valid now = true
  /\ fst (snapshot_twice now now
            (Engine.start (@Engine.init nat (lit "session.txt"))) None)
     = snd (snapshot_twice now now
              (Engine.start (@Engine.init nat (lit "session.txt"))) None).
Proof.
  intros now. split; [reflexivity|].
  destruct (snapshots_agree_up_to_the_timestamp nat
              (Engine.start (Engine.init (lit "session.txt"))) None now now)
    as (_ & _ & H & _).
  apply (H eq_refl eq_refl). reflexivity.
Defined.

(** C9, as the specification states it, fails: a session file holds a
    snapshot; the next attempt opens the file, and the flush of what it
    wrote raises when thirty characters have reached the file; the file
    then holds the beginning of the new header line, and the snapshot
    it held is gone. *)
Lemma failed_write_loses_the_previous_snapshot :
  let now1 := {| Engine.year := 2024; Engine.month := 5; Engine.day := 17;
                 Engine.hour := 10; Engine.minute := 0; Engine.second := 0 |} in
  let now2 := {| Engine.year := 2024; Engine.month := 5; Engine.day := 17;
                 Engine.hour := 10; Engine.minute := 5; Engine.second := 0 |} in
  let self := Engine.set_session_transcripts
                (Engine.start (@Engine.init nat (lit "session.txt")))
                [{| Engine.id := 1; Engine.text := lit "THIS IS CHUNK ONE.";
                    Engine.status := Engine.Refined;
                    Engine.timestamp := Some 0%Z |}] in
  let saved := Engine._save_session now1 PyFile.NoFault self None in
  let failed := Engine._save_session now2
                  (PyFile.WriteFails 30 (lit "No space left on device"))
                  (fst saved) (snd saved) in
  snd saved = Some (header now1 ++ body (Engine.session_transcripts self))
  /\ snd failed = Some (lit "Transcription Session - 2024-0")
  /\ snd failed <> snd saved.
Proof.
  intros now1 now2 self saved failed.
  split; [subst saved; now rewrite save_session_writes|].
  split; [vm_compute; reflexivity|].
  intros H. vm_compute in H. discriminate H.
Qed.

(** C9 (amended).  engine.py: a snapshot attempt that fails only prints
    "Error saving session: ..."; nothing else of the engine changes,
    the session list in memory is kept, and a later attempt that meets
    no error writes the full snapshot.  The file keeps its previous
    contents when opening it fails.  When the error comes after the
    file was opened, the previous contents are gone: the file holds
    the beginning of the new snapshot, as far as it reached the file,
    which may end in the middle of a line. *)
Theorem failed_snapshot_keeps_the_session_in_memory :
  forall (audio : Type) (self : Engine.engine audio) (d : PyFile.disk)
         (now later : Engine.datetime) (e : str) (k : nat) (flt : PyFile.fault),
    Engine._save_session now (PyFile.OpenFails e) self d
    = (Engine.print self (lit "Error saving session: " ++ e), d)
    /\ Engine._save_session now (PyFile.WriteFails k e) self d
       = (Engine.print self (lit "Error saving session: " ++ e),
          Some (firstn k
                  (header now ++ body (Engine.session_transcripts self))))
    /\ Engine.session_transcripts (fst (Engine._save_session now flt self d))
       = Engine.session_transcripts self
    /\ snd (Engine._save_session later PyFile.NoFault
              (fst (Engine._save_session now flt self d))
              (snd (Engine._save_session now flt self d)))
       = Some (header later ++ body (Engine.session_transcripts self)).
Proof.
  intros audio self d now later e k flt. split; [reflexivity|]. split.
  - unfold Engine._save_session. cbn [PyFile.write_file].
    now rewrite concat_session_writes.
  - assert (S : Engine.session_transcripts
                  (fst (Engine._save_session now flt self d))
                = Engine.session_transcripts self).
    { unfold Engine._save_session.
      destruct (PyFile.write_file _ flt d) as [d' [x|]]; reflexivity. }
    split; [exact S|]. rewrite save_session_writes. cbn [snd].
    now rewrite S.
Qed.

(* ===================================================================== *)
(** * Saving and resuming the session of main.py: C6 *)
(* ===================================================================== *)

Lemma str_eqb_eq s t : PyStr.eqb s t = true <-> s = t.
Proof.
  revert t. induction s as [|c s IH]; intros [|d t]; simpl; try easy.
  rewrite andb_true_iff, Ascii.eqb_eq, IH. split.
  - now intros [-> ->].
  - now intros [= -> ->].
Qed.

Lemma translate_newlines_id s :
  existsb (fun c => Ascii.eqb c "013"%char) s = false ->
  PyFile.translate_newlines s = s.
Proof.
  induction s as [|c r IH]; simpl; [easy|]. intros H.
  apply orb_false_elim in H as [-> H]. now rewrite IH.
Qed.

Lemma split_lines_line cur l tail :
  existsb PyFile.is_newline l = false ->
  PyFile.split_lines cur (l ++ Main.newline ++ tail)
  = (rev cur ++ l ++ Main.newline) :: PyFile.split_lines [] tail.
Proof.
  revert cur. induction l as [|c l IH]; intros cur H.
  - reflexivity.
  - simpl in H. apply orb_false_elim in H as [Hc H].
    cbn [app PyFile.split_lines]. rewrite Hc, (IH _ H).
    cbn [rev]. now rewrite <- app_assoc.
Qed.

Lemma storable_spec line :
  storable line = true ->
  existsb PyFile.is_newline line = false
  /\ existsb (fun c => Ascii.eqb c "013"%char) line = false
  /\ strip line = line.
Proof.
  unfold storable. rewrite andb_true_iff, negb_true_iff, str_eqb_eq.
  intros [H S].
  change (existsb (fun c => PyFile.is_newline c
                            || (fun c => Ascii.eqb c "013"%char) c) line
          = false) in H.
  rewrite existsb_either in H. apply orb_false_elim in H as [H1 H2].
  auto.
Qed.

(** The line ends that [save_session] writes are the only ones in the
    file when no line holds one: reading gives the lines back, each with
    its line end. *)
Lemma lines_of_session h :
  forallb storable h = true ->
  PyFile.lines (concat (Main.session_writes h)) = Main.session_writes h.
Proof.
  intros H. unfold PyFile.lines.
  assert (T : existsb (fun c => Ascii.eqb c "013"%char)
                (concat (Main.session_writes h)) = false).
  { induction h as [|l h IH]; [reflexivity|].
    cbn [forallb] in H. apply andb_prop in H as [Hl H].
    apply storable_spec in Hl as (_ & R & _).
    cbn [Main.session_writes map concat]. rewrite !existsb_app, R.
    simpl. now apply IH. }
  rewrite (translate_newlines_id _ T). clear T.
  induction h as [|l h IH]; [reflexivity|].
  cbn [forallb] in H. apply andb_prop in H as [Hl H].
  apply storable_spec in Hl as (N & _ & _).
  cbn [Main.session_writes map concat]. rewrite <- app_assoc.
  rewrite (split_lines_line [] l _ N). cbn [rev app].
  f_equal. now apply IH.
Qed.

Lemma strip_stored_lines h :
  forallb storable h = true -> map strip (Main.session_writes h) = h.
Proof.
  induction h as [|l h IH]; [reflexivity|]. intros H.
  cbn [forallb] in H. apply andb_prop in H as [Hl H].
  apply storable_spec in Hl as (_ & _ & S).
  cbn [Main.session_writes map]. rewrite strip_app_spaces by reflexivity.
  rewrite S. f_equal. now apply IH.
Qed.

(** C6, as the specification states it, fails.  A history with an entry
    whose text runs over two lines comes back from the session file
    with one entry more; and the transcriber resumed from a saved
    history of two entries gives its next entry the id 0, not an id
    above those of the entries loaded. *)
Lemma resumed_session_is_not_the_saved_one :
  let h := Main.add_to_history (lit "10:00:05")
             (lit "first line" ++ Main.newline ++ lit "second line")
             (lit "Streaming")
             (Main.add_to_history (lit "10:00:00") (lit "System Initialized.")
                (lit "Streaming") []) in
  reloaded h
  = [lit "[10:00:00] [Streaming] System Initialized.";
     lit "[10:00:05] [Streaming] first line";
     lit "second line"]
  /\ reloaded h <> h
  /\ Main.history_index
       (@Main.start nat (lit "11:00:00") true (Main.save_session h None)) = 0%Z
  /\ ~ resumes h.
Proof.
  intros h. split; [vm_compute; reflexivity|]. split.
  - intros H. vm_compute in H. discriminate H.
  - split; [reflexivity|]. intros [H _]. vm_compute in H. discriminate H.
Qed.

(** C6 (amended).  main.py: a history whose lines hold no line break
    and no white space at either end comes back from its session file
    line by line: [load_session] appends it, as it was saved, to the
    history in memory, so that each entry has its text, its status and
    its place among the saved entries again, and the resumed
    transcriber shows it below its own first line. *)
Theorem saved_history_is_reloaded :
  forall (audio : Type) (h h0 : Main.history) (d : PyFile.disk)
         (timestamp : str),
    forallb storable h = true ->
    Main.load_session (Main.save_session h d) h0 = h0 ++ h
    /\ reloaded h = h
    /\ Main.ui_history (@Main.start audio timestamp true (Main.save_session h d))
       = Main.add_to_history timestamp (lit "System Initialized.")
           (lit "Streaming") [] ++ h.
Proof.
  intros audio h h0 d timestamp H.
  assert (L : forall h1, Main.load_session (Main.save_session h d) h1 = h1 ++ h).
  { intros h1. unfold Main.load_session, Main.save_session.
    cbn [PyFile.write_file fst].
    now rewrite (lines_of_session h H), (strip_stored_lines h H). }
  split; [apply L|]. split.
  - unfold reloaded, Main.load_session, Main.save_session.
    cbn [PyFile.write_file fst app].
    now rewrite (lines_of_session h H), (strip_stored_lines h H).
  - unfold Main.start. cbn [Main.ui_history]. apply L.
Qed.

Lemma saved_history_is_reloaded_witness :
  let h := [lit "[10:00:00] [Streaming] System Initialized.";
            lit "[10:00:05] [Refined] This is chunk one."] in
  forallb storable h = true /\ reloaded h = h.
Proof.
  intros h. split; [vm_compute; reflexivity|].
  apply (saved_history_is_reloaded nat h [] None (lit "11:00:00")).
  vm_compute. reflexivity.
Defined.

(* ===================================================================== *)
(** * engine.py: what the capture thread queues *)
(* ===================================================================== *)

Section CaptureFacts.
Variable sample : Type.
Implicit Types (self : EngineCapture.capture sample)
               (read : list sample + str).

Lemma capture_turn_conserves read self :
  let self' := EngineCapture.capture_turn read self in
  EngineCapture.chunk_samples self' = EngineCapture.chunk_samples self
  /\ exists new,
       EngineCapture.audio_queue self' = EngineCapture.audio_queue self ++ new
       /\ Forall (fun c => List.length c = EngineCapture.chunk_samples self) new
       /\ concat new ++ EngineCapture.audio_buffer self'
          = EngineCapture.audio_buffer self
              ++ EngineCapture.samples_read [read].
Proof.
  destruct read as [data|e]; cbn [EngineCapture.capture_turn].
  - cbv zeta.
    destruct (EngineCapture.chunk_samples self
              <=? List.length (EngineCapture.audio_buffer self ++ data)) eqn:L;
      cbn [EngineCapture.chunk_samples EngineCapture.audio_queue
           EngineCapture.audio_buffer EngineCapture.samples_read flat_map].
    + split; [reflexivity|]. eexists [_]. split; [reflexivity|]. split.
      * constructor; [|constructor]. apply Nat.leb_le in L.
        rewrite length_firstn. lia.
      * cbn [concat]. rewrite !app_nil_r. apply firstn_skipn.
    + split; [reflexivity|]. exists []. rewrite !app_nil_r.
      repeat split. constructor.
  - split; [reflexivity|]. exists [].
    cbn [EngineCapture.audio_queue EngineCapture.audio_buffer
         EngineCapture.samples_read flat_map].
    rewrite !app_nil_r. repeat split. constructor.
Qed.

(** X1.  engine.py, [_audio_input_thread]: whatever the reads, some of
    them failing, the chunks queued are cut to exactly [chunk_samples]
    samples each, and the chunks queued followed by the buffer are the
    samples that were there before followed by those read, in order:
    no sample is lost, repeated or moved. *)
Theorem captured_samples_are_conserved :
  forall (reads : list (list sample + str)) self,
  exists new,
    EngineCapture.audio_queue (EngineCapture._audio_input_thread reads self)
    = EngineCapture.audio_queue self ++ new
    /\ Forall (fun c => List.length c = EngineCapture.chunk_samples self) new
    /\ concat new
         ++ EngineCapture.audio_buffer
              (EngineCapture._audio_input_thread reads self)
       = EngineCapture.audio_buffer self ++ EngineCapture.samples_read reads
    /\ EngineCapture.chunk_samples (EngineCapture._audio_input_thread reads self)
       = EngineCapture.chunk_samples self.
Proof.
  induction reads as [|read reads IH]; intros self.
  - exists []. cbn. rewrite !app_nil_r. repeat split. constructor.
  - cbn [EngineCapture._audio_input_thread fold_left].
    destruct (capture_turn_conserves read self) as (C & new1 & Q1 & F1 & S1).
    cbv zeta in *.
    destruct (IH (EngineCapture.capture_turn read self))
      as (new2 & Q2 & F2 & S2 & C2).
    unfold EngineCapture._audio_input_thread in *.
    exists (new1 ++ new2). rewrite Q2, Q1, C2, C, <- app_assoc.
    split; [reflexivity|]. split.
    + rewrite Forall_app. split; [exact F1|].
      rewrite C in F2. exact F2.
    + split; [|reflexivity].
      rewrite concat_app, <- app_assoc, S2, app_assoc, S1.
      cbn [EngineCapture.samples_read flat_map].
      rewrite app_nil_r, <- app_assoc. reflexivity.
Qed.

(** X2.  engine.py, [_audio_input_thread]: when the buffer starts below
    a chunk and no read hands over more than a chunk, the buffer holds
    fewer than [chunk_samples] samples after every turn, so a chunk is
    queued as soon as it is complete. *)
Theorem capture_buffer_stays_below_a_chunk :
  forall (reads : list (list sample + str)) self,
    List.length (EngineCapture.audio_buffer self)
      < EngineCapture.chunk_samples self ->
    Forall (fun read =>
              match read with
              | inl data => List.length data <= EngineCapture.chunk_samples self
              | inr _ => True
              end) reads ->
    List.length
      (EngineCapture.audio_buffer (EngineCapture._audio_input_thread reads self))
    < EngineCapture.chunk_samples self.
Proof.
  induction reads as [|read reads IH]; intros self B F; [exact B|].
  cbn [EngineCapture._audio_input_thread fold_left].
  inversion F as [|r rs Hr Hrs]; subst.
  assert (S : List.length
                (EngineCapture.audio_buffer
                   (EngineCapture.capture_turn read self))
              < EngineCapture.chunk_samples self
              /\ EngineCapture.chunk_samples
                   (EngineCapture.capture_turn read self)
                 = EngineCapture.chunk_samples self).
  { destruct read as [data|e]; cbn [EngineCapture.capture_turn]; [|auto].
    cbv zeta.
    destruct (EngineCapture.chunk_samples self
              <=? List.length (EngineCapture.audio_buffer self ++ data)) eqn:L;
      cbn [EngineCapture.audio_buffer EngineCapture.chunk_samples].
    - apply Nat.leb_le in L. rewrite length_skipn, length_app in *. lia.
    - apply Nat.leb_gt in L. auto. }
  destruct S as [S C].
  unfold EngineCapture._audio_input_thread in IH.
  rewrite <- C. apply IH; rewrite C; assumption.
Qed.

End CaptureFacts.

Lemma capture_buffer_stays_below_a_chunk_witness :
  List.length
    (EngineCapture.audio_buffer
       (EngineCapture._audio_input_thread
          [inl [1; 2]; inr (lit "overflow"); inl [3; 4]; inl [5]]
          {| EngineCapture.chunk_samples := 3;
             EngineCapture.audio_buffer := [];
             EngineCapture.audio_queue := [];
             EngineCapture.printed := [] |}))
  < 3.
Proof.
  apply (capture_buffer_stays_below_a_chunk nat
           [inl [1; 2]; inr (lit "overflow"); inl [3; 4]; inl [5]]
           {| EngineCapture.chunk_samples := 3;
              EngineCapture.audio_buffer := [];
              EngineCapture.audio_queue := [];
              EngineCapture.printed := [] |}).
  - simpl. lia.
  - repeat constructor.
Defined.


(* ===================================================================== *)
(** * engine_lightweight.py: the bounded queue and the buffer *)
(* ===================================================================== *)

Section LightweightFacts.
Variable sample : Type.
Implicit Types (c : EngineLightweight.engine sample).

Lemma offer_frame c chunk :
  EngineLightweight.is_running (EngineLightweight.offer c chunk)
  = EngineLightweight.is_running c
  /\ EngineLightweight.chunk_samples (EngineLightweight.offer c chunk)
     = EngineLightweight.chunk_samples c
  /\ EngineLightweight.max_buffer_size (EngineLightweight.offer c chunk)
     = EngineLightweight.max_buffer_size c
  /\ EngineLightweight.audio_buffer (EngineLightweight.offer c chunk)
     = EngineLightweight.audio_buffer c
  /\ PyQueue.maxsize (EngineLightweight.audio_queue
                        (EngineLightweight.offer c chunk))
     = PyQueue.maxsize (EngineLightweight.audio_queue c).
Proof.
  unfold EngineLightweight.offer, PyQueue.put_nowait.
  destruct (PyQueue.full _); repeat split.
Qed.

(** What [offer] does to the queue and to the lines printed. *)
Lemma offer_taken c chunk :
  exists b : bool,
    PyQueue.items (EngineLightweight.audio_queue
                     (EngineLightweight.offer c chunk))
    = PyQueue.items (EngineLightweight.audio_queue c)
      ++ Observed.taken [(chunk, b)]
    /\ EngineLightweight.printed (EngineLightweight.offer c chunk)
       = EngineLightweight.printed c ++ Observed.warnings [(chunk, b)].
Proof.
  unfold EngineLightweight.offer, PyQueue.put_nowait.
  destruct (PyQueue.full _).
  - exists false. cbn. now rewrite app_nil_r.
  - exists true. cbn. now rewrite app_nil_r.
Qed.





End LightweightFacts.



Section LightweightBuffer.
Variable sample : Type.
Implicit Types (c : EngineLightweight.engine sample).

(** One successful read with the buffer within its bound: nothing is
    trimmed; the samples go to the buffer, or a chunk is cut off at the
    front and offered to the queue. *)
Lemma capture_turn_accounts c (data : list sample) :
  EngineLightweight.chunk_samples c <= EngineLightweight.max_buffer_size c ->
  List.length (EngineLightweight.audio_buffer c)
  <= EngineLightweight.max_buffer_size c ->
  List.length data <= EngineLightweight.chunk_samples c ->
  let c' := EngineLightweight.capture_turn (inl data) c in
  EngineLightweight.chunk_samples c' = EngineLightweight.chunk_samples c
  /\ EngineLightweight.max_buffer_size c'
     = EngineLightweight.max_buffer_size c
  /\ EngineLightweight.is_running c' = EngineLightweight.is_running c
  /\ List.length (EngineLightweight.audio_buffer c')
     <= EngineLightweight.max_buffer_size c
  /\ exists offered,
       PyQueue.items (EngineLightweight.audio_queue c')
       = PyQueue.items (EngineLightweight.audio_queue c)
         ++ Observed.taken offered
       /\ EngineLightweight.printed c'
          = EngineLightweight.printed c ++ Observed.warnings offered
       /\ Forall (fun o => List.length (fst o)
                           = EngineLightweight.chunk_samples c) offered
       /\ concat (map fst offered) ++ EngineLightweight.audio_buffer c'
          = EngineLightweight.audio_buffer c ++ data.
Proof.
  intros CM BM D. cbv zeta. cbn [EngineLightweight.capture_turn]. cbv zeta.
  destruct (EngineLightweight.max_buffer_size c
            <? List.length (EngineLightweight.audio_buffer c)) eqn:T;
    [apply Nat.ltb_lt in T; lia|].
  set (buf := EngineLightweight.audio_buffer c ++ data).
  assert (LB : List.length buf
               = List.length (EngineLightweight.audio_buffer c)
                 + List.length data)
    by (unfold buf; apply length_app).
  destruct (EngineLightweight.chunk_samples c <=? List.length buf) eqn:L.
  - apply Nat.leb_le in L.
    match goal with
    | |- context [EngineLightweight.offer ?s ?k] =>
        destruct (offer_frame sample s k) as (R & C & Mx & B & _);
        destruct (offer_taken sample s k) as (b & I & P)
    end.
    rewrite R, C, Mx, B, I, P.
    cbn [EngineLightweight.set_audio EngineLightweight.chunk_samples
         EngineLightweight.max_buffer_size EngineLightweight.audio_buffer
         EngineLightweight.audio_queue EngineLightweight.printed
         EngineLightweight.is_running].
    repeat split.
    + rewrite length_skipn. lia.
    + exists [(firstn (EngineLightweight.chunk_samples c) buf, b)].
      repeat split.
      * constructor; [|constructor]. cbn [fst]. rewrite length_firstn. lia.
      * cbn [map concat fst]. rewrite app_nil_r. apply firstn_skipn.
  - apply Nat.leb_gt in L. cbn. repeat split; [lia|].
    exists []. cbn. rewrite !app_nil_r. repeat split. constructor.
Qed.

Lemma taken_app (o1 o2 : list (list sample * bool)) :
  Observed.taken (o1 ++ o2) = Observed.taken o1 ++ Observed.taken o2.
Proof. unfold Observed.taken. now rewrite filter_app, map_app. Qed.

Lemma warnings_app (o1 o2 : list (list sample * bool)) :
  Observed.warnings (o1 ++ o2)
  = Observed.warnings o1 ++ Observed.warnings o2.
Proof. unfold Observed.warnings. now rewrite filter_app, map_app. Qed.

Lemma warnings_are_warnings (offered : list (list sample * bool)) :
  filter (PyStr.eqb Observed.skip_warning) (Observed.warnings offered)
  = Observed.warnings offered.
Proof.
  unfold Observed.warnings.
  induction (filter (fun o => negb (snd o)) offered) as [|o l IH];
    [reflexivity|].
  cbn [map filter].
  replace (PyStr.eqb Observed.skip_warning
             (lit "Audio queue full, skipping chunk")) with true
    by (vm_compute; reflexivity).
  now rewrite IH.
Qed.

End LightweightBuffer.

Section LightweightLoop.
Variable sample : Type.
Implicit Types (c : EngineLightweight.engine sample).

Lemma accounted_trans c c1 c2 (s1 s2 : list sample) :
  EngineLightweight.chunk_samples c1 = EngineLightweight.chunk_samples c ->
  Observed.accounted c c1 s1 ->
  Observed.accounted c1 c2 s2 ->
  Observed.accounted c c2 (s1 ++ s2).
Proof.
  intros C (o1 & l1 & I1 & P1 & W1 & F1 & S1)
           (o2 & l2 & I2 & P2 & W2 & F2 & S2).
  exists (o1 ++ o2), (l1 ++ l2).
  rewrite I2, I1, P2, P1, taken_app, warnings_app, filter_app, W1, W2.
  rewrite <- !app_assoc. repeat split.
  - rewrite Forall_app. split; [exact F1|]. now rewrite C in F2.
  - rewrite map_app, concat_app, <- app_assoc, S2, !app_assoc.
    f_equal. exact S1.
Qed.

(** Lines that are not the warning, printed with buffer and queue left
    alone, account for no sample. *)
Lemma accounted_prints c c' (lines : list str) :
  PyQueue.items (EngineLightweight.audio_queue c')
  = PyQueue.items (EngineLightweight.audio_queue c) ->
  EngineLightweight.audio_buffer c' = EngineLightweight.audio_buffer c ->
  EngineLightweight.printed c' = EngineLightweight.printed c ++ lines ->
  filter (PyStr.eqb Observed.skip_warning) lines = [] ->
  Observed.accounted c c' [].
Proof.
  intros I B P W. exists [], lines.
  split; [rewrite I; cbn; now rewrite app_nil_r|].
  split; [exact P|]. split; [exact W|]. split; [constructor|].
  cbn [map concat app]. now rewrite B, app_nil_r.
Qed.

Lemma loop_turn_accounts (read : list sample + str)
    (t : LightweightCapture.timers) c :
  EngineLightweight.chunk_samples c <= EngineLightweight.max_buffer_size c ->
  List.length (EngineLightweight.audio_buffer c)
  <= EngineLightweight.max_buffer_size c ->
  LightweightCapture.read_within (EngineLightweight.chunk_samples c) read ->
  let c' := LightweightCapture.loop_turn read t c in
  EngineLightweight.chunk_samples c' = EngineLightweight.chunk_samples c
  /\ EngineLightweight.max_buffer_size c'
     = EngineLightweight.max_buffer_size c
  /\ EngineLightweight.is_running c' = EngineLightweight.is_running c
  /\ List.length (EngineLightweight.audio_buffer c')
     <= EngineLightweight.max_buffer_size c
  /\ (LightweightCapture.keeps t = true ->
      Observed.accounted c c' (EngineCapture.samples_read [read]))
  /\ (LightweightCapture.keeps t = false ->
      forall data, read = inl data ->
      EngineLightweight.audio_buffer c' = []
      /\ PyQueue.items (EngineLightweight.audio_queue c') = []).
Proof.
  intros CM BM RW. cbv zeta. destruct read as [data|e].
  - cbn [LightweightCapture.read_within] in RW.
    destruct (capture_turn_accounts sample c data CM BM RW)
      as (C & Mx & R & B & A).
    cbn [LightweightCapture.loop_turn]. cbv zeta.
    set (c1 := EngineLightweight.capture_turn (inl data) c) in *.
    assert (A1 : Observed.accounted c c1 data).
    { destruct A as (offered & I & P & F & S).
      exists offered, (Observed.warnings offered).
      rewrite warnings_are_warnings. auto. }
    unfold LightweightCapture.keeps, EngineCapture.samples_read.
    cbn [flat_map]. rewrite app_nil_r.
    destruct t as [[[|mb|mb|e]|] due]; destruct due;
      cbn [LightweightCapture.memory_check LightweightCapture.cleanup_due
           LightweightCapture._check_memory_usage LightweightCapture.print
           EngineLightweight._cleanup_memory EngineLightweight.set_audio
           EngineLightweight.chunk_samples EngineLightweight.max_buffer_size
           EngineLightweight.is_running EngineLightweight.audio_buffer
           EngineLightweight.audio_queue EngineLightweight.printed
           PyQueue.items List.length negb];
      (split; [exact C|]); (split; [exact Mx|]); (split; [exact R|]);
      (split; [try exact B; lia|]);
      (split; [try discriminate | try discriminate; try (intros _ ? _; now split)]);
      intros _.
    + exact A1.
    + rewrite <- (app_nil_r data).
      eapply accounted_trans; [exact C | exact A1 |].
      eapply accounted_prints; cbn; try reflexivity.
    + rewrite <- (app_nil_r data).
      eapply accounted_trans; [exact C | exact A1 |].
      eapply accounted_prints; cbn; try reflexivity.
    + exact A1.
  - cbn [LightweightCapture.loop_turn EngineLightweight.capture_turn
         EngineLightweight.set_audio EngineLightweight.chunk_samples
         EngineLightweight.max_buffer_size EngineLightweight.is_running
         EngineLightweight.audio_buffer].
    repeat split; try exact BM.
    + intros _. unfold EngineCapture.samples_read. cbn [flat_map app].
      eapply accounted_prints; cbn; try reflexivity.
    + discriminate.
    + discriminate.
Qed.

End LightweightLoop.

(** X4.  engine_lightweight.py, the capture loop with its timers: as
    long as a read brings no more than one chunk of samples and the
    buffer starts within [max_buffer_size] (which is at least
    [chunk_samples]), the buffer stays within [max_buffer_size], so the
    trimming of lines 195-198 never drops anything.  While no timer
    calls [_cleanup_memory], every sample read is accounted for: the
    chunks cut off, each in the queue or answered by the warning that
    it was skipped, followed by the buffer, are the old buffer followed
    by the samples of the reads that did not raise.  A turn in which a
    timer calls [_cleanup_memory] ends with the buffer and the queue
    empty: what they held is dropped, with no such warning. *)
Theorem lightweight_capture_accounts_for_every_sample :
  forall (sample : Type)
         (turns : list ((list sample + str) * LightweightCapture.timers))
         (c : EngineLightweight.engine sample),
    EngineLightweight.chunk_samples c <= EngineLightweight.max_buffer_size c ->
    List.length (EngineLightweight.audio_buffer c)
    <= EngineLightweight.max_buffer_size c ->
    Forall (fun turn =>
              LightweightCapture.read_within
                (EngineLightweight.chunk_samples c) (fst turn)) turns ->
    let c' := LightweightCapture._audio_input_thread turns c in
    List.length (EngineLightweight.audio_buffer c')
    <= EngineLightweight.max_buffer_size c
    /\ (EngineLightweight.is_running c = true ->
        Forall (fun turn => LightweightCapture.keeps (snd turn) = true)
          turns ->
        Observed.accounted c c'
          (EngineCapture.samples_read (map fst turns)))
    /\ (forall (data : list sample) (t : LightweightCapture.timers),
          LightweightCapture.keeps t = false ->
          EngineLightweight.audio_buffer
            (LightweightCapture.loop_turn (inl data) t c) = []
          /\ PyQueue.items
               (EngineLightweight.audio_queue
                  (LightweightCapture.loop_turn (inl data) t c)) = []).
Proof.
  intros sample turns c CM BM RW. cbv zeta. split; [|split].
  - unfold LightweightCapture._audio_input_thread.
    revert c CM BM RW. induction turns as [|[read t] turns IH];
      intros c CM BM RW; [exact BM|].
    cbn [fold_left fst snd]. inversion RW as [|? ? R1 R2]; subst.
    destruct (EngineLightweight.is_running c); [|now apply IH].
    destruct (loop_turn_accounts sample read t c CM BM R1)
      as (C & Mx & _ & B & _).
    rewrite <- Mx. apply IH.
    + now rewrite C, Mx.
    + now rewrite Mx.
    + now rewrite C.
  - unfold LightweightCapture._audio_input_thread.
    revert c CM BM RW. induction turns as [|[read t] turns IH];
      intros c CM BM RW Run K.
    + cbn. exists [], []. cbn. rewrite !app_nil_r.
      repeat split. constructor.
    + cbn [fold_left fst snd map]. rewrite Run.
      inversion RW as [|? ? R1 R2]; subst.
      inversion K as [|? ? K1 K2]; subst.
      destruct (loop_turn_accounts sample read t c CM BM R1)
        as (C & Mx & R & B & A & _).
      change (read :: map fst turns) with ([read] ++ map fst turns).
      unfold EngineCapture.samples_read at 1. rewrite flat_map_app.
      eapply accounted_trans; [exact C | exact (A K1) |].
      apply IH.
      * now rewrite C, Mx.
      * now rewrite Mx.
      * now rewrite C.
      * now rewrite R.
      * exact K2.
  - intros data t K.
    unfold LightweightCapture.keeps in K.
    destruct t as [[[|mb|mb|e]|] due]; destruct due;
      cbn [LightweightCapture.memory_check LightweightCapture.cleanup_due
           negb] in K; try discriminate K;
      cbn [LightweightCapture.loop_turn LightweightCapture.memory_check
           LightweightCapture.cleanup_due
           LightweightCapture._check_memory_usage LightweightCapture.print
           EngineLightweight._cleanup_memory EngineLightweight.set_audio
           EngineLightweight.audio_buffer EngineLightweight.audio_queue
           PyQueue.items]; now split.
Qed.

Lemma lightweight_capture_accounts_for_every_sample_witness :
  List.length
    (EngineLightweight.audio_buffer
       (LightweightCapture._audio_input_thread
          [(inl [1; 2], {| LightweightCapture.memory_check := None;
                           LightweightCapture.cleanup_due := false |});
           (inl [3; 4; 5],
            {| LightweightCapture.memory_check :=
                 Some (LightweightCapture.High (lit "612.5"));
               LightweightCapture.cleanup_due := false |});
           (inr (lit "overflow"),
            {| LightweightCapture.memory_check := None;
               LightweightCapture.cleanup_due := true |})]
          {| EngineLightweight.is_running := true;
             EngineLightweight.chunk_samples := 3;
             EngineLightweight.max_buffer_size := 3;
             EngineLightweight.audio_buffer := [7];
             EngineLightweight.audio_queue := PyQueue.new (list nat) 1;
             EngineLightweight.printed := [] |})) <= 3.
Proof.
  apply (lightweight_capture_accounts_for_every_sample nat
          [(inl [1; 2], {| LightweightCapture.memory_check := None;
                           LightweightCapture.cleanup_due := false |});
           (inl [3; 4; 5],
            {| LightweightCapture.memory_check :=
                 Some (LightweightCapture.High (lit "612.5"));
               LightweightCapture.cleanup_due := false |});
           (inr (lit "overflow"),
            {| LightweightCapture.memory_check := None;
               LightweightCapture.cleanup_due := true |})]
          {| EngineLightweight.is_running := true;
             EngineLightweight.chunk_samples := 3;
             EngineLightweight.max_buffer_size := 3;
             EngineLightweight.audio_buffer := [7];
             EngineLightweight.audio_queue := PyQueue.new (list nat) 1;
             EngineLightweight.printed := [] |}).
  - cbn. lia.
  - cbn. lia.
  - repeat constructor.
Defined.

(* ===================================================================== *)
(** * engine_lightweight.py: the transcription thread and [stop] *)
(* ===================================================================== *)

Section LightweightSessionFacts.
Variable sample : Type.
Implicit Types (self : LightweightSession.engine sample).


Lemma lightweight_stopped_step (a : LightweightSession.action sample)
    self d :
  Observed.is_loop_turn a = true ->
  EngineLightweight.is_running (LightweightSession.core self) = false ->
  LightweightSession.step a (self, d) = (self, d).
Proof.
  intros L R. destruct a; try discriminate L;
    cbn [LightweightSession.step]; now rewrite R.
Qed.

End LightweightSessionFacts.


(** X6.  engine_lightweight.py, [stop]: the chunks still waiting in
    the queue and the samples in the buffer are thrown away, never
    transcribed; the session list is left as it was and, when the write
    goes through, the session file holds its header and one record per
    entry.  A loop turn that begins after [stop] changes nothing. *)
Theorem lightweight_stop_discards_what_is_queued :
  forall (sample : Type) (self : LightweightSession.engine sample)
         (d : PyFile.disk) (now : Engine.datetime) (flt : PyFile.fault)
         (acts : list (LightweightSession.action sample)),
    Forall (fun a => Observed.is_loop_turn a = true) acts ->
    let stopped := LightweightSession.stop now flt self d in
    PyQueue.items
      (EngineLightweight.audio_queue (LightweightSession.core (fst stopped)))
    = []
    /\ EngineLightweight.audio_buffer (LightweightSession.core (fst stopped))
       = []
    /\ LightweightSession.session_transcripts (fst stopped)
       = LightweightSession.session_transcripts self
    /\ (flt = PyFile.NoFault ->
        snd stopped
        = Some (header now
                ++ body (LightweightSession.session_transcripts self)))
    /\ LightweightSession.run acts stopped = stopped.
Proof.
  intros sample self d now flt acts L. cbv zeta.
  assert (R : EngineLightweight.is_running
                (LightweightSession.core
                   (fst (LightweightSession.stop now flt self d))) = false).
  { unfold LightweightSession.stop, LightweightSession._save_session.
    destruct (PyFile.write_file _ flt d) as [d' [e|]]; reflexivity. }
  repeat split.
  - unfold LightweightSession.stop, LightweightSession._save_session.
    destruct (PyFile.write_file _ flt d) as [d' [e|]]; reflexivity.
  - unfold LightweightSession.stop, LightweightSession._save_session.
    destruct (PyFile.write_file _ flt d) as [d' [e|]]; reflexivity.
  - unfold LightweightSession.stop, LightweightSession._save_session.
    destruct (PyFile.write_file _ flt d) as [d' [e|]]; reflexivity.
  - intros ->. unfold LightweightSession.stop,
      LightweightSession._save_session.
    cbn [PyFile.write_file snd LightweightSession.session_transcripts
         LightweightSession.set_core].
    now rewrite concat_session_writes.
  - destruct (LightweightSession.stop now flt self d) as [s' d'].
    cbn [fst] in R. unfold LightweightSession.run.
    induction L as [|a acts A L IH]; [reflexivity|].
    cbn [fold_left].
    rewrite (lightweight_stopped_step sample a s' d' A R). exact IH.
Qed.

Lemma lightweight_stop_discards_what_is_queued_witness :
  LightweightSession.run
    [LightweightSession.CaptureTurn (inl [1; 2; 3]);
     LightweightSession.TranscriptionTurn true
       (Engine.Returns (lit "Hello there.")) 0]
    (LightweightSession.stop
       {| Engine.year := 2024; Engine.month := 5; Engine.day := 17;
          Engine.hour := 9; Engine.minute := 30; Engine.second := 0 |}
       PyFile.NoFault
       (LightweightSession.start (LightweightSession.init nat (lit "s.txt")))
       None)
  = LightweightSession.stop
      {| Engine.year := 2024; Engine.month := 5; Engine.day := 17;
         Engine.hour := 9; Engine.minute := 30; Engine.second := 0 |}
      PyFile.NoFault
      (LightweightSession.start (LightweightSession.init nat (lit "s.txt")))
      None.
Proof.
  apply (lightweight_stop_discards_what_is_queued nat
           (LightweightSession.start
              (LightweightSession.init nat (lit "s.txt")))
           None
           {| Engine.year := 2024; Engine.month := 5; Engine.day := 17;
              Engine.hour := 9; Engine.minute := 30; Engine.second := 0 |}
           PyFile.NoFault
           [LightweightSession.CaptureTurn (inl [1; 2; 3]);
            LightweightSession.TranscriptionTurn true
              (Engine.Returns (lit "Hello there.")) 0]).
  repeat constructor.
Defined.

(* ===================================================================== *)
(** * transcription_engine.py: the two worker threads *)
(* ===================================================================== *)

Section TranscriptionEngineFacts.
Variable audio : Type.



End TranscriptionEngineFacts.

Section TranscriptionEngineRuns.
Variable audio : Type.
Implicit Types (s : TranscriptionEngineThreads.threads audio).




End TranscriptionEngineRuns.


(* ===================================================================== *)
(** * main.py: the microphone callback *)
(* ===================================================================== *)

Section MicCallback.
Variables sample audio : Type.
Variable convert : list sample -> audio.

Lemma cut_chunks_total (n : nat) :
  0 < n ->
  forall fuel (buffer : list sample) (queue : list (option audio)),
    List.length buffer < fuel ->
    exists chunks rest,
      MainThreads.cut_chunks convert fuel n buffer queue
      = Some (rest, queue ++ map (fun c => Some (convert c)) chunks)
      /\ Forall (fun c => List.length c = n) chunks
      /\ concat chunks ++ rest = buffer
      /\ List.length rest < n.
Proof.
  intros N. induction fuel as [|fuel IH]; intros buffer queue F; [lia|].
  cbn [MainThreads.cut_chunks]. cbv zeta.
  destruct (n <=? List.length buffer) eqn:L.
  - apply Nat.leb_le in L.
    destruct (IH (skipn n buffer)
                (PyQueue.put queue (Some (convert (firstn n buffer)))))
      as (chunks & rest & E & C & S & R).
    { rewrite length_skipn. lia. }
    exists (firstn n buffer :: chunks), rest. rewrite E.
    unfold PyQueue.put. rewrite <- app_assoc. repeat split.
    + constructor; [|exact C]. rewrite length_firstn. lia.
    + cbn [concat]. rewrite <- app_assoc, S. apply firstn_skipn.
    + exact R.
  - apply Nat.leb_gt in L. exists [], buffer. cbn.
    rewrite app_nil_r. repeat split; [constructor | exact L].
Qed.

End MicCallback.

(** X8.  main.py, [_mic_callback]: when a chunk has at least one
    sample, the loop of the callback ends; what it appends to the audio
    queue are the converted chunks of exactly [chunk_samples] samples
    cut off the front of the buffer, in order; the samples that remain,
    fewer than a chunk, stay in the buffer, and no sample is lost or
    reordered. *)
Theorem mic_callback_cuts_every_full_chunk :
  forall (sample audio : Type) (convert : list sample -> audio)
         (chunk_samples : nat) (in_data audio_buffer : list sample)
         (audio_queue : list (option audio)),
    0 < chunk_samples ->
    exists chunks rest,
      MainThreads._mic_callback convert chunk_samples in_data audio_buffer
        audio_queue
      = Some (rest, audio_queue ++ map (fun c => Some (convert c)) chunks)
      /\ Forall (fun c => List.length c = chunk_samples) chunks
      /\ concat chunks ++ rest = audio_buffer ++ in_data
      /\ List.length rest < chunk_samples.
Proof.
  intros sample audio convert n in_data buffer queue N.
  unfold MainThreads._mic_callback. cbv zeta.
  apply cut_chunks_total; [exact N | lia].
Qed.

Lemma mic_callback_cuts_every_full_chunk_witness :
  exists chunks rest,
    MainThreads._mic_callback (fun c : list nat => c) 2 [3; 4; 5] [1; 2] []
    = Some (rest, [] ++ map (fun c => Some c) chunks)
    /\ Forall (fun c => List.length c = 2) chunks
    /\ concat chunks ++ rest = [1; 2] ++ [3; 4; 5]
    /\ List.length rest < 2.
Proof.
  apply (mic_callback_cuts_every_full_chunk nat (list nat) (fun c => c) 2
           [3; 4; 5] [1; 2] []).
  lia.
Defined.

(* ===================================================================== *)
(** * main.py: the lines of the history *)
(* ===================================================================== *)

Lemma before_bracket_app (ts rest : str) :
  existsb (Ascii.eqb "]"%char) ts = false ->
  Main.before_bracket (ts ++ "]"%char :: rest) = ts.
Proof.
  induction ts as [|c ts IH]; intros H; cbn [app Main.before_bracket].
  - reflexivity.
  - cbn [existsb] in H. apply orb_false_elim in H. destruct H as [C H].
    rewrite Ascii.eqb_sym in C. rewrite C. f_equal. now apply IH.
Qed.

(** The time stamp that [update_history_line] reads off a line built by
    [add_to_history]. *)
Lemma timestamp_of_line (ts status text : str) :
  existsb (Ascii.eqb "]"%char) ts = false ->
  slice_from (Main.before_bracket (MainThreads.line ts status text)) 1 = ts.
Proof.
  intros H. unfold MainThreads.line.
  change (lit "[" ++ ts ++ lit "] [" ++ status ++ lit "] " ++ text)
    with ("["%char :: ts ++ "]"%char :: (lit " [" ++ status ++ lit "] " ++ text)).
  cbn [Main.before_bracket]. 
  replace (Ascii.eqb "[" "]")%char with false by reflexivity.
  rewrite before_bracket_app by exact H.
  unfold slice_from, bound, len. cbn [List.length].
  replace (1 <? 0)%Z with false by reflexivity.
  rewrite Z.min_l by lia. reflexivity.
Qed.

Lemma set_nth_middle (before after : Main.history) (old line : str) :
  Main.set_nth (before ++ old :: after) (List.length before) line
  = before ++ line :: after.
Proof.
  induction before as [|l before IH]; cbn; [reflexivity|]. now rewrite IH.
Qed.

Lemma update_line_at (before after : Main.history)
    (ts status text new_text new_status : str) (index : Z) :
  existsb (Ascii.eqb "]"%char) ts = false ->
  index = Z.of_nat (List.length before) ->
  Main.update_history_line index new_text new_status
    (before ++ MainThreads.line ts status text :: after)
  = before ++ MainThreads.line ts new_status new_text :: after.
Proof.
  intros H ->. unfold Main.update_history_line.
  rewrite length_app. cbn [List.length].
  destruct ((0 <=? Z.of_nat (List.length before))
            && (Z.of_nat (List.length before)
                <? Z.of_nat (List.length before + S (List.length after))))%Z
    eqn:R.
  2:{ apply andb_false_iff in R.
      destruct R as [R|R]; [apply Z.leb_gt in R | apply Z.ltb_ge in R]; lia. }
  cbv zeta. rewrite Nat2Z.id, nth_middle.
  rewrite timestamp_of_line by exact H.
  apply set_nth_middle.
Qed.

(** X9.  main.py, [update_history_line]: on a line that
    [add_to_history] built, with a time stamp that holds no closing
    bracket (as every %H:%M:%S does), the update keeps the time stamp
    and replaces status and text; the history keeps its length and no
    other line changes.  An index outside the history changes
    nothing. *)
Theorem update_keeps_the_time_stamp_of_the_line :
  forall (before after : Main.history)
         (ts status text new_text new_status : str) (index : Z),
    existsb (Ascii.eqb "]"%char) ts = false ->
    (index = Z.of_nat (List.length before) ->
     Main.update_history_line index new_text new_status
       (Main.add_to_history ts text status before ++ after)
     = Main.add_to_history ts new_text new_status before ++ after)
    /\ ((index < 0 \/ Z.of_nat (List.length (before ++ after)) < index)%Z ->
        Main.update_history_line index new_text new_status
          (Main.add_to_history ts text status before ++ after)
        = Main.add_to_history ts text status before ++ after).
Proof.
  intros before after ts status text new_text new_status index H. split.
  - intros I. unfold Main.add_to_history. rewrite <- !app_assoc.
    cbn [app]. now apply update_line_at.
  - intros O. unfold Main.update_history_line, Main.add_to_history.
    rewrite !length_app in *. cbn [List.length] in *.
    destruct ((0 <=? index) && _)%Z eqn:R; [|reflexivity].
    apply andb_prop in R. destruct R as [R1 R2].
    apply Z.leb_le in R1. apply Z.ltb_lt in R2. lia.
Qed.

Lemma update_keeps_the_time_stamp_of_the_line_witness :
  Main.update_history_line 1 (lit "Hello, world.") (lit "Refined")
    (Main.add_to_history (lit "10:00:05") (lit "hello world") (lit "Streaming")
       [lit "[10:00:00] [Streaming] System Initialized."] ++ [])
  = Main.add_to_history (lit "10:00:05") (lit "Hello, world.") (lit "Refined")
      [lit "[10:00:00] [Streaming] System Initialized."] ++ [].
Proof.
  apply (update_keeps_the_time_stamp_of_the_line
           [lit "[10:00:00] [Streaming] System Initialized."] []
           (lit "10:00:05") (lit "Streaming") (lit "hello world")
           (lit "Hello, world.") (lit "Refined") 1).
  - reflexivity.
  - reflexivity.
Defined.

(* ===================================================================== *)
(** * main.py: the drafts and their refinements *)
(* ===================================================================== *)

Section MainThreadsFacts.
Variable audio : Type.
Implicit Types (s : Main.transcriber audio).

Lemma nth_error_other_middle (A : Type) (before after : list A) (x y : A)
    (n : nat) :
  n <> List.length before ->
  nth_error (before ++ x :: after) n = nth_error (before ++ y :: after) n.
Proof.
  revert n. induction before as [|b before IH]; intros [|n] N; cbn in *;
    try reflexivity; try congruence.
  apply IH. congruence.
Qed.

Lemma job_in_place_snoc (h : Main.history) (l : str)
    (job : option (Z * audio * str)) :
  Observed.job_in_place h job -> Observed.job_in_place (h ++ [l]) job.
Proof.
  destruct job as [[[index chunk] draft]|]; [|trivial].
  intros (I & ts & T & N). split; [exact I|]. exists ts. split; [exact T|].
  rewrite nth_error_app1; [exact N|].
  apply nth_error_Some. congruence.
Qed.

Lemma in_job_index (q : list (option (Z * audio * str))) index chunk draft :
  In (Some (index, chunk, draft)) q ->
  In index (flat_map Observed.job_index q).
Proof.
  intros H. apply in_flat_map. eexists. split; [exact H|]. now left.
Qed.

Lemma drafts_in_place_start (ts : str) (d : PyFile.disk) :
  Observed.drafts_in_place (Main.start audio ts false d).
Proof.
  unfold Observed.drafts_in_place. cbn. repeat split; try constructor; lia.
Qed.

Lemma streaming_turn_in_place (ts text : str) s :
  existsb (Ascii.eqb "]"%char) ts = false ->
  Observed.drafts_in_place s ->
  Observed.drafts_in_place (Main.streaming_turn ts (Main.Transcript text) s).
Proof.
  intros T (R & H0 & L & J & D & B). unfold Main.streaming_turn.
  destruct (negb (Main.is_running s) || Main.streaming_done s);
    [repeat split; assumption|].
  unfold PyQueue.get_unbounded.
  destruct (Main.audio_queue s) as [|[chunk|] q];
    [repeat split; assumption| |].
  - cbn [Main._run_whisper].
    destruct (truthy (strip text)) eqn:TR.
    + unfold Observed.drafts_in_place, PyQueue.put, Main.add_to_history.
      cbn [Main.is_running Main.history_index Main.ui_history
           Main.refine_queue].
      rewrite length_app, flat_map_app. cbn [List.length flat_map
        Observed.job_index app].
      repeat split.
      * exact R.
      * lia.
      * lia.
      * apply Forall_app. split.
        -- eapply Forall_impl; [|exact J]. intros job.
           apply job_in_place_snoc.
        -- constructor; [|constructor]. split; [exact H0|].
           exists ts. split; [exact T|].
           rewrite nth_error_app2 by lia.
           replace (Z.to_nat (Main.history_index s + 1)
                    - List.length (Main.ui_history s)) with 0 by lia.
           reflexivity.
      * apply NoDup_app; [exact D | repeat constructor; easy |].
        intros i Hi [<-|[]]. rewrite Forall_forall in B.
        specialize (B _ Hi). lia.
      * apply Forall_app. split.
        -- eapply Forall_impl; [|exact B]. cbv beta. intros; lia.
        -- constructor; [lia | constructor].
    + repeat split; assumption.
  - unfold Observed.drafts_in_place, PyQueue.put.
    cbn [Main.is_running Main.history_index Main.ui_history
         Main.refine_queue].
    rewrite flat_map_app. cbn [flat_map Observed.job_index].
    rewrite app_nil_r. repeat split; try assumption.
    apply Forall_app. split; [exact J|]. now repeat constructor.
Qed.

(** What a refining turn does to the history when whisper hands back a
    text: the line of the job's draft is rewritten, in place. *)
Lemma refining_turn_rewrites (ts text : str) s index chunk draft q :
  Observed.drafts_in_place s ->
  Main.refining_done s = false ->
  Main.refine_queue s = Some (index, chunk, draft) :: q ->
  exists before after ts1,
    Main.ui_history s
    = before ++ MainThreads.line ts1 (lit "Streaming") draft :: after
    /\ Z.of_nat (List.length before) = (index + 1)%Z
    /\ Main.refine_queue (Main.refining_turn ts (Main.Transcript text) s) = q
    /\ Main.ui_history (Main.refining_turn ts (Main.Transcript text) s)
       = if truthy (strip text)
         then before ++ MainThreads.line ts1 (lit "Refined") (strip text)
                :: after
         else Main.ui_history s.
Proof.
  intros (R & H0 & L & J & D & B) RD Q.
  rewrite Q in J. inversion J as [|? ? JH J']; subst.
  cbn [Observed.job_in_place] in JH. destruct JH as (I & ts1 & T1 & N).
  apply nth_error_split in N. destruct N as (before & after & E & LB).
  exists before, after, ts1. split; [exact E|]. split; [lia|].
  unfold Main.refining_turn. rewrite R, RD, Q.
  cbn [negb orb PyQueue.get_unbounded Main._run_whisper Main.refine_queue
       Main.ui_history].
  split; [reflexivity|].
  destruct (truthy (strip text)); [|reflexivity].
  rewrite E. apply update_line_at; [exact T1 | lia].
Qed.

Lemma refining_turn_in_place (ts text : str) s :
  Observed.drafts_in_place s ->
  Observed.drafts_in_place (Main.refining_turn ts (Main.Transcript text) s).
Proof.
  intros K. pose proof K as (R & H0 & L & J & D & B).
  destruct (Main.refining_done s) eqn:RD.
  { unfold Main.refining_turn. rewrite RD, orb_true_r. exact K. }
  destruct (Main.refine_queue s) as [|[[[index chunk] draft]|] q] eqn:Q.
  - unfold Main.refining_turn. rewrite R, RD, Q. exact K.
  - destruct (refining_turn_rewrites ts text s index chunk draft q K RD Q)
      as (before & after & ts1 & E & LB & Q' & U).
    unfold Observed.drafts_in_place. rewrite Q'.
    assert (F : Main.is_running (Main.refining_turn ts (Main.Transcript text) s)
                = true
                /\ Main.history_index
                     (Main.refining_turn ts (Main.Transcript text) s)
                   = Main.history_index s).
    { unfold Main.refining_turn. rewrite R, RD, Q. cbn. auto. }
    destruct F as [F1 F2]. rewrite F1, F2, U.
    cbn [flat_map Observed.job_index app] in D, B.
    inversion D as [|? ? NI D']; subst. inversion B as [|? ? _ B']; subst.
    inversion J as [|? ? _ J']; subst.
    destruct (truthy (strip text)).
    + repeat split; try assumption.
      * rewrite <- L, E, !length_app. reflexivity.
      * rewrite Forall_forall in J' |- *. intros job Hjob.
        specialize (J' job Hjob).
        destruct job as [[[j c] dr]|]; [|trivial].
        destruct J' as (Ij & tsj & Tj & Nj). split; [exact Ij|].
        exists tsj. split; [exact Tj|]. rewrite <- Nj, E.
        apply nth_error_other_middle.
        intros X. apply NI.
        replace index with j by lia.
        eapply in_job_index; exact Hjob.
    + repeat split; assumption.
  - unfold Main.refining_turn. rewrite R, RD, Q.
    cbn [negb orb PyQueue.get_unbounded].
    unfold Observed.drafts_in_place.
    cbn [Main.is_running Main.history_index Main.ui_history
         Main.refine_queue].
    inversion J; subst. repeat split; assumption.
Qed.

Lemma smooth_step_in_place (a : MainThreads.action audio) s :
  MainThreads.smooth a = true ->
  Observed.drafts_in_place s ->
  Observed.drafts_in_place (MainThreads.step a s).
Proof.
  intros S K. destruct a as [item|ts [text|e]|ts [text|e]];
    try discriminate S; cbn [MainThreads.step].
  - exact K.
  - apply streaming_turn_in_place; [|exact K].
    cbn in S. now apply negb_true_iff in S.
  - now apply refining_turn_in_place.
Qed.

Lemma smooth_run_in_place (acts : list (MainThreads.action audio)) s :
  Forall (fun a => MainThreads.smooth a = true) acts ->
  Observed.drafts_in_place s ->
  Observed.drafts_in_place (MainThreads.run acts s).
Proof.
  unfold MainThreads.run. intros F. revert s.
  induction F as [|a acts A F IH]; intros s K; [exact K|].
  cbn [fold_left]. apply IH. now apply smooth_step_in_place.
Qed.

End MainThreadsFacts.

(** X10.  main.py, [streaming_processor] and [refining_processor]: in a
    session that was not resumed and in which whisper has not failed,
    the job at the head of the refine queue finds the draft of its own
    chunk at line [index + 1] of the history; a refinement that brings
    a text rewrites exactly that line, keeping its time stamp and
    putting status "Refined" and the new text, and leaves every other
    line as it was. *)
Theorem refinement_rewrites_the_line_of_its_draft :
  forall (audio : Type) (ts0 : str) (d : PyFile.disk)
         (acts : list (MainThreads.action audio))
         (index : Z) (chunk : audio) (draft : str)
         (q : list (option (Z * audio * str))) (ts text : str),
    Forall (fun a => MainThreads.smooth a = true) acts ->
    let s := MainThreads.run acts (Main.start audio ts0 false d) in
    Main.refine_queue s = Some (index, chunk, draft) :: q ->
    Main.refining_done s = false ->
    truthy (strip text) = true ->
    exists before after ts1,
      Main.ui_history s
      = before ++ MainThreads.line ts1 (lit "Streaming") draft :: after
      /\ Z.of_nat (List.length before) = (index + 1)%Z
      /\ Main.ui_history (Main.refining_turn ts (Main.Transcript text) s)
         = before ++ MainThreads.line ts1 (lit "Refined") (strip text)
             :: after.
Proof.
  intros audio ts0 d acts index chunk draft q ts text F s Q RD T.
  assert (K : Observed.drafts_in_place s)
    by (apply smooth_run_in_place; [exact F | apply drafts_in_place_start]).
  destruct (refining_turn_rewrites audio ts text s index chunk draft q K RD Q)
    as (before & after & ts1 & E & LB & _ & U).
  exists before, after, ts1. rewrite T in U. auto.
Qed.

Lemma refinement_rewrites_the_line_of_its_draft_witness :
  exists before after ts1,
    Main.ui_history
      (MainThreads.run
         [MainThreads.Put (Some 7);
          MainThreads.StreamingTurn (lit "10:00:05")
            (Main.Transcript (lit " hello world "))]
         (Main.start nat (lit "10:00:00") false None))
    = before ++ MainThreads.line ts1 (lit "Streaming") (lit "hello world")
        :: after
    /\ Z.of_nat (List.length before) = (0 + 1)%Z
    /\ Main.ui_history
         (Main.refining_turn (lit "10:00:09")
            (Main.Transcript (lit "Hello, world."))
            (MainThreads.run
               [MainThreads.Put (Some 7);
                MainThreads.StreamingTurn (lit "10:00:05")
                  (Main.Transcript (lit " hello world "))]
               (Main.start nat (lit "10:00:00") false None)))
       = before ++ MainThreads.line ts1 (lit "Refined")
                     (strip (lit "Hello, world.")) :: after.
Proof.
  apply (refinement_rewrites_the_line_of_its_draft nat (lit "10:00:00") None
           [MainThreads.Put (Some 7);
            MainThreads.StreamingTurn (lit "10:00:05")
              (Main.Transcript (lit " hello world "))]
           0%Z 7 (lit "hello world") [] (lit "10:00:09")
           (lit "Hello, world.")).
  - repeat constructor.
  - vm_compute. reflexivity.
  - reflexivity.
  - vm_compute. reflexivity.
Defined.

(* ===================================================================== *)
(** * main.py: the end mark and the scrolling *)
(* ===================================================================== *)

Section MainEndMark.
Variable audio : Type.
Implicit Types (s : Main.transcriber audio).

Lemma mark_is_last_step (a : MainThreads.action audio) s :
  Observed.mark_is_last s -> Observed.mark_is_last (MainThreads.step a s).
Proof.
  intros K. pose proof K as [A B].
  destruct a as [item|ts w|ts w]; cbn [MainThreads.step].
  - exact K.
  - unfold Main.streaming_turn.
    destruct (negb (Main.is_running s)); cbn [orb]; [exact K|].
    destruct (Main.streaming_done s) eqn:SD; [exact K|].
    destruct A as [RD J]; [reflexivity|].
    unfold PyQueue.get_unbounded.
    destruct (Main.audio_queue s) as [|[chunk|] q]; [exact K| |].
    + destruct (Main._run_whisper ts w (Main.ui_history s)) as [transcript h].
      destruct (truthy transcript); split;
        cbn [Main.streaming_done Main.refining_done Main.refine_queue];
        try discriminate; intros _; (split; [exact RD|]); [|exact J].
      unfold PyQueue.put. rewrite forallb_app, J. reflexivity.
    + split; cbn [Main.streaming_done Main.refining_done Main.refine_queue];
        [discriminate|]. intros _. rewrite RD.
      exists (Main.refine_queue s). auto.
  - unfold Main.refining_turn.
    destruct (negb (Main.is_running s)); cbn [orb]; [exact K|].
    destruct (Main.refining_done s) eqn:RD; [exact K|].
    unfold PyQueue.get_unbounded.
    destruct (Main.refine_queue s) as [|[[[index chunk] draft]|] q] eqn:Q;
      [exact K| |].
    + destruct (Main._run_whisper ts w (Main.ui_history s)) as [transcript h].
      split; cbn [Main.streaming_done Main.refining_done Main.refine_queue].
      * intros SD. destruct (A SD) as [_ J]. split; [reflexivity|].
        cbn [forallb Observed.is_job andb] in J. exact J.
      * intros SD. specialize (B SD).
        destruct B as (jobs & E & J).
        destruct jobs as [|job jobs]; [discriminate E|].
        injection E as <- ->. exists jobs. split; [reflexivity|].
        cbn [forallb] in J. now apply andb_prop in J.
    + split; cbn [Main.streaming_done Main.refining_done Main.refine_queue].
      * intros SD. destruct (A SD) as [_ J]. cbn in J. discriminate J.
      * intros SD. specialize (B SD). destruct B as (jobs & E & J).
        destruct jobs as [|job jobs].
        -- now injection E as ->.
        -- injection E as <- ->. cbn in J. discriminate J.
Qed.

End MainEndMark.

(** X11.  main.py, the end mark [None]: while the transcriber runs,
    whatever [audio_processor] queues and whatever whisper does, the
    streaming thread forwards the mark behind every job it has
    drafted, so that no job ever stands behind the mark in the refine
    queue; and the refining thread has left its loop only when the
    refine queue is empty. *)
Theorem end_mark_stands_behind_every_job :
  forall (audio : Type) (ts0 : str) (resume : bool) (d : PyFile.disk)
         (acts : list (MainThreads.action audio)),
    Observed.mark_is_last
      (MainThreads.run acts (Main.start audio ts0 resume d)).
Proof.
  intros audio ts0 resume d acts.
  assert (G : forall s, Observed.mark_is_last s ->
                        Observed.mark_is_last (MainThreads.run acts s)).
  { unfold MainThreads.run.
    induction acts as [|a acts IH]; intros s H; [exact H|].
    cbn [fold_left]. apply IH. now apply mark_is_last_step. }
  apply G. split; cbn; [auto | discriminate].
Qed.

(** X12.  main.py, [handle_input]: a scroll position that lies between
    the first line and the last page stays there whatever key is
    pressed, and also when [getch] raises; only the key q makes the
    function return False. *)
Theorem scroll_position_stays_on_the_pad :
  forall (pressed : option MainThreads.key) (history : Main.history)
         (history_win_height scroll_pos : Z),
    (0 <= scroll_pos)%Z ->
    (scroll_pos
     <= Z.max 0 (Z.of_nat (List.length history) - history_win_height))%Z ->
    let (scroll_pos', continue) :=
      MainThreads.handle_input pressed history history_win_height scroll_pos in
    (0 <= scroll_pos')%Z
    /\ (scroll_pos'
        <= Z.max 0 (Z.of_nat (List.length history) - history_win_height))%Z
    /\ (continue = false <-> pressed = Some MainThreads.key_q).
Proof.
  intros pressed history height pos P B.
  destruct pressed as [[| | |]|]; cbn [MainThreads.handle_input].
  - repeat split; try lia; discriminate.
  - destruct (height <? Z.of_nat (List.length history))%Z eqn:H.
    + apply Z.ltb_lt in H. repeat split; try lia; discriminate.
    + repeat split; try lia; discriminate.
  - repeat split; try lia; auto.
  - repeat split; try lia; discriminate.
  - repeat split; try lia; discriminate.
Qed.

Lemma scroll_position_stays_on_the_pad_witness :
  let (scroll_pos', continue) :=
    MainThreads.handle_input (Some MainThreads.KEY_DOWN)
      [lit "a"; lit "b"; lit "c"] 2 1 in
  (0 <= scroll_pos')%Z
  /\ (scroll_pos' <= Z.max 0 (Z.of_nat 3 - 2))%Z
  /\ (continue = false <-> Some MainThreads.KEY_DOWN = Some MainThreads.key_q).
Proof.
  apply (scroll_position_stays_on_the_pad (Some MainThreads.KEY_DOWN)
           [lit "a"; lit "b"; lit "c"] 2 1).
  - lia.
  - cbn. lia.
Defined.

(* ===================================================================== *)
(** * gui_transcriber.py: the queue and the log *)
(* ===================================================================== *)

Lemma refined_of_app (evs1 evs2 : list Engine.event) :
  Observed.refined_of (evs1 ++ evs2)
  = Observed.refined_of evs1 ++ Observed.refined_of evs2.
Proof. unfold Observed.refined_of. apply flat_map_app. Qed.

Lemma log_of_app (ts1 ts2 : list Engine.transcript) :
  Observed.log_of (ts1 ++ ts2) = Observed.log_of ts1 ++ Observed.log_of ts2.
Proof. unfold Observed.log_of. now rewrite map_app, concat_app. Qed.

Lemma update_callback_all (batch : list Engine.event)
    (self : GuiTranscriber.app) :
  fold_left GuiTranscriber.update_callback batch self
  = {| GuiTranscriber.transcription_queue :=
         GuiTranscriber.transcription_queue self ++ batch;
       GuiTranscriber.current_text_label :=
         GuiTranscriber.current_text_label self;
       GuiTranscriber.history_text := GuiTranscriber.history_text self;
       GuiTranscriber.transcripts := GuiTranscriber.transcripts self |}.
Proof.
  revert self. induction batch as [|ev batch IH]; intros self.
  - cbn. rewrite app_nil_r. now destruct self.
  - cbn [fold_left]. rewrite IH. unfold GuiTranscriber.update_callback,
      PyQueue.put. cbn. now rewrite <- app_assoc.
Qed.

Lemma dispatch_one (self : GuiTranscriber.app) (ev : Engine.event) :
  GuiTranscriber.transcription_queue (GuiTranscriber.dispatch self ev)
  = GuiTranscriber.transcription_queue self
  /\ GuiTranscriber.history_text (GuiTranscriber.dispatch self ev)
     = GuiTranscriber.history_text self
       ++ Observed.log_of (Observed.refined_of [ev])
  /\ GuiTranscriber.current_text_label (GuiTranscriber.dispatch self ev)
     = Observed.label_after ev.
Proof.
  destruct ev as [data|t]; cbn [GuiTranscriber.dispatch].
  - cbn. now rewrite app_nil_r.
  - unfold GuiTranscriber.update_transcript_display, Observed.refined_of,
      Observed.label_after. cbn [flat_map].
    destruct (PyStr.eqb (Engine.status t) Engine.Refined); cbn.
    + rewrite !app_nil_r. auto.
    + rewrite app_nil_r. auto.
Qed.

Lemma dispatch_all (evs : list Engine.event) (self : GuiTranscriber.app) :
  GuiTranscriber.transcription_queue
    (fold_left GuiTranscriber.dispatch evs self)
  = GuiTranscriber.transcription_queue self
  /\ GuiTranscriber.history_text (fold_left GuiTranscriber.dispatch evs self)
     = GuiTranscriber.history_text self
       ++ Observed.log_of (Observed.refined_of evs).
Proof.
  revert self. induction evs as [|ev evs IH]; intros self.
  - cbn. now rewrite app_nil_r.
  - cbn [fold_left]. destruct (IH (GuiTranscriber.dispatch self ev))
      as [Q H]. destruct (dispatch_one self ev) as (Q1 & H1 & _).
    rewrite Q, Q1, H, H1. split; [reflexivity|].
    change (ev :: evs) with ([ev] ++ evs).
    now rewrite refined_of_app, log_of_app, app_assoc.
Qed.

(** Polling on an empty queue is processing the batch. *)
Lemma poll_dispatches (self : GuiTranscriber.app) (batch : list Engine.event) :
  GuiTranscriber.transcription_queue self = [] ->
  Observed.poll self batch = fold_left GuiTranscriber.dispatch batch self.
Proof.
  intros Q. unfold Observed.poll, GuiTranscriber.process_queue.
  rewrite update_callback_all. cbn. rewrite Q. cbn [app].
  f_equal. destruct self. cbn in *. now subst.
Qed.

Lemma polls_dispatch (batches : list (list Engine.event))
    (self : GuiTranscriber.app) :
  GuiTranscriber.transcription_queue self = [] ->
  fold_left Observed.poll batches self
  = fold_left GuiTranscriber.dispatch (concat batches) self.
Proof.
  revert self. induction batches as [|batch batches IH]; intros self Q.
  - reflexivity.
  - cbn [fold_left concat]. rewrite fold_left_app.
    rewrite (poll_dispatches self batch Q).
    apply IH. destruct (dispatch_all batch self) as [-> _]. exact Q.
Qed.


(** X13.  gui_transcriber.py, [update_callback], [process_queue] and
    [update_transcript_display]: however the calls of the engine fall
    between two runs of the timer, once the queue has been processed it
    is empty, the scrollable log holds the texts of the Refined entries
    received, in the order received, each followed by an empty line,
    and nothing of the status messages or the Streaming entries; the
    label shows what the last event leaves there. *)
Theorem log_holds_the_refined_entries_in_order :
  forall (batches : list (list Engine.event)),
    let shown := fold_left Observed.poll batches GuiTranscriber.init in
    GuiTranscriber.transcription_queue shown = []
    /\ GuiTranscriber.history_text shown
       = Observed.log_of (Observed.refined_of (concat batches))
    /\ shown = GuiTranscriber.shown (concat batches)
    /\ (forall evs ev,
          concat batches = evs ++ [ev] ->
          GuiTranscriber.current_text_label shown = Observed.label_after ev).
Proof.
  intros batches. cbv zeta.
  rewrite polls_dispatch by reflexivity.
  destruct (dispatch_all (concat batches) GuiTranscriber.init) as [Q H].
  repeat split.
  - exact Q.
  - exact H.
  - unfold GuiTranscriber.shown. symmetry.
    apply (poll_dispatches GuiTranscriber.init). reflexivity.
  - intros evs ev ->. rewrite fold_left_app. cbn [fold_left].
    apply dispatch_one.
Qed.

(* ===================================================================== *)
(** * engine.py: what the sentences and the entries look like *)
(* ===================================================================== *)

Lemma first_split (p : ascii -> bool) (s : str) (k : nat) :
  first p s = Some k ->
  exists pre c suf,
    s = pre ++ c :: suf /\ List.length pre = k /\ p c = true.
Proof.
  revert k. induction s as [|c s IH]; intros k; cbn [first]; [discriminate|].
  destruct (p c) eqn:P.
  - intros [= <-]. now exists [], c, s.
  - destruct (first p s) as [j|]; [|discriminate]. intros [= <-].
    destruct (IH j eq_refl) as (pre & c' & suf & -> & L & P').
    exists (c :: pre), c', suf. cbn. auto.
Qed.

Lemma firstn_skipn_middle (A : Type) (pre suf : list A) (c : A) :
  firstn (S (List.length pre)) (pre ++ c :: suf) = pre ++ [c]
  /\ skipn (S (List.length pre)) (pre ++ c :: suf) = suf.
Proof.
  induction pre as [|x pre [IH1 IH2]]; [now cbn|].
  split.
  - cbn [List.length app]. rewrite firstn_cons. now rewrite IH1.
  - cbn [List.length app]. rewrite skipn_cons. exact IH2.
Qed.

Lemma rstrip_snoc (y : str) (c : ascii) :
  isspace c = false -> rstrip (y ++ [c]) = y ++ [c].
Proof.
  intros Hc. unfold rstrip. rewrite rev_app_distr. cbn [rev app lstrip].
  rewrite Hc. cbn [rev]. now rewrite rev_involutive.
Qed.

Lemma strip_snoc (x : str) (c : ascii) :
  isspace c = false -> exists y, strip (x ++ [c]) = y ++ [c].
Proof.
  intros Hc. unfold strip. destruct (lstrip_snoc x c Hc) as (y & ->).
  exists y. now apply rstrip_snoc.
Qed.

Section CutLoopMarks.
Variable p : ascii -> bool.
Hypothesis p_mark :
  forall c, p c = true -> isspace c = false /\ terminal c = true.

Lemma cut_loop_marks fuel ss b ss' b' :
  cut_loop p fuel ss b = Some (ss', b') ->
  exists new,
    ss' = ss ++ new
    /\ Forall (fun s => Observed.ends_in_mark s /\ infix s b) new
    /\ infix b' b.
Proof.
  revert ss b. induction fuel as [|fuel IH]; intros ss b; cbn [cut_loop];
    [discriminate|].
  destruct (first p b) as [k|] eqn:F.
  - cbv zeta. intros E. apply IH in E. destruct E as (new & -> & N & I).
    assert (I' : infix (strip (skipn (S k) b)) b)
      by (eapply infix_trans; [apply strip_infix | apply infix_skipn]).
    assert (N' : Forall (fun s => Observed.ends_in_mark s /\ infix s b) new).
    { eapply Forall_impl; [|exact N]. cbv beta. intros s [M J].
      split; [exact M|]. eapply infix_trans; eauto. }
    destruct (10 <? len (strip (firstn (S k) b)))%Z.
    + exists (strip (firstn (S k) b) :: new). rewrite <- app_assoc.
      split; [reflexivity|]. split; [|eapply infix_trans; eauto].
      constructor; [|exact N']. split.
      * destruct (first_split p b k F) as (pre & c & suf & -> & <- & P).
        destruct (firstn_skipn_middle _ pre suf c) as [-> _].
        destruct (p_mark c P) as [S T].
        destruct (strip_snoc pre c S) as (y & ->). now exists y, c.
      * eapply infix_trans; [apply strip_infix | apply infix_firstn].
    + exists new. split; [reflexivity|]. split; [exact N'|].
      eapply infix_trans; eauto.
  - intros [= <- <-]. exists []. rewrite app_nil_r.
    split; [reflexivity|]. split; [constructor | apply infix_refl].
Qed.

End CutLoopMarks.

Lemma ending_is_mark (e : ascii) :
  In e Engine.sentence_endings ->
  forall c, Ascii.eqb e c = true -> isspace c = false /\ terminal c = true.
Proof.
  intros H c E. split; [eapply ending_nonspace; eauto|].
  apply Ascii.eqb_eq in E. subst c.
  destruct H as [<-|[<-|[<-|[]]]]; reflexivity.
Qed.

(** The sentences that [extract] hands back end in a mark and are runs
    of consecutive characters of the buffer. *)
Lemma extract_marks (b b' : str) (sentences : list str) :
  Engine.extract b = Some (sentences, b') ->
  Forall (fun s => Observed.ends_in_mark s /\ infix s b) sentences.
Proof.
  rewrite extract_cut_loops.
  destruct (cut_loop (Ascii.eqb ".") _ [] b) as [[s1 b1]|] eqn:E1;
    [|discriminate].
  destruct (cut_loop (Ascii.eqb "!") _ s1 b1) as [[s2 b2]|] eqn:E2;
    [|discriminate].
  intros E3.
  apply cut_loop_marks in E1; [|apply ending_is_mark; cbn; auto].
  apply cut_loop_marks in E2; [|apply ending_is_mark; cbn; auto].
  apply cut_loop_marks in E3; [|apply ending_is_mark; cbn; auto].
  destruct E1 as (n1 & -> & N1 & I1). destruct E2 as (n2 & -> & N2 & I2).
  destruct E3 as (n3 & -> & N3 & I3). cbn [app].
  rewrite !Forall_app. repeat split.
  - exact N1.
  - eapply Forall_impl; [|exact N2]. cbv beta. intros s [M J].
    split; [exact M|]. eapply infix_trans; eauto.
  - eapply Forall_impl; [|exact N3]. cbv beta. intros s [M J].
    split; [exact M|]. eapply infix_trans; [exact J|].
    eapply infix_trans; eauto.
Qed.

(** X14.  engine.py, [_extract_complete_sentences]: on every buffer
    the function returns; each sentence it hands back is a run of
    consecutive characters of the buffer, has no white space at either
    end, is longer than ten characters and ends in one of the marks
    '.', '!' and '?'; the buffer it leaves behind holds none of the
    marks. *)
Theorem extracted_sentences_end_in_a_mark :
  forall (buffer : str),
    exists sentences buffer',
      Engine.extract buffer = Some (sentences, buffer')
      /\ Forall (fun s => substantial s
                          /\ Observed.ends_in_mark s
                          /\ infix s buffer) sentences
      /\ existsb terminal buffer' = false.
Proof.
  intros buffer.
  destruct (extract_total buffer) as (sentences & E & S).
  exists sentences, (rest terminal buffer). split; [exact E|]. split.
  - pose proof (extract_marks _ _ _ E) as M.
    rewrite Forall_forall in *. intros s Hs.
    destruct (M s Hs) as [M1 M2]. auto.
  - unfold rest. destruct (existsb terminal buffer) eqn:X; [|exact X].
    destruct (existsb terminal (strip (after_last terminal buffer))) eqn:Y;
      [|reflexivity].
    apply existsb_exists in Y. destruct Y as (c & Hc & Tc).
    apply (infix_In _ _ _ (strip_infix _)) in Hc.
    assert (Z : existsb terminal (after_last terminal buffer) = false).
    { clear. induction buffer as [|c r IH]; [reflexivity|].
      cbn [after_last]. destruct (existsb terminal r) eqn:R; [exact IH|].
      destruct (terminal c) eqn:T; [exact R|].
      cbn [existsb]. now rewrite T, R. }
    assert (W : existsb terminal (after_last terminal buffer) = true)
      by (apply existsb_exists; eauto).
    congruence.
Qed.

Section EngineEffects.
Variable audio : Type.
Implicit Types (self : Engine.engine audio).

Lemma adds_nothing self self' :
  Engine.callbacks self' = Engine.callbacks self ->
  Engine.session_transcripts self' = Engine.session_transcripts self ->
  Observed.adds self self' [] [].
Proof.
  intros C S. unfold Observed.adds. rewrite C, S. cbn. rewrite !app_nil_r.
  repeat split; constructor.
Qed.

Lemma step_adds (a : Engine.action audio) self d :
  exists self' d' sentences refined,
    Engine.step a (self, d) = Some (self', d')
    /\ Observed.adds self self' sentences refined.
Proof.
  destruct a as [chunk|ready r|ready r now|now flt]; cbn [Engine.step].
  - destruct (Engine.is_running self); eexists _, _, [], [];
      (split; [reflexivity | now apply adds_nothing]).
  - destruct (Engine.is_running self);
      [|eexists _, _, [], []; split; [reflexivity | now apply adds_nothing]].
    destruct ready;
      [|eexists _, _, [], []; split; [reflexivity | now apply adds_nothing]].
    destruct (Engine.audio_queue self) as [|chunk q] eqn:Q.
    { unfold Engine.streaming_turn. rewrite Q.
      cbn [negb PyQueue.get_unbounded].
      eexists _, _, [], []; split; [reflexivity | now apply adds_nothing]. }
    destruct r as [text|e].
    + destruct (streaming_turn_returns audio self chunk q text Q)
        as (sentences & self' & -> & F & _ & _ & _ & S & _ & H).
      destruct (passes text).
      * destruct H as (_ & C & _ & _ & X).
        exists self', d, sentences, []. split; [reflexivity|].
        unfold Observed.adds. rewrite C, S. cbn [map]. rewrite !app_nil_r.
        repeat split; [|constructor].
        apply extract_marks in X. rewrite Forall_forall in *.
        intros s Hs. split; [now apply F | now apply X].
      * destruct H as (_ & C & _).
        exists self', d, [], []. split; [reflexivity|].
        now apply adds_nothing.
    + unfold Engine.streaming_turn. rewrite Q.
      cbn [negb PyQueue.get_unbounded].
      eexists _, _, [], []; split; [reflexivity | now apply adds_nothing].
  - destruct (Engine.is_running self);
      [|eexists _, _, [], []; split; [reflexivity | now apply adds_nothing]].
    unfold Engine.refining_turn.
    destruct ready; cbn [negb];
      [|eexists _, _, [], []; split; [reflexivity | now apply adds_nothing]].
    destruct (Engine.refine_queue self) as [|job q] eqn:Q;
      cbn [PyQueue.get_unbounded];
      [eexists _, _, [], []; split; [reflexivity | now apply adds_nothing]|].
    destruct r as [text|e];
      [|eexists _, _, [], []; split; [reflexivity | now apply adds_nothing]].
    cbv zeta.
    destruct (truthy (strip text) && (2 <? len (strip text))%Z) eqn:T;
      [|eexists _, _, [], []; split; [reflexivity | now apply adds_nothing]].
    apply andb_prop in T. destruct T as [_ T]. apply Z.ltb_lt in T.
    eexists _, _, [], [_]. split; [reflexivity|].
    unfold Observed.adds.
    cbn [Engine.callbacks Engine.session_transcripts Engine.update_callback
         Engine.set_session_transcripts Engine.set_refine_queue
         Engine.chunk_id entries map app].
    split; [reflexivity|]. split; [reflexivity|]. split; [constructor|].
    constructor; [|constructor].
    cbn [Engine.status Engine.timestamp Engine.text].
    repeat split; [discriminate | symmetry; apply strip_idem | exact T].
  - unfold Engine.stop, Engine._save_session.
    destruct (PyFile.write_file _ flt d) as [d' [e|]];
      eexists _, _, [], []; (split; [reflexivity | now apply adds_nothing]).
Qed.

Lemma refined_of_entries n (sentences : list str) :
  Observed.refined_of (entries n sentences) = [].
Proof.
  revert n. induction sentences as [|s r IH]; intros n; [reflexivity|].
  cbn [entries]. change (?x :: ?l) with ([x] ++ l).
  rewrite refined_of_app, IH. reflexivity.
Qed.

Lemma refined_of_refined (refined : list Engine.transcript) :
  Forall (fun t => Engine.status t = Engine.Refined
                   /\ Engine.timestamp t <> None
                   /\ Engine.text t = strip (Engine.text t)
                   /\ (2 < len (Engine.text t))%Z) refined ->
  Observed.refined_of (map Engine.transcript_event refined) = refined.
Proof.
  induction 1 as [|t r (S & _) _ IH]; [reflexivity|].
  cbn [map]. change (?x :: ?l) with ([x] ++ l) at 1.
  rewrite refined_of_app, IH. unfold Observed.refined_of. cbn [flat_map].
  rewrite S. reflexivity.
Qed.

Lemma well_formed_entries n (sentences : list str) :
  Forall (fun s => substantial s /\ Observed.ends_in_mark s) sentences ->
  Forall Observed.well_formed (entries n sentences).
Proof.
  intros F. revert n. induction F as [|s r [S M] _ IH]; intros n;
    [constructor|].
  cbn [entries]. constructor; [|apply IH]. left. cbn. auto.
Qed.

(** Every sequence of actions runs to its end; what it adds to the
    calls of the callback are well-formed entries, the Refined ones of
    which are what it adds to the session list. *)
Lemma run_adds (acts : list (Engine.action audio)) self d :
  exists self' d' new refined,
    Engine.run acts (self, d) = Some (self', d')
    /\ Engine.callbacks self' = Engine.callbacks self ++ new
    /\ Engine.session_transcripts self'
       = Engine.session_transcripts self ++ refined
    /\ Forall Observed.well_formed new
    /\ Observed.refined_of new = refined.
Proof.
  revert self d. induction acts as [|a acts IH]; intros self d.
  - exists self, d, [], []. rewrite !app_nil_r.
    repeat split. constructor.
  - cbn [Engine.run].
    destruct (step_adds a self d)
      as (s1 & d1 & sentences & refined & -> & C1 & S1 & F1 & R1).
    destruct (IH s1 d1) as (s2 & d2 & new & refined2 & R & C2 & S2 & W & E).
    exists s2, d2,
      ((entries (Engine.chunk_id self) sentences
        ++ map Engine.transcript_event refined) ++ new),
      (refined ++ refined2).
    split; [exact R|]. rewrite C2, C1, S2, S1, <- !app_assoc.
    repeat split.
    + rewrite !Forall_app. repeat split; [|  |exact W].
      * now apply well_formed_entries.
      * clear -R1. induction R1 as [|t r H _ IH]; [constructor|].
        cbn [map]. constructor; [|exact IH]. right. exact H.
    + rewrite !refined_of_app, refined_of_entries, E.
      now rewrite (refined_of_refined _ R1).
Qed.

End EngineEffects.

(** X15.  engine.py, [_streaming_thread] and [_refining_thread]: every
    sequence of turns runs to its end, and each entry it hands to the
    callback is of one of two kinds: a Streaming entry without time
    stamp whose text is trimmed, longer than ten characters and ends in
    '.', '!' or '?'; or a Refined entry with a time stamp whose text is
    trimmed and longer than two characters. *)
Theorem engine_entries_are_well_formed :
  forall (audio : Type) (acts : list (Engine.action audio))
         (self : Engine.engine audio) (d : PyFile.disk),
    exists self' d' new,
      Engine.run acts (self, d) = Some (self', d')
      /\ Engine.callbacks self' = Engine.callbacks self ++ new
      /\ Forall Observed.well_formed new.
Proof.
  intros audio acts self d.
  destruct (run_adds audio acts self d)
    as (self' & d' & new & refined & R & C & _ & W & _).
  exists self', d', new. auto.
Qed.

(* ===================================================================== *)
(** * live_streaming_transcriber.py: the history of the display *)
(* ===================================================================== *)

Section LiveStreamingFacts.
Variable audio : Type.
Implicit Types (self : LiveStreaming.transcriber audio).

Lemma last_lines_all (n : nat) (l : list str) :
  List.length l <= n -> LiveStreaming.last_lines n l = l.
Proof.
  intros L. unfold LiveStreaming.last_lines.
  replace (List.length l - n) with 0 by lia. reflexivity.
Qed.

Lemma last_lines_length (n : nat) (l : list str) :
  List.length (LiveStreaming.last_lines n l) <= n.
Proof. unfold LiveStreaming.last_lines. rewrite length_skipn. lia. Qed.

Lemma last_lines_app (n : nat) (a b : list str) :
  LiveStreaming.last_lines n (LiveStreaming.last_lines n a ++ b)
  = LiveStreaming.last_lines n (a ++ b).
Proof.
  destruct (Nat.le_gt_cases (List.length a) n) as [L|L].
  - now rewrite (last_lines_all n a L).
  - unfold LiveStreaming.last_lines.
    rewrite !length_app, length_skipn.
    replace (List.length a - (List.length a - n) + List.length b - n)
      with (List.length b) by lia.
    replace (List.length a + List.length b - n)
      with ((List.length a - n) + List.length b) by lia.
    set (k := List.length a - n).
    replace (a ++ b) with (firstn k a ++ (skipn k a ++ b))
      by (now rewrite app_assoc, firstn_skipn).
    rewrite (skipn_app (k + List.length b)), length_firstn.
    assert (Z : skipn (k + List.length b) (firstn k a) = [])
      by (apply skipn_all2; rewrite length_firstn; lia).
    rewrite Z. cbn [app].
    replace (k + List.length b - Nat.min k (List.length a))
      with (List.length b) by lia.
    reflexivity.
Qed.

Lemma processor_turn_history ts r self :
  List.length (LiveStreaming.transcript_history self)
  <= LiveStreaming.max_history_lines self ->
  let self' := LiveStreaming.processor_turn ts r self in
  LiveStreaming.max_history_lines self' = LiveStreaming.max_history_lines self
  /\ exists stamped : list (str * str),
       LiveStreaming.transcript_history self'
       = LiveStreaming.last_lines (LiveStreaming.max_history_lines self)
           (LiveStreaming.transcript_history self
            ++ map (fun st => lit "[" ++ fst st ++ lit "] " ++ snd st) stamped)
       /\ LiveStreaming.transcript_queue self'
          = LiveStreaming.transcript_queue self ++ map snd stamped.
Proof.
  intros L. cbv zeta. unfold LiveStreaming.processor_turn.
  assert (N : LiveStreaming.max_history_lines self
              = LiveStreaming.max_history_lines self
              /\ exists stamped : list (str * str),
                   LiveStreaming.transcript_history self
                   = LiveStreaming.last_lines
                       (LiveStreaming.max_history_lines self)
                       (LiveStreaming.transcript_history self
                        ++ map (fun st => lit "[" ++ fst st ++ lit "] "
                                          ++ snd st) stamped)
                   /\ LiveStreaming.transcript_queue self
                      = LiveStreaming.transcript_queue self
                        ++ map snd stamped).
  { split; [reflexivity|]. exists []. cbn [map]. rewrite !app_nil_r.
    split; [|reflexivity]. symmetry. now apply last_lines_all. }
  destruct (PyQueue.get_unbounded (LiveStreaming.audio_queue self))
    as [[audio_chunk q]|]; [|exact N].
  assert (G : forall transcript out,
    let self' :=
      if truthy transcript then
        let transcript_line := lit "[" ++ ts ++ lit "] " ++ transcript in
        let history :=
          LiveStreaming.transcript_history self ++ [transcript_line] in
        let history :=
          if LiveStreaming.max_history_lines self <? List.length history
          then LiveStreaming.pop0 history else history in
        {| LiveStreaming.is_running := LiveStreaming.is_running self;
           LiveStreaming.audio_queue := q;
           LiveStreaming.transcript_queue :=
             PyQueue.put (LiveStreaming.transcript_queue self) transcript;
           LiveStreaming.transcript_history := history;
           LiveStreaming.max_history_lines :=
             LiveStreaming.max_history_lines self;
           LiveStreaming.printed := out |}
      else
        {| LiveStreaming.is_running := LiveStreaming.is_running self;
           LiveStreaming.audio_queue := q;
           LiveStreaming.transcript_queue :=
             LiveStreaming.transcript_queue self;
           LiveStreaming.transcript_history :=
             LiveStreaming.transcript_history self;
           LiveStreaming.max_history_lines :=
             LiveStreaming.max_history_lines self;
           LiveStreaming.printed := out |} in
    LiveStreaming.max_history_lines self'
    = LiveStreaming.max_history_lines self
    /\ exists stamped : list (str * str),
         LiveStreaming.transcript_history self'
         = LiveStreaming.last_lines (LiveStreaming.max_history_lines self)
             (LiveStreaming.transcript_history self
              ++ map (fun st => lit "[" ++ fst st ++ lit "] " ++ snd st)
                   stamped)
         /\ LiveStreaming.transcript_queue self'
            = LiveStreaming.transcript_queue self ++ map snd stamped).
  { intros transcript out. cbv zeta.
    destruct (truthy transcript); [|exact N].
    cbn [LiveStreaming.max_history_lines LiveStreaming.transcript_history
         LiveStreaming.transcript_queue].
    split; [reflexivity|]. exists [(ts, transcript)]. cbn [map fst snd].
    split; [|reflexivity].
    unfold LiveStreaming.last_lines, LiveStreaming.pop0.
    rewrite length_app. cbn [List.length].
    destruct (LiveStreaming.max_history_lines self
              <? List.length (LiveStreaming.transcript_history self) + 1)
      eqn:C.
    - apply Nat.ltb_lt in C.
      replace (List.length (LiveStreaming.transcript_history self) + 1
               - LiveStreaming.max_history_lines self) with 1 by lia.
      reflexivity.
    - apply Nat.ltb_ge in C.
      replace (List.length (LiveStreaming.transcript_history self) + 1
               - LiveStreaming.max_history_lines self) with 0 by lia.
      reflexivity. }
  destruct r as [text|e]; apply G.
Qed.

End LiveStreamingFacts.

(** X17.  live_streaming_transcriber.py, [audio_processor] and
    [save_transcript]: a history that starts within
    [max_history_lines] stays within it; after any number of turns it
    holds the last [max_history_lines] of the lines produced so far,
    each the time stamp in brackets and the text, while the transcript
    queue holds the text of every one of them.  What [save_transcript]
    then writes is the two header lines and those last lines only. *)
Theorem history_holds_the_last_lines_only :
  forall (audio : Type) (turns : list (str * Engine.result))
         (self : LiveStreaming.transcriber audio)
         (output_file : str) (d : PyFile.disk),
    List.length (LiveStreaming.transcript_history self)
    <= LiveStreaming.max_history_lines self ->
    let self' := LiveStreaming.audio_processor turns self in
    exists stamped : list (str * str),
      LiveStreaming.transcript_history self'
      = LiveStreaming.last_lines (LiveStreaming.max_history_lines self)
          (LiveStreaming.transcript_history self
           ++ map (fun st => lit "[" ++ fst st ++ lit "] " ++ snd st) stamped)
      /\ LiveStreaming.transcript_queue self'
         = LiveStreaming.transcript_queue self ++ map snd stamped
      /\ List.length (LiveStreaming.transcript_history self')
         <= LiveStreaming.max_history_lines self
      /\ snd (fst (LiveStreaming.save_transcript output_file PyFile.NoFault
                     self' d))
         = Some (lit "LIVE LECTURE TRANSCRIPT" ++ Main.newline
                 ++ times "=" 50 ++ Main.newline ++ Main.newline
                 ++ concat (map (fun line => line ++ Main.newline)
                              (LiveStreaming.transcript_history self'))).
Proof.
  intros audio turns self output_file d L. cbv zeta.
  assert (G : exists stamped : list (str * str),
    LiveStreaming.max_history_lines (LiveStreaming.audio_processor turns self)
    = LiveStreaming.max_history_lines self
    /\ LiveStreaming.transcript_history
         (LiveStreaming.audio_processor turns self)
       = LiveStreaming.last_lines (LiveStreaming.max_history_lines self)
           (LiveStreaming.transcript_history self
            ++ map (fun st => lit "[" ++ fst st ++ lit "] " ++ snd st) stamped)
    /\ LiveStreaming.transcript_queue
         (LiveStreaming.audio_processor turns self)
       = LiveStreaming.transcript_queue self ++ map snd stamped).
  { unfold LiveStreaming.audio_processor. revert self L.
    induction turns as [|[ts r] turns IH]; intros self L.
    - exists []. cbn. rewrite !app_nil_r. split; [reflexivity|].
      split; [|reflexivity]. symmetry. now apply last_lines_all.
    - cbn [fold_left fst snd].
      destruct (LiveStreaming.is_running self).
      + destruct (processor_turn_history audio ts r self L)
          as (M & st1 & H1 & Q1).
        set (s1 := LiveStreaming.processor_turn ts r self) in *.
        destruct (IH s1) as (st2 & M2 & H2 & Q2).
        { rewrite H1, M. apply last_lines_length. }
        exists (st1 ++ st2). rewrite M2, H2, Q2, M, H1, Q1, !map_app.
        rewrite last_lines_app, <- !app_assoc. auto.
      + apply IH. exact L. }
  destruct G as (stamped & M & H & Q). exists stamped.
  split; [exact H|]. split; [exact Q|]. split.
  - rewrite H. apply last_lines_length.
  - unfold LiveStreaming.save_transcript, LiveStreaming.transcript_writes.
    cbn [PyFile.write_file fst snd concat]. rewrite <- !app_assoc.
    reflexivity.
Qed.

Lemma history_holds_the_last_lines_only_witness :
  exists stamped : list (str * str),
    LiveStreaming.transcript_history
      (LiveStreaming.audio_processor
         [(lit "10:00:05", Engine.Returns (lit " second "))]
         {| LiveStreaming.is_running := true;
            LiveStreaming.audio_queue := [7];
            LiveStreaming.transcript_queue := [lit "first"];
            LiveStreaming.transcript_history := [lit "[10:00:00] first"];
            LiveStreaming.max_history_lines := 1;
            LiveStreaming.printed := [] |})
    = LiveStreaming.last_lines 1
        ([lit "[10:00:00] first"]
         ++ map (fun st => lit "[" ++ fst st ++ lit "] " ++ snd st) stamped).
Proof.
  destruct (history_holds_the_last_lines_only nat
              [(lit "10:00:05", Engine.Returns (lit " second "))]
              {| LiveStreaming.is_running := true;
                 LiveStreaming.audio_queue := [7];
                 LiveStreaming.transcript_queue := [lit "first"];
                 LiveStreaming.transcript_history := [lit "[10:00:00] first"];
                 LiveStreaming.max_history_lines := 1;
                 LiveStreaming.printed := [] |}
              (lit "out.txt") None) as (stamped & H & _).
  - cbn. lia.
  - exists stamped. exact H.
Defined.

(* ===================================================================== *)
(** * rag_query.py, rag_api.py: the context *)
(* ===================================================================== *)

Lemma context_loop_prefix (max_context : Z) (transcripts : list Rag.transcript)
    (context_parts : list str) (current_length : Z) :
  exists k,
    k <= List.length transcripts
    /\ Rag.context_loop max_context transcripts context_parts current_length
       = (context_parts ++ map Rag.part (firstn k transcripts),
          (current_length + Rag.total (firstn k transcripts))%Z)
    /\ (forall j, 1 <= j <= k ->
          (current_length + Rag.total (firstn j transcripts)
           <= max_context)%Z)
    /\ (k < List.length transcripts ->
        (max_context
         < current_length + Rag.total (firstn (S k) transcripts))%Z).
Proof.
  revert context_parts current_length.
  induction transcripts as [|t r IH]; intros parts cur.
  - exists 0. cbn. rewrite app_nil_r, Z.add_0_r.
    repeat split; try lia.
  - cbn [Rag.context_loop].
    destruct (max_context <? cur + Rag.length t)%Z eqn:C.
    + apply Z.ltb_lt in C. exists 0. cbn [firstn map Rag.total fold_right].
      rewrite app_nil_r, Z.add_0_r. cbn [List.length].
      repeat split; try lia.
    + apply Z.ltb_ge in C.
      destruct (IH (parts ++ [Rag.part t]) (cur + Rag.length t)%Z)
        as (k & K & E & F & St).
      exists (S k). cbn [List.length firstn map]. rewrite E.
      rewrite <- app_assoc. cbn [app].
      unfold Rag.total in *. cbn [fold_right].
      repeat split.
      * lia.
      * f_equal. lia.
      * intros [|j] J; [lia|]. cbn [firstn fold_right].
        destruct j as [|j]; [cbn; lia|].
        specialize (F (S j)). cbn [firstn fold_right] in F |- *. lia.
      * intros J. cbn [firstn fold_right] in St |- *. lia.
Qed.

(** X18.  rag_query.py and rag_api.py, [create_context]: the context
    is made of the parts of a prefix of the transcripts, in order,
    joined by a newline; every transcript of the prefix passed the
    check of the budget against the summed lengths up to it, and the
    prefix ends at the first transcript that fails it: a transcript
    behind that one is left out even when it would fit. *)
Theorem context_is_a_prefix_of_the_transcripts :
  forall (transcripts : list Rag.transcript) (query : str) (max_context : Z),
    exists k,
      k <= List.length transcripts
      /\ Rag.create_context transcripts query max_context
         = Rag.join Main.newline (map Rag.part (firstn k transcripts))
      /\ (forall j, 1 <= j <= k ->
            (Rag.total (firstn j transcripts) <= max_context)%Z)
      /\ (k < List.length transcripts ->
          (max_context < Rag.total (firstn (S k) transcripts))%Z).
Proof.
  intros transcripts query max_context.
  destruct (context_loop_prefix max_context transcripts [] 0%Z)
    as (k & K & E & F & S).
  exists k. unfold Rag.create_context. rewrite E. cbn [fst app].
  repeat split; auto.
Qed.

(* ===================================================================== *)
(** * engine.py: the session file when [stop] falls inside a turn: C10 *)
(* ===================================================================== *)

Section EngineTurnsFacts.
Variable audio : Type.
Implicit Types (self : Engine.engine audio)
  (s : EngineTurns.threads audio).

(** A turn of [Engine.step] is the head of the loop followed by the
    rest of the body. *)
Lemma streaming_turn_takes_and_returns self chunk q r :
  Engine.audio_queue self = chunk :: q ->
  Engine.streaming_turn true r self
  = EngineTurns.streaming_returns chunk r (Engine.set_audio_queue self q).
Proof.
  intros Q. unfold Engine.streaming_turn, EngineTurns.streaming_returns.
  rewrite Q. reflexivity.
Qed.

Lemma refining_turn_takes_and_returns self job q r now :
  Engine.refine_queue self = job :: q ->
  Engine.refining_turn true r now self
  = Some (match EngineTurns.refining_returns job r now
                  (Engine.set_refine_queue self q) with
          | (self', Some transcript_data) =>
              Engine.update_callback self'
                (Engine.transcript_event transcript_data)
          | (self', None) => self'
          end).
Proof.
  intros Q. unfold Engine.refining_turn, EngineTurns.refining_returns.
  rewrite Q. cbn [negb PyQueue.get_unbounded]. destruct r as [text|e];
    [|reflexivity].
  cbv zeta. destruct (truthy (strip text) && (2 <? len (strip text))%Z);
    reflexivity.
Qed.

(** The rest of a streaming turn ends; it leaves the session list
    alone and gives the callback Streaming entries only. *)
Lemma streaming_returns_adds chunk r self :
  exists self' sentences,
    EngineTurns.streaming_returns chunk r self = Some self'
    /\ Engine.session_transcripts self' = Engine.session_transcripts self
    /\ Engine.callbacks self'
       = Engine.callbacks self ++ entries (Engine.chunk_id self) sentences.
Proof.
  unfold EngineTurns.streaming_returns. destruct r as [text|e].
  - cbv zeta. destruct (2 <? len (strip text))%Z eqn:L.
    + rewrite (long_truthy _ L). cbn [andb].
      destruct (feed_total audio self (strip text))
        as (sentences & -> & F & _).
      rewrite (emit_all audio _ _ F).
      eexists _, sentences. split; [reflexivity|]. cbn. auto.
    + rewrite andb_false_r. exists self, []. cbn.
      rewrite app_nil_r. auto.
  - eexists _, []. split; [reflexivity|]. cbn. rewrite app_nil_r. auto.
Qed.

Lemma refined_records_body (ts : list Engine.transcript) :
  Forall (fun t => Engine.status t = Engine.Refined) ts ->
  body ts = Observed.refined_records ts.
Proof.
  intros F. unfold body, Observed.refined_records. do 4 f_equal.
  apply map_ext_in. intros t Ht. rewrite Forall_forall in F.
  now rewrite (F t Ht).
Qed.

Lemma saved_from_grows d0 d session more :
  Observed.saved_from d0 d session ->
  Observed.saved_from d0 d (session ++ more).
Proof.
  intros [->|(now & k & ts & later & -> & ->)]; [now left|].
  right. exists now, k, ts, (later ++ more). now rewrite app_assoc.
Qed.

Lemma turns_inv_start (f : str) (d0 : PyFile.disk) :
  Observed.turns_inv d0 (EngineTurns.started (@Engine.init audio f), d0).
Proof. repeat split; [constructor | now left]. Qed.

Lemma turns_step_inv d0 (a : EngineTurns.action audio) s d :
  Observed.turns_inv d0 (s, d) ->
  exists s' d',
    EngineTurns.step a (s, d) = Some (s', d')
    /\ Observed.turns_inv d0 (s', d').
Proof.
  unfold Observed.turns_inv. cbn [fst snd]. intros (F & C & D).
  destruct a as [chunk|ready|r|ready|r now| |now flt];
    cbn [EngineTurns.step].
  - destruct (Engine.is_running _); eexists _, _;
      (split; [reflexivity|]); cbn [fst snd]; auto.
  - destruct (EngineTurns.streaming_holds s) eqn:H;
      [eexists _, _; split; [reflexivity|]; cbn [fst snd]; auto|].
    destruct (Engine.is_running _ && ready);
      [|eexists _, _; split; [reflexivity|]; cbn [fst snd]; auto].
    destruct (PyQueue.get_unbounded _) as [[audio_chunk q]|];
      eexists _, _; (split; [reflexivity|]); cbn [fst snd]; auto.
  - destruct (EngineTurns.streaming_holds s) as [chunk|] eqn:H;
      [|eexists _, _; split; [reflexivity|]; cbn [fst snd]; auto].
    destruct (streaming_returns_adds chunk r (EngineTurns.engine s))
      as (self' & sentences & -> & S & K).
    eexists _, _. split; [reflexivity|]. cbn [fst snd EngineTurns.engine].
    rewrite S, K, refined_of_app, refined_of_entries, app_nil_r.
    auto.
  - destruct (EngineTurns.refining s) eqn:R;
      try (eexists _, _; split; [reflexivity|]; cbn [fst snd]; now auto).
    destruct (Engine.is_running _ && ready);
      [|eexists _, _; split; [reflexivity|]; cbn [fst snd]; auto].
    destruct (PyQueue.get_unbounded _) as [[job q]|];
      [|eexists _, _; split; [reflexivity|]; cbn [fst snd]; auto].
    eexists _, _. split; [reflexivity|].
    unfold EngineTurns.waiting in *. rewrite R in C.
    cbn [fst snd EngineTurns.engine EngineTurns.refining
         Engine.session_transcripts Engine.callbacks
         Engine.set_refine_queue]. auto.
  - destruct (EngineTurns.refining s) as [|job|td] eqn:R;
      try (eexists _, _; split; [reflexivity|]; cbn [fst snd]; now auto).
    unfold EngineTurns.waiting in C. rewrite R in C. rewrite app_nil_r in C.
    unfold EngineTurns.refining_returns. destruct r as [text|e].
    + cbv zeta.
      destruct (truthy (strip text) && (2 <? len (strip text))%Z).
      * eexists _, _. split; [reflexivity|].
        unfold EngineTurns.waiting.
        cbn [fst snd EngineTurns.engine EngineTurns.refining
             Engine.session_transcripts Engine.callbacks
             Engine.set_session_transcripts].
        split; [|split].
        -- apply Forall_app. split; [exact F|]. now repeat constructor.
        -- now rewrite <- C.
        -- now apply saved_from_grows.
      * eexists _, _. split; [reflexivity|].
        unfold EngineTurns.waiting.
        cbn [fst snd EngineTurns.engine EngineTurns.refining].
        rewrite app_nil_r. auto.
    + eexists _, _. split; [reflexivity|].
      unfold EngineTurns.waiting.
      cbn [fst snd EngineTurns.engine EngineTurns.refining
           Engine.session_transcripts Engine.callbacks Engine.print].
      rewrite app_nil_r. auto.
  - destruct (EngineTurns.refining s) as [|job|td] eqn:R;
      try (eexists _, _; split; [reflexivity|]; cbn [fst snd]; now auto).
    eexists _, _. split; [reflexivity|].
    unfold EngineTurns.waiting in *. rewrite R in C.
    cbn [fst snd EngineTurns.engine EngineTurns.refining
         Engine.session_transcripts Engine.callbacks
         Engine.update_callback].
    assert (T : Engine.status td = Engine.Refined).
    { rewrite Forall_forall in F. apply F. rewrite C.
      apply in_or_app. right. now left. }
    split; [exact F|]. split; [|exact D].
    rewrite refined_of_app, app_nil_r, C. f_equal.
    unfold Observed.refined_of. cbn [flat_map]. rewrite T. reflexivity.
  - unfold Engine.stop, Engine._save_session.
    cbn [Engine.session_transcripts Engine.set_is_running].
    destruct flt as [|e|k e]; cbn [PyFile.write_file];
      eexists _, _; (split; [reflexivity|]);
      unfold EngineTurns.waiting;
      cbn [fst snd EngineTurns.engine EngineTurns.refining
           Engine.session_transcripts Engine.callbacks Engine.print
           Engine.set_is_running];
      (split; [exact F|]); (split; [exact C|]).
    + right. eexists now, _, _, []. rewrite app_nil_r.
      split; [reflexivity|]. rewrite concat_session_writes.
      rewrite (refined_records_body _ F). now rewrite firstn_all.
    + exact D.
    + right. eexists now, k, _, []. rewrite app_nil_r.
      split; [reflexivity|]. rewrite concat_session_writes.
      now rewrite (refined_records_body _ F).
Qed.

(** Every sequence of steps runs to its end and keeps the invariant. *)
Lemma turns_run_inv d0 (acts : list (EngineTurns.action audio)) s d :
  Observed.turns_inv d0 (s, d) ->
  exists s' d',
    EngineTurns.run acts (s, d) = Some (s', d')
    /\ Observed.turns_inv d0 (s', d').
Proof.
  revert s d. induction acts as [|a acts IH]; intros s d I.
  - now exists s, d.
  - cbn [EngineTurns.run].
    destruct (turns_step_inv d0 a s d I) as (s1 & d1 & -> & I1).
    now apply IH.
Qed.

Lemma turns_run_app (acts1 acts2 : list (EngineTurns.action audio)) sd :
  EngineTurns.run (acts1 ++ acts2) sd
  = match EngineTurns.run acts1 sd with
    | Some sd' => EngineTurns.run acts2 sd'
    | None => None
    end.
Proof.
  revert sd. induction acts1 as [|a acts1 IH]; intros sd; [reflexivity|].
  cbn [app EngineTurns.run]. destruct (EngineTurns.step a sd); [apply IH|].
  reflexivity.
Qed.

End EngineTurnsFacts.

(** The refining thread is inside its pipeline call when [stop] saves
    the session; the call ends afterwards and the entry joins the
    session list and reaches the callback, while the file, written
    before, holds the header and the rule only. *)
Example turn_in_flight_at_stop_ends_after_the_save :
  let now := {| Engine.year := 2024; Engine.month := 5; Engine.day := 17;
                Engine.hour := 10; Engine.minute := 0; Engine.second := 0 |} in
  let entry := {| Engine.id := 1; Engine.text := lit "Hello world again.";
                  Engine.status := Engine.Refined;
                  Engine.timestamp := Some 7%Z |} in
  option_map
    (fun sd => (Engine.session_transcripts (EngineTurns.engine (fst sd)),
                Engine.callbacks (EngineTurns.engine (fst sd)), snd sd))
    (EngineTurns.run
       [EngineTurns.Capture 5; EngineTurns.StreamingTakes true;
        EngineTurns.StreamingReturns (Engine.Returns (lit "Hello world."));
        EngineTurns.RefiningTakes true;
        EngineTurns.Stop now PyFile.NoFault;
        EngineTurns.RefiningReturns (Engine.Returns (lit "Hello world again."))
          7;
        EngineTurns.RefiningCallsBack]
       (EngineTurns.started (Engine.init (lit "session.txt")), None))
  = Some ([entry],
          entries 0 [lit "Hello world."] ++ [Engine.transcript_event entry],
          Some (header now ++ Observed.refined_records [])).
Proof. vm_compute. reflexivity. Qed.

(** C10.  engine.py, from the started engine and for every sequence of
    steps of its threads, [stop] falling anywhere, also while a worker
    is inside its pipeline call: the run reaches a state whose session
    list holds entries of status "Refined" only; the rest of a turn of
    the streaming thread never changes the session list, its entries
    going to the callback alone.  The session file is either what it
    was at the start or the beginning of a snapshot whose records are
    those of the first entries of the session list, each reading
    "[Refined] ..."; and when [stop] comes last and its write meets no
    error, the file is the header, the rule and one "[Refined] ..."
    record for every entry of the session list. *)
Theorem session_holds_refined_entries_only :
  forall (audio : Type) (f : str) (d0 : PyFile.disk)
         (acts : list (EngineTurns.action audio)) (now : Engine.datetime),
    (exists s d,
        EngineTurns.run acts (EngineTurns.started (Engine.init f), d0)
        = Some (s, d)
        /\ Forall (fun t => Engine.status t = Engine.Refined)
             (Engine.session_transcripts (EngineTurns.engine s))
        /\ Observed.saved_from d0 d
             (Engine.session_transcripts (EngineTurns.engine s)))
    /\ (exists s d,
          EngineTurns.run (acts ++ [EngineTurns.Stop now PyFile.NoFault])
            (EngineTurns.started (Engine.init f), d0)
          = Some (s, d)
          /\ d = Some (header now
                       ++ Observed.refined_records
                            (Engine.session_transcripts
                               (EngineTurns.engine s))))
    /\ (forall chunk r (self : Engine.engine audio),
          exists self',
            EngineTurns.streaming_returns chunk r self = Some self'
            /\ Engine.session_transcripts self'
               = Engine.session_transcripts self)
    /\ (forall ready r (self : Engine.engine audio),
          exists self',
            Engine.streaming_turn ready r self = Some self'
            /\ Engine.session_transcripts self'
               = Engine.session_transcripts self).
Proof.
  intros audio f d0 acts now.
  destruct (turns_run_inv audio d0 acts _ _ (turns_inv_start audio f d0))
    as (s & d & R & F & _ & D).
  cbn [fst snd] in F, D. split; [|split; [|split]].
  - exists s, d. auto.
  - rewrite turns_run_app, R. cbn [EngineTurns.run EngineTurns.step].
    unfold Engine.stop. rewrite save_session_writes.
    eexists _, _. split; [reflexivity|].
    cbn [EngineTurns.engine Engine.session_transcripts Engine.print
         Engine.set_is_running].
    now rewrite (refined_records_body _ F).
  - intros chunk r self.
    destruct (streaming_returns_adds audio chunk r self)
      as (self' & sentences & E & S & _).
    exists self'. auto.
  - intros ready r self.
    destruct (streaming_turn_inv audio ready r self) as (self' & R' & S & _).
    exists self'. split; [exact R' | exact S].
Qed.

